(** * DataExplorerPro: the statistics engine, embedded and verified

    A shallow embedding of the numerical core of DataExplorerPro
    (utils/statistics.ts, the two revisions of components/FileUpload.tsx and
    the [forceNumericalAll] handler of App.tsx).

    JavaScript numbers are IEEE-754 binary64 values: they are modelled by
    Rocq's primitive [float], whose operations are the hardware ones, so that
    every function below evaluates bit for bit as the TypeScript does.
    Array lengths, counts and degrees of freedom are integers below 2^32 in
    the source; they are kept in [Z] and converted with [Z2F] wherever the
    source uses them in floating-point arithmetic (the conversion is exact
    below 2^53). *)

From Stdlib Require Import ZArith List Bool String Ascii Floats Lia DecimalString Permutation Sorted.
Import ListNotations.

Set Warnings "-inexact-float".

(** ** The JavaScript run time *)

(** The built-ins whose algorithm ECMAScript leaves to the implementation
    ([Math.exp] is "implementation-approximated") or which are long string
    algorithms (text to number, number to text).  The engine is written over
    any such run time; [Reference.reference_runtime] below is a concrete one. *)
Class Runtime : Type := {
  Math_exp : float -> float;
  StringToNumber : string -> float;
  parseFloat : string -> float;
  NumberToString : float -> string
}.

Module JS.

Local Open Scope Z_scope.

(** A JavaScript value of the kinds a parsed spreadsheet cell can take. *)
Inductive value : Type :=
| VNull
| VUndefined
| VBool (b : bool)
| VNum (x : float)
| VStr (s : string).

(** An integer as a Number: round to nearest even, exact below 2^53. *)
Definition Z2F (z : Z) : float := SF2Prim (binary_normalize prec emax z 0 false).

Definition NaN : float := PrimFloat.nan.

Definition isNaN (x : float) : bool := PrimFloat.is_nan x.

(** [x === 0 && Object.is(x, -0)]. *)
Definition is_neg_zero (x : float) : bool :=
  (PrimFloat.is_zero x && PrimFloat.get_sign x)%bool.

Definition Math_abs (x : float) : float := PrimFloat.abs x.
Definition Math_sqrt (x : float) : float := PrimFloat.sqrt x.
Definition Math_PI : float := 3.141592653589793%float.

(** [Math.max(a, b)]: NaN if either is NaN, and +0 is larger than -0. *)
Definition Math_max (a b : float) : float :=
  if (isNaN a || isNaN b)%bool then NaN
  else if (a <? b)%float then b
  else if (b <? a)%float then a
  else if PrimFloat.get_sign a then b else a.

(** [Math.min(a, b)]: NaN if either is NaN, and -0 is smaller than +0. *)
Definition Math_min (a b : float) : float :=
  if (isNaN a || isNaN b)%bool then NaN
  else if (a <? b)%float then a
  else if (b <? a)%float then b
  else if PrimFloat.get_sign a then a else b.

(** [x ** 2] and [Math.pow(x, 2)]: the correctly rounded square. *)
Definition square (x : float) : float := (x * x)%float.

(** [typeof v === 'number'], [typeof v === 'boolean']. *)
Definition is_number (v : value) : bool :=
  match v with VNum _ => true | _ => false end.
Definition is_boolean (v : value) : bool :=
  match v with VBool _ => true | _ => false end.

(** [v === null || v === undefined]. *)
Definition is_nullish (v : value) : bool :=
  match v with VNull | VUndefined => true | _ => false end.

(** [v === ''] (strict equality: only the empty string itself). *)
Definition is_empty_string (v : value) : bool :=
  match v with VStr EmptyString => true | _ => false end.

(** White space that [String.prototype.trim] and the numeric grammar strip
    (the ASCII part of it: strings are modelled as ASCII text). *)
Definition is_white (c : ascii) : bool :=
  let n := Z.of_nat (nat_of_ascii c) in
  ((9 <=? n) && (n <=? 13) || (n =? 32))%bool.

Fixpoint trim_start (s : string) : string :=
  match s with
  | String c r => if is_white c then trim_start r else s
  | EmptyString => EmptyString
  end.

Fixpoint all_white (s : string) : bool :=
  match s with
  | String c r => (is_white c && all_white r)%bool
  | EmptyString => true
  end.

Fixpoint trim_end (s : string) : string :=
  match s with
  | String c r => if all_white s then EmptyString else String c (trim_end r)
  | EmptyString => EmptyString
  end.

Definition trim (s : string) : string := trim_end (trim_start s).

Section WithRuntime.
Context {RT : Runtime}.

(** [Number(v)]. *)
Definition ToNumber (v : value) : float :=
  match v with
  | VNull => 0%float
  | VUndefined => NaN
  | VBool b => if b then 1%float else 0%float
  | VNum x => x
  | VStr s => StringToNumber s
  end.

(** [String(v)]. *)
Definition ToString (v : value) : string :=
  match v with
  | VNull => "null"
  | VUndefined => "undefined"
  | VBool b => if b then "true" else "false"
  | VNum x => NumberToString x
  | VStr s => s
  end.

(** [String(v).trim() === ''].  The text of a number, boolean, null or
    undefined is never blank. *)
Definition text_is_blank (v : value) : bool :=
  match v with
  | VStr s => all_white s
  | _ => false
  end.

(** [parseFloat(String(v))].  For a number the text is its shortest
    round-tripping decimal, so parsing gives the number back, except that
    -0 prints as "0" and comes back as +0 (and NaN prints as "NaN", which
    parses to NaN). *)
Definition parseFloat_text (v : value) : float :=
  match v with
  | VNull | VUndefined | VBool _ => NaN
  | VNum x => if is_neg_zero x then 0%float else x
  | VStr s => parseFloat s
  end.

(** [Number(String(v))], the same remark applying to numbers. *)
Definition ToNumber_text (v : value) : float :=
  match v with
  | VNull | VUndefined | VBool _ => NaN
  | VNum x => if is_neg_zero x then 0%float else x
  | VStr s => StringToNumber s
  end.

End WithRuntime.

(** SameValueZero, the equality of [Set]: NaN equals NaN, +0 equals -0. *)
Definition same_value_zero (a b : value) : bool :=
  match a, b with
  | VNull, VNull => true
  | VUndefined, VUndefined => true
  | VBool x, VBool y => Bool.eqb x y
  | VNum x, VNum y => ((x =? y)%float || (isNaN x && isNaN y))%bool
  | VStr x, VStr y => String.eqb x y
  | _, _ => false
  end.

(** [new Set(l).size]. *)
Fixpoint set_size (l : list value) : Z :=
  match l with
  | [] => 0
  | v :: r => if existsb (same_value_zero v) r then set_size r else 1 + set_size r
  end.

(** A row object: its own properties in [Object.keys] order. *)
Definition row : Type := list (string * value).

Fixpoint row_get (r : row) (k : string) : value :=
  match r with
  | [] => VUndefined
  | (k', v) :: r' => if String.eqb k' k then v else row_get r' k
  end.

(** [r[k] = v] on a copy of [r]. *)
Fixpoint row_set (r : row) (k : string) (v : value) : row :=
  match r with
  | [] => [(k, v)]
  | (k', v') :: r' =>
      if String.eqb k' k then (k', v) :: r' else (k', v') :: row_set r' k v
  end.

Definition Object_keys {A} (o : list (string * A)) : list string := map fst o.

End JS.

(** ** types.ts: the data model *)

Inductive VariableType : Type := numerical | categorical | unknown.

Definition VariableType_eqb (a b : VariableType) : bool :=
  match a, b with
  | numerical, numerical | categorical, categorical | unknown, unknown => true
  | _, _ => false
  end.

Record VariableStats : Type := {
  count : Z;
  missing : Z;
  unique : Z;
  mean : option float;
  median : option float;
  std : option float;
  min : option float;
  max : option float;
  frequencies : option (list (string * Z))
}.

Record DataVariable : Type := {
  name : string;
  type : VariableType;
  values : list JS.value;
  stats : VariableStats
}.

Record CorrelationResult : Type := {
  x : string;
  y : string;
  r : float;
  p : float;
  n : Z;
  significance : string
}.

Record Dataset : Type := {
  filename : string;
  data : list JS.row;
  variables : list DataVariable;
  numericalVariables : list string;
  categoricalVariables : list string
}.

(** ** utils/statistics.ts *)

Module Statistics.
Import JS.

Local Open Scope float_scope.

Definition len {A} (l : list A) : Z := Z.of_nat (List.length l).

(** [l.reduce((a, b) => a + b, 0)]. *)
Definition sum_all (l : list float) : float := fold_left (fun a b => a + b) l 0.

(** [l.reduce((acc, xi, i) => f(acc, xi, i), init)], the index starting at [i]. *)
Fixpoint reduce_i {A} (f : A -> float -> nat -> A) (l : list float) (i : nat) (init : A) : A :=
  match l with
  | [] => init
  | xi :: l' => reduce_i f l' (S i) (f init xi i)
  end.

(** [l[i]] where it is used as a number: [undefined] behaves as NaN. *)
Definition at_index (l : list float) (i : nat) : float := nth i l NaN.

Definition calculatePearson (x y : list float) : float :=
  let n := len x in
  if (negb (n =? len y)%Z || (n =? 0)%Z)%bool then 0 else
  let sumX := sum_all x in
  let sumY := sum_all y in
  let sumXY := reduce_i (fun sum xi i => sum + xi * at_index y i) x 0%nat 0 in
  let sumX2 := fold_left (fun sum xi => sum + xi * xi) x 0 in
  let sumY2 := fold_left (fun sum yi => sum + yi * yi) y 0 in
  let numerator := Z2F n * sumXY - sumX * sumY in
  let denominator :=
    Math_sqrt ((Z2F n * sumX2 - sumX * sumX) * (Z2F n * sumY2 - sumY * sumY)) in
  if denominator =? 0 then 0 else numerator / denominator.

Definition getSignificanceStars (p : float) : string :=
  if p <? 0.001 then "***"%string
  else if p <? 0.01 then "**"%string
  else if p <? 0.05 then "*"%string
  else ""%string.

Record PairwiseComparison : Type := {
  group1 : string;
  group2 : string;
  pw_p : float;
  sig : string
}.

Record GroupSummary : Type := {
  g_name : string;
  g_n : Z;
  g_mean : float;
  g_ssq : float;
  g_variance : float
}.

Record GroupReport : Type := {
  test : string;
  f : float;
  gr_p : float;
  etaSq : float;
  groups : list GroupSummary;
  dfB : Z;
  dfW : Z;
  pairwise : list PairwiseComparison
}.

(** The records pushed by [for (i = 0; i < k; i++) for (j = i + 1; j < k; j++)]
    from [l[i]] and [l[j]], in that order. *)
Fixpoint all_pairs {A B} (mk : A -> A -> B) (l : list A) : list B :=
  match l with
  | [] => []
  | a :: l' => map (mk a) l' ++ all_pairs mk l'
  end.

(** [d || 1] for a number [d] that is an integer. *)
Definition or_one (d : Z) : Z := if (d =? 0)%Z then 1%Z else d.

(** [{ name, n, mean, ssq, variance }] of one group. *)
Definition summarize_group (g : string * list float) : GroupSummary :=
  let name := fst g in
  let vals := snd g in
  let mean := sum_all vals / Z2F (len vals) in
  let ssq := fold_left (fun a b => a + square (b - mean)) vals 0 in
  let variance := ssq / Z2F (or_one (len vals - 1)) in
  {| g_name := name; g_n := len vals; g_mean := mean; g_ssq := ssq; g_variance := variance |}.

Section WithRuntime.
Context {RT : Runtime}.

Definition getPFromT (t : float) (df : Z) : float :=
  if (df <=? 0)%Z then 1.0 else
  let t_abs := Math_abs t in
  let k := 1 / (1 + 0.2316419 * t_abs) in
  let a1 := 0.319381530 in
  let a2 := -0.356563782 in
  let a3 := 1.781477937 in
  let a4 := -1.821255978 in
  let a5 := 1.330274429 in
  let poly := ((((a5 * k + a4) * k + a3) * k + a2) * k + a1) * k in
  let normalCDF :=
    1 - (1 / Math_sqrt (2 * Math_PI)) * Math_exp (-0.5 * t_abs * t_abs) * poly in
  let p := 2 * (1 - normalCDF) in
  let p := if (df <? 30)%Z then p * (1 + (p * p + 1) / (4 * Z2F df)) else p in
  Math_min (Math_max p 0) 1.

Definition calculatePValue (r : float) (n : Z) : float :=
  if (n <=? 2)%Z then 1.0 else
  let t := Math_abs r * Math_sqrt (Z2F (n - 2) / (1 - r * r)) in
  getPFromT t (n - 2).

(** The pooled-variance t-test of two groups. *)
Definition compare_groups (g1 g2 : GroupSummary) : PairwiseComparison :=
  let pooledVar :=
    (Z2F (g_n g1 - 1) * g_variance g1 + Z2F (g_n g2 - 1) * g_variance g2)
    / Z2F (g_n g1 + g_n g2 - 2) in
  let t :=
    Math_abs (g_mean g1 - g_mean g2)
    / Math_sqrt (pooledVar * (1 / Z2F (g_n g1) + 1 / Z2F (g_n g2))) in
  let pPair := getPFromT t (g_n g1 + g_n g2 - 2) in
  {| group1 := g_name g1; group2 := g_name g2; pw_p := pPair;
     sig := getSignificanceStars pPair |}.

(** [groups] lists the entries of the [Record<string, number[]>] in
    [Object.keys] order (the labels of a record are distinct); [None] is the
    source's [null]. *)
Definition calculateGroupStats (groups : list (string * list float)) : option GroupReport :=
  let groupNames := Object_keys groups in
  let k := len groupNames in
  if (k <? 2)%Z then None else
  let allValues := List.concat (map snd groups) in
  let groupData := map summarize_group groups in
  let grandMean := sum_all allValues / Z2F (len allValues) in
  let nTotal := len allValues in
  let ssb :=
    fold_left (fun acc g => acc + Z2F (g_n g) * square (g_mean g - grandMean)) groupData 0 in
  let ssw := fold_left (fun acc g => acc + g_ssq g) groupData 0 in
  let dfB := (k - 1)%Z in
  let dfW := (nTotal - k)%Z in
  if (dfW <=? 0)%Z then None else
  let msb := ssb / Z2F dfB in
  let msw := ssw / Z2F dfW in
  let f := msb / msw in
  let pGlobal := getPFromT (Math_sqrt f) dfW in
  let etaSq := ssb / (ssb + ssw) in
  let pairwise := if (2 <=? k)%Z then all_pairs compare_groups groupData else [] in
  Some {| test := if (k =? 2)%Z then "Independent T-test"%string else "One-way ANOVA"%string;
          f := f; gr_p := pGlobal; etaSq := etaSq; groups := groupData;
          dfB := dfB; dfW := dfW; pairwise := pairwise |}.

(** [values.filter(v => v !== null && v !== undefined && v !== '')]. *)
Definition not_missing (v : value) : bool :=
  (negb (is_nullish v) && negb (is_empty_string v))%bool.

(** [freqs[key] = (freqs[key] || 0) + 1]. *)
Fixpoint freq_incr (key : string) (freqs : list (string * Z)) : list (string * Z) :=
  match freqs with
  | [] => [(key, 1%Z)]
  | (k, c) :: freqs' =>
      if String.eqb k key then (k, (c + 1)%Z) :: freqs' else (k, c) :: freq_incr key freqs'
  end.

(** [[...nums].sort((a, b) => a - b)]: the sort is stable, and [a] goes
    before [b] when [a - b] is negative (a NaN difference counts as 0). *)
Fixpoint sort_insert (a : float) (l : list float) : list float :=
  match l with
  | [] => [a]
  | b :: l' => if b - a <? 0 then b :: sort_insert a l' else a :: l
  end.

Definition sort_ascending (l : list float) : list float := fold_right sort_insert [] l.

Definition calculateSummaryStats (values : list value) (type : VariableType) : VariableStats :=
  let filtered := filter not_missing values in
  let n := len filtered in
  let missing := (len values - n)%Z in
  let unique := set_size filtered in
  if (VariableType_eqb type categorical || VariableType_eqb type unknown)%bool then
    let freqs := fold_left (fun freqs v => freq_incr (ToString v) freqs) filtered [] in
    {| count := n; missing := missing; unique := unique;
       mean := None; median := None; std := None; min := None; max := None;
       frequencies := Some freqs |}
  else
  let nums := filter (fun v => negb (isNaN v)) (map ToNumber filtered) in
  if (len nums =? 0)%Z then
    {| count := 0; missing := len values; unique := 0;
       mean := None; median := None; std := None; min := None; max := None;
       frequencies := None |}
  else
  let sorted := sort_ascending nums in
  let sum := sum_all nums in
  let mean := sum / Z2F (len nums) in
  let median :=
    if (len sorted mod 2 =? 0)%Z
    then (at_index sorted (List.length sorted / 2 - 1) + at_index sorted (List.length sorted / 2)) / 2
    else at_index sorted (List.length sorted / 2) in
  let sqDiffs := map (fun v => square (v - mean)) nums in
  let std := Math_sqrt (sum_all sqDiffs / Z2F (len nums)) in
  {| count := n; missing := missing; unique := unique;
     mean := Some mean; median := Some median; std := Some std;
     min := Some (at_index sorted 0);
     max := Some (at_index sorted (List.length sorted - 1));
     frequencies := None |}.

(** One cell of the matrix: the record pushed for [(xVar, yVar)]. *)
Definition correlate (data : list row) (xVar yVar : string) : CorrelationResult :=
  let pairs :=
    filter (fun p => (negb (isNaN (fst p)) && negb (isNaN (snd p)))%bool)
           (map (fun row => (ToNumber (row_get row xVar), ToNumber (row_get row yVar))) data) in
  let xVals := map fst pairs in
  let yVals := map snd pairs in
  let r := calculatePearson xVals yVals in
  let p := calculatePValue r (len pairs) in
  {| x := xVar; y := yVar; r := r; p := p; n := len pairs;
     significance := getSignificanceStars p |}.

Definition getCorrelationMatrix (data : list row) (vars : list string) : list CorrelationResult :=
  flat_map (fun xVar => map (fun yVar => correlate data xVar yVar) vars) vars.

End WithRuntime.

End Statistics.

(** ** Objects and their keys *)

(** An object used as a map: its own string-keyed properties as a list in
    the order [Object.keys] and [for-in] report them, which is array indices
    first, by value, then the other keys as they were created. *)
Module Objects.

Local Open Scope Z_scope.

(** The property names every object inherits from [Object.prototype]: read
    through [o[key]] they are functions or objects, not [undefined]. *)
Definition Object_prototype_names : list string :=
  ["constructor"; "__defineGetter__"; "__defineSetter__"; "hasOwnProperty";
   "__lookupGetter__"; "__lookupSetter__"; "isPrototypeOf"; "propertyIsEnumerable";
   "toString"; "valueOf"; "__proto__"; "toLocaleString"]%string.

Definition inherited (k : string) : bool := existsb (String.eqb k) Object_prototype_names.

Fixpoint digits_value (s : string) (acc : Z) : option Z :=
  match s with
  | EmptyString => Some acc
  | String c r =>
      let n := Z.of_nat (nat_of_ascii c) in
      if ((48 <=? n) && (n <=? 57))%bool then digits_value r (10 * acc + (n - 48)) else None
  end.

(** The array index a key spells, if any: a canonical decimal numeral of at
    most 2^32 - 2. *)
Definition array_index (k : string) : option Z :=
  match k with
  | EmptyString => None
  | String c r =>
      if Ascii.eqb c "0" then (if String.eqb r "" then Some 0 else None)
      else
        match digits_value k 0 with
        | Some i => if i <=? 4294967294 then Some i else None
        | None => None
        end
  end.

Definition has_own {A} (o : list (string * A)) (k : string) : bool :=
  existsb (fun e => String.eqb (fst e) k) o.

(** [o[k]] for an own key. *)
Fixpoint get_own {A} (o : list (string * A)) (k : string) : option A :=
  match o with
  | [] => None
  | (k', a) :: o' => if String.eqb k' k then Some a else get_own o' k
  end.

Fixpoint replace_own {A} (o : list (string * A)) (k : string) (a : A) : list (string * A) :=
  match o with
  | [] => []
  | (k', a') :: o' =>
      if String.eqb k' k then (k', a) :: o' else (k', a') :: replace_own o' k a
  end.

(** A new array index goes before the first key that is no index or a
    larger one. *)
Fixpoint insert_index {A} (o : list (string * A)) (i : Z) (k : string) (a : A)
  : list (string * A) :=
  match o with
  | [] => [(k, a)]
  | (k', a') :: o' =>
      match array_index k' with
      | Some i' => if i' <? i then (k', a') :: insert_index o' i k a else (k, a) :: o
      | None => (k, a) :: o
      end
  end.

(** [o[k] = a].  Assigning to [__proto__] creates no property. *)
Definition set {A} (o : list (string * A)) (k : string) (a : A) : list (string * A) :=
  if String.eqb k "__proto__" then o
  else if has_own o k then replace_own o k a
  else
    match array_index k with
    | Some i => insert_index o i k a
    | None => o ++ [(k, a)]
    end.

(** A call that returns, or throws a TypeError. *)
Inductive outcome (A : Type) : Type :=
| Returned (a : A)
| Thrown.
Arguments Returned {A} a.
Arguments Thrown {A}.

End Objects.

(** ** components/FileUpload.tsx: reading a CSV text *)

Module CSV.
Import JS.

Definition quote : ascii := ascii_of_nat 34.
Definition LF : ascii := ascii_of_nat 10.
Definition CR : ascii := ascii_of_nat 13.

(** Put a character in front of the first piece. *)
Definition cons_head (c : ascii) (pieces : list string) : list string :=
  match pieces with
  | [] => [String c EmptyString]
  | s :: pieces' => String c s :: pieces'
  end.

(** [text.split(/\r?\n/)]. *)
Fixpoint split_lines (text : string) : list string :=
  match text with
  | EmptyString => [EmptyString]
  | String c r =>
      if Ascii.eqb c LF then EmptyString :: split_lines r
      else if Ascii.eqb c CR then
        match r with
        | String c' r' =>
            if Ascii.eqb c' LF then EmptyString :: split_lines r'
            else cons_head c (split_lines r)
        | EmptyString => cons_head c (split_lines r)
        end
      else cons_head c (split_lines r)
  end.

(** [line.split(',')]. *)
Fixpoint split_commas (line : string) : list string :=
  match line with
  | EmptyString => [EmptyString]
  | String c r =>
      if Ascii.eqb c "," then EmptyString :: split_commas r
      else cons_head c (split_commas r)
  end.

Fixpoint count_quotes (s : string) : nat :=
  match s with
  | EmptyString => 0
  | String c r => if Ascii.eqb c quote then S (count_quotes r) else count_quotes r
  end.

(** [line.split(re)] where [re] is a comma followed, up to the end of the
    line, by pairs of double quotes only: a comma separates when the rest
    of the line holds an even number of double quotes. *)
Fixpoint split_fields (line : string) : list string :=
  match line with
  | EmptyString => [EmptyString]
  | String c r =>
      if (Ascii.eqb c "," && Nat.even (count_quotes r))%bool
      then EmptyString :: split_fields r
      else cons_head c (split_fields r)
  end.

Fixpoint drop_trailing_quote (s : string) : string :=
  match s with
  | EmptyString => EmptyString
  | String c EmptyString => if Ascii.eqb c quote then EmptyString else s
  | String c r => String c (drop_trailing_quote r)
  end.

(** [s.replace(re, '')] where [re] is a double quote at the start or at
    the end, all matches: a quote at the start goes, and one at the end of
    what is left. *)
Definition strip_quotes (s : string) : string :=
  match s with
  | String c r => if Ascii.eqb c quote then drop_trailing_quote r else drop_trailing_quote s
  | EmptyString => EmptyString
  end.

(** [v.trim()] with its outer double quotes stripped. *)
Definition clean (s : string) : string := strip_quotes (trim s).

Section WithRuntime.
Context {RT : Runtime}.

(** The value stored for the field [values[i]], absent when the line is
    short. *)
Definition cell (val : option string) : value :=
  match val with
  | None => VNull
  | Some val =>
      if String.eqb val "" then VNull
      else if (negb (isNaN (StringToNumber val)) && negb (String.eqb (trim val) ""))%bool
      then VNum (StringToNumber val)
      else VStr val
  end.

(** The object built from one line: [obj[h] = ...] for each header in turn. *)
Definition parse_row (headers : list string) (line : string) : row :=
  let values := map clean (split_fields line) in
  fold_left (fun obj hi => Objects.set obj (fst hi) (cell (nth_error values (snd hi))))
            (combine headers (seq 0 (List.length headers))) [].

(** The rows handed to [processRawData]; [None] when [parseCSV] returns
    before that, for want of a header line and a data line. *)
Definition parse_rows (text : string) : option (list row) :=
  let lines := filter (fun l => negb (String.eqb (trim l) "")) (split_lines text) in
  match lines with
  | header :: (_ :: _) as rest =>
      let headers := map clean (split_commas header) in
      Some (map (parse_row headers) rest)
  | _ => None
  end.

End WithRuntime.
End CSV.

(** ** components/FileUpload.tsx: the type classifier *)

(** The revision kept as src/components/FileUpload.tsx: a column is numerical
    when every non-missing value is. *)
Module FileUpload.
Import JS.

Section WithRuntime.
Context {RT : Runtime}.

(** [v !== null && v !== undefined && v !== '']. *)
Definition nonNull (v : value) : bool :=
  (negb (is_nullish v) && negb (is_empty_string v))%bool.

(** [typeof v === 'number' || (!isNaN(Number(v)) && typeof v !== 'boolean')]. *)
Definition numeric_like (v : value) : bool :=
  (is_number v || (negb (isNaN (ToNumber v)) && negb (is_boolean v)))%bool.

(** The [type] that [processRawData] gives to the column holding [values]. *)
Definition column_type (values : list value) : VariableType :=
  let nonNull := filter nonNull values in
  if (0 <? Statistics.len nonNull)%Z then
    let isNumeric := forallb numeric_like nonNull in
    if isNumeric then numerical else categorical
  else unknown.

Definition column (rows : list row) (h : string) : DataVariable :=
  let values := map (fun r => row_get r h) rows in
  let type := column_type values in
  {| name := h; type := type; values := values;
     stats := Statistics.calculateSummaryStats values type |}.

Definition names_of (t : VariableType) (variables : list DataVariable) : list string :=
  map name (filter (fun v => VariableType_eqb (type v) t) variables).

(** The dataset handed to [onDataLoaded]; [None] when the function returns
    without calling it. *)
Definition processRawData (rows : list row) (filename : string) : option Dataset :=
  match rows with
  | [] => None
  | row0 :: _ =>
      let headers := Object_keys row0 in
      let variables := map (column rows) headers in
      Some {| filename := filename; data := rows; variables := variables;
              numericalVariables := names_of numerical variables;
              categoricalVariables := names_of categorical variables |}
  end.

(** [parseCSV]: the rows of the text, then [processRawData]. *)
Definition parseCSV (text filename : string) : option Dataset :=
  match CSV.parse_rows text with
  | None => None
  | Some rows => processRawData rows filename
  end.

End WithRuntime.
End FileUpload.

(** The revision found in src/unnamed/part_002: a column is numerical when more
    than half of its non-missing values are, and its values are then cast. *)
Module FileUploadMajority.
Import JS.

Section WithRuntime.
Context {RT : Runtime}.

(** [v !== null && v !== undefined && String(v).trim() !== '']. *)
Definition nonNull (v : value) : bool :=
  (negb (is_nullish v) && negb (text_is_blank v))%bool.

(** [!isNaN(Number(v)) && typeof v !== 'boolean']. *)
Definition numeric_like (v : value) : bool :=
  (negb (isNaN (ToNumber v)) && negb (is_boolean v))%bool.

(** The cast applied to each raw value of a numerical column. *)
Definition cast (v : value) : value :=
  if (is_nullish v || text_is_blank v)%bool then VNull
  else
    let num := ToNumber v in
    if isNaN num then VNull else VNum num.

(** [(numericCount / nonNull.length) > 0.5]. *)
Definition isNumericMajority (nonNull : list value) : bool :=
  let numericCount := Statistics.len (filter numeric_like nonNull) in
  (0.5 <? Z2F numericCount / Z2F (Statistics.len nonNull))%float.

(** The [type] and the [processedValues] of the column holding [rawValues]. *)
Definition column_type (rawValues : list value) : VariableType :=
  let nonNull := filter nonNull rawValues in
  if (0 <? Statistics.len nonNull)%Z then
    if isNumericMajority nonNull then numerical else categorical
  else categorical.

Definition processedValues (rawValues : list value) : list value :=
  match column_type rawValues with
  | numerical => map cast rawValues
  | _ => rawValues
  end.

Definition column (rows : list row) (h : string) : DataVariable :=
  let rawValues := map (fun r => row_get r h) rows in
  let type := column_type rawValues in
  let processedValues := processedValues rawValues in
  {| name := h; type := type; values := processedValues;
     stats := Statistics.calculateSummaryStats processedValues type |}.

(** [newRow[v.name] = v.values[idx]] for every variable, on a copy of the row. *)
Definition processedRow (variables : list DataVariable) (row : JS.row) (idx : nat) : JS.row :=
  fold_left (fun newRow v => row_set newRow (name v) (nth idx (values v) VUndefined))
            variables row.

Fixpoint map_i {A B} (f : A -> nat -> B) (l : list A) (i : nat) : list B :=
  match l with
  | [] => []
  | a :: l' => f a i :: map_i f l' (S i)
  end.

Definition processRawData (rows : list row) (filename : string) : option Dataset :=
  match rows with
  | [] => None
  | row0 :: _ =>
      let headers := Object_keys row0 in
      let variables := map (column rows) headers in
      let processedRows := map_i (processedRow variables) rows 0 in
      Some {| filename := filename; data := processedRows; variables := variables;
              numericalVariables := FileUpload.names_of numerical variables;
              categoricalVariables := FileUpload.names_of categorical variables |}
  end.

(** [parseCSV]: the rows of the text, then [processRawData]. *)
Definition parseCSV (text filename : string) : option Dataset :=
  match CSV.parse_rows text with
  | None => None
  | Some rows => processRawData rows filename
  end.

End WithRuntime.
End FileUploadMajority.

(** ** App.tsx: forced re-classification (src/unnamed/part_000) *)

Module App.
Import JS.

Section WithRuntime.
Context {RT : Runtime}.

(** [val !== null && val !== undefined && String(val).trim() !== '']. *)
Definition nonNull (val : value) : bool :=
  (negb (is_nullish val) && negb (text_is_blank val))%bool.

(** [numericCount > 0 && (numericCount / nonNullValues.length) > 0.1]. *)
Definition shouldBeNumeric (values : list value) : bool :=
  let nonNullValues := filter nonNull values in
  let numericCount :=
    Statistics.len (filter (fun val => negb (isNaN (parseFloat_text val))) nonNullValues) in
  ((0 <? numericCount)%Z
   && (0.1 <? Z2F numericCount / Z2F (Statistics.len nonNullValues))%float)%bool.

(** The coercion of one value of a forced column. *)
Definition coerce (val : value) : value :=
  if (is_nullish val || text_is_blank val)%bool then VNull
  else
    let parsed := parseFloat_text val in
    if isNaN parsed then VNull else VNum parsed.

Definition forceVariable (v : DataVariable) : DataVariable :=
  if (shouldBeNumeric (values v) || VariableType_eqb (type v) numerical)%bool then
    let numericValues := map coerce (values v) in
    {| name := name v; type := numerical; values := numericValues;
       stats := Statistics.calculateSummaryStats numericValues numerical |}
  else v.

(** The row of [updatedData] made from [row]. *)
Definition forceRow (updatedVariables : list DataVariable) (row : JS.row) : JS.row :=
  fold_left
    (fun newRow v =>
       if VariableType_eqb (type v) numerical then
         let val := row_get row (name v) in
         if negb (is_nullish val) then
           let parsed := parseFloat_text val in
           row_set newRow (name v) (if isNaN parsed then VNull else VNum parsed)
         else newRow
       else newRow)
    updatedVariables row.

(** The dataset state after the handler ran: unchanged when there is none. *)
Definition forceNumericalAll (dataset : option Dataset) : option Dataset :=
  match dataset with
  | None => None
  | Some dataset =>
      let updatedVariables := map forceVariable (variables dataset) in
      let updatedData := map (forceRow updatedVariables) (data dataset) in
      Some {| filename := filename dataset;
              data := updatedData;
              variables := updatedVariables;
              numericalVariables := FileUpload.names_of numerical updatedVariables;
              categoricalVariables := FileUpload.names_of categorical updatedVariables |}
  end.

(** The selection of variables, a [Set] of names in insertion order. *)
Definition Set_has (s : list string) (k : string) : bool := existsb (String.eqb k) s.
Definition Set_add (s : list string) (k : string) : list string :=
  if Set_has s k then s else s ++ [k].
Definition Set_delete (s : list string) (k : string) : list string :=
  filter (fun k' => negb (String.eqb k k')) s.

(** [new Set(names)]. *)
Definition Set_of (names : list string) : list string := fold_left Set_add names [].

Definition filteredVariables (dataset : option Dataset) (selectedVarNames : list string)
  : list DataVariable :=
  match dataset with
  | None => []
  | Some dataset => filter (fun v => Set_has selectedVarNames (name v)) (variables dataset)
  end.

Definition filteredNumericNames (dataset : option Dataset) (selectedVarNames : list string)
  : list string :=
  map name (filter (fun v => VariableType_eqb (type v) numerical)
                   (filteredVariables dataset selectedVarNames)).

Definition correlationResults (dataset : option Dataset) (selectedVarNames : list string)
  : list CorrelationResult :=
  match dataset with
  | None => []
  | Some d =>
      let names := filteredNumericNames dataset selectedVarNames in
      if (Statistics.len names <? 2)%Z then []
      else Statistics.getCorrelationMatrix (data d) names
  end.

(** The selection [handleDataLoaded] makes: all the variables, or the first
    20 of more than 50. *)
Definition initialSelection (data : Dataset) : list string :=
  let limit := if (50 <? List.length (variables data))%nat then 20%nat
               else List.length (variables data) in
  fold_left (fun initialSelection v => Set_add initialSelection (name v))
            (firstn limit (variables data)) [].

Definition toggleVariable (selectedVarNames : list string) (name : string) : list string :=
  if Set_has selectedVarNames name then Set_delete selectedVarNames name
  else Set_add selectedVarNames name.

Definition selectAll (dataset : option Dataset) (selectedVarNames : list string) : list string :=
  match dataset with
  | None => selectedVarNames
  | Some dataset => Set_of (map name (variables dataset))
  end.

Definition deselectAll : list string := [].

(** One round of the loop that fills [groups]: [groups[xVal]] is created on
    first use and [yVal] pushed to it.  A label that names a property
    inherited from [Object.prototype] finds that property instead of an
    array, and the push throws. *)
Definition group_push (groups : list (string * list float)) (xVal : string) (yVal : float)
  : Objects.outcome (list (string * list float)) :=
  match Objects.get_own groups xVal with
  | Some vals => Objects.Returned (Objects.replace_own groups xVal (vals ++ [yVal]))
  | None =>
      if Objects.inherited xVal then Objects.Thrown
      else Objects.Returned (Objects.set groups xVal [yVal])
  end.

(** The [groups] built from the rows. *)
Definition buildGroups (rows : list row) (xVar yVar : string)
  : Objects.outcome (list (string * list float)) :=
  fold_left
    (fun acc row =>
       match acc with
       | Objects.Thrown => Objects.Thrown
       | Objects.Returned groups =>
           let xVal := if is_nullish (row_get row xVar) then "Missing"%string
                       else ToString (row_get row xVar) in
           let yVal := ToNumber (row_get row yVar) in
           if (negb (String.eqb xVal "Missing") && negb (isNaN yVal))%bool
           then group_push groups xVal yVal
           else Objects.Returned groups
       end)
    rows (Objects.Returned []).

(** The memoised [groupStats]: [None] is [null]. *)
Definition groupStats (dataset : option Dataset) (xVar yVar : string) (xAsCategorical : bool)
  : Objects.outcome (option Statistics.GroupReport) :=
  match dataset with
  | None => Objects.Returned None
  | Some dataset =>
      if (String.eqb xVar "" || String.eqb yVar "" || negb xAsCategorical)%bool
      then Objects.Returned None
      else
        match buildGroups (data dataset) xVar yVar with
        | Objects.Thrown => Objects.Thrown
        | Objects.Returned groups => Objects.Returned (Statistics.calculateGroupStats groups)
        end
  end.

End WithRuntime.
End App.

(** ** components/CorrelationHeatmap.tsx *)

Module CorrelationHeatmap.

(** [results.find(r => r.x === xVar && r.y === yVar)]. *)
Definition lookup (results : list CorrelationResult) (xVar yVar : string)
  : option CorrelationResult :=
  find (fun r => (String.eqb (x r) xVar && String.eqb (y r) yVar)%bool) results.

(** The cells of the table body: one line per [yVar], one cell per [xVar];
    [None] is the empty cell drawn when no record is found. *)
Definition cells (results : list CorrelationResult) (variables : list string)
  : list (list (option CorrelationResult)) :=
  map (fun yVar => map (fun xVar => lookup results xVar yVar) variables) variables.

(** [Math.abs(r) > 0.5 ? 'white' : 'inherit']. *)
Definition getTextColor (r : float) : string :=
  if (0.5 <? JS.Math_abs r)%float then "white" else "inherit".

End CorrelationHeatmap.

(** ** The distribution plot of a categorical variable (src/unnamed/part_001) *)

Module DistributionPlot.
Import JS.

Record Bar : Type := {
  bar_name : string;
  bar_count : Z;
  percentage : float
}.

(** [entries.sort((a, b) => b[1] - a[1])]: stable, larger counts first. *)
Fixpoint sort_insert (a : string * Z) (l : list (string * Z)) : list (string * Z) :=
  match l with
  | [] => [a]
  | c :: l' => if (snd a - snd c <? 0)%Z then c :: sort_insert a l' else a :: l
  end.

Definition sort_by_count (entries : list (string * Z)) : list (string * Z) :=
  fold_right sort_insert [] entries.

(** The bars of a categorical variable: the eight most frequent categories.
    [freqs] lists [Object.entries(freqs)]. *)
Definition bars (freqs : list (string * Z)) (totalCount : Z) : list Bar :=
  map (fun e =>
         {| bar_name := fst e; bar_count := snd e;
            percentage := if (0 <? totalCount)%Z
                          then (Z2F (snd e) / Z2F totalCount * 100)%float
                          else 0%float |})
      (firstn 8 (sort_by_count freqs)).

(** The bars drawn for a variable that is not numerical. *)
Definition categorical_bars (variable : DataVariable) : list Bar :=
  bars (match frequencies (stats variable) with Some freqs => freqs | None => [] end)
       (count (stats variable)).

End DistributionPlot.

(** ** A reference run time *)

(** A concrete [Runtime], used to run the engine on examples: the numeric
    grammar of ECMAScript for ASCII text with correctly rounded decimal
    conversion, shortest round-trip printing of numbers, and an exponential
    accurate to a few units in the last place. *)
Module Reference.
Import JS.

Local Open Scope Z_scope.

(** [m * 10^e], correctly rounded, with the sign [neg]. *)
Definition dec2float (neg : bool) (m e : Z) : float :=
  if m =? 0 then (if neg then PrimFloat.neg_zero else PrimFloat.zero)
  else if 400 <? e + Z.log2 m / 4 then (if neg then PrimFloat.neg_infinity else PrimFloat.infinity)
  else if e + Z.log2 m / 3 + 1 <? -400 then (if neg then PrimFloat.neg_zero else PrimFloat.zero)
  else if 0 <=? e
    then SF2Prim (binary_normalize prec emax ((if neg then - m else m) * 10 ^ e) 0 false)
    else SF2Prim (SFdiv prec emax (S754_finite neg (Z.to_pos m) 0)
                                  (S754_finite false (Z.to_pos (10 ^ (- e))) 0)).

Definition digit_of (base : Z) (c : ascii) : option Z :=
  let n := Z.of_nat (nat_of_ascii c) in
  let d :=
    if (48 <=? n) && (n <=? 57) then n - 48
    else if (97 <=? n) && (n <=? 122) then n - 87
    else if (65 <=? n) && (n <=? 90) then n - 55
    else 99 in
  if d <? base then Some d else None.

(** The longest prefix of digits in [base], most significant first. *)
Fixpoint take_digits (base : Z) (s : string) : list Z * string :=
  match s with
  | String c r =>
      match digit_of base c with
      | Some d => let (ds, r') := take_digits base r in (d :: ds, r')
      | None => ([], s)
      end
  | EmptyString => ([], s)
  end.

Definition digits_value (base : Z) (ds : list Z) : Z :=
  fold_left (fun a d => base * a + d) ds 0.

Definition take_sign (s : string) : bool * string :=
  match s with
  | String "-" r => (true, r)
  | String "+" r => (false, r)
  | _ => (false, s)
  end.

(** The optional [ExponentPart] at the head of [s]: its value and the rest. *)
Definition take_exponent (s : string) : Z * string :=
  match s with
  | String c r =>
      if (Ascii.eqb c "e" || Ascii.eqb c "E")%bool then
        let (neg, r1) := take_sign r in
        match take_digits 10 r1 with
        | ([], _) => (0, s)
        | (ds, r2) => ((if neg then - digits_value 10 ds else digits_value 10 ds), r2)
        end
      else (0, s)
  | EmptyString => (0, s)
  end.

Definition has_prefix (p s : string) : option string :=
  if String.prefix p s
  then Some (String.substring (String.length p) (String.length s - String.length p) s)
  else None.

(** The longest [StrDecimalLiteral] at the head of [s]: its value and the
    rest of [s], if there is one. *)
Definition take_decimal (s : string) : option (float * string) :=
  let (neg, s1) := take_sign s in
  match has_prefix "Infinity"%string s1 with
  | Some rest => Some ((if neg then PrimFloat.neg_infinity else PrimFloat.infinity), rest)
  | None =>
      let (ip, r1) := take_digits 10 s1 in
      let '(fp, r2, dot) :=
        match r1 with
        | String "." r => let (fp, r') := take_digits 10 r in (fp, r', true)
        | _ => ([], r1, false)
        end in
      match ip, fp with
      | [], [] => None
      | _, _ =>
          let (ex, r3) := take_exponent r2 in
          Some (dec2float neg (digits_value 10 (ip ++ fp)) (ex - Z.of_nat (List.length fp)), r3)
      end
  end.

(** [parseFloat(s)]. *)
Definition parseFloat (s : string) : float :=
  match take_decimal (trim_start s) with
  | Some (x, _) => x
  | None => NaN
  end.

(** A [NonDecimalIntegerLiteral]: [0x], [0o] or [0b] and digits. *)
Definition non_decimal (s : string) : option float :=
  match s with
  | String "0" (String c r) =>
      let base :=
        if (Ascii.eqb c "x" || Ascii.eqb c "X")%bool then 16
        else if (Ascii.eqb c "o" || Ascii.eqb c "O")%bool then 8
        else if (Ascii.eqb c "b" || Ascii.eqb c "B")%bool then 2
        else 0 in
      if base =? 0 then None else
      match take_digits base r with
      | ((_ :: _) as ds, EmptyString) => Some (Z2F (digits_value base ds))
      | _ => None
      end
  | _ => None
  end.

(** [Number(s)] for a string: the whole trimmed text must be a numeric
    literal, and blank text is 0. *)
Definition StringToNumber (s : string) : float :=
  let t := trim s in
  match t with
  | EmptyString => 0%float
  | _ =>
      match non_decimal t with
      | Some x => x
      | None =>
          match take_decimal t with
          | Some (x, EmptyString) => x
          | _ => NaN
          end
      end
  end.

(** Printing: the digits [s] (an integer with [k] decimal digits) and the
    exponent [n] with [x = s * 10^(n-k)] after rounding, [k] least. *)
Definition decimal_digits (z : Z) : string :=
  NilZero.string_of_uint (N.to_uint (Z.to_N z)).

(** The positive finite [x] as a fraction [(num, den)]. *)
Definition exact_fraction (x : float) : Z * Z :=
  match Prim2SF x with
  | S754_finite _ m e => if 0 <=? e then (Zpos m * 2 ^ e, 1) else (Zpos m, 2 ^ (- e))
  | _ => (0, 1)
  end.

(** [10^(n-1) <= num/den < 10^n]. *)
Definition decimal_exponent (num den : Z) : Z :=
  let est := (Z.log2 num - Z.log2 den) * 30103 / 100000 in
  let fits n :=
    if 0 <=? n then (num <? den * 10 ^ n) else (num * 10 ^ (- n) <? den) in
  if fits (est - 1) then est - 1
  else if fits est then est
  else if fits (est + 1) then est + 1
  else est + 2.

(** The integer nearest to [num/den * 10^(k-n)] (ties to even). *)
Definition scaled_digits (num den n k : Z) : Z :=
  let '(a, b) := if 0 <=? k - n then (num * 10 ^ (k - n), den) else (num, den * 10 ^ (n - k)) in
  let q := a / b in
  let r2 := 2 * (a mod b) in
  if r2 <? b then q else if b <? r2 then q + 1 else if Z.even q then q else q + 1.

Fixpoint shortest (x : float) (num den n : Z) (k : Z) (fuel : nat) : Z * Z :=
  let s := scaled_digits num den n k in
  match fuel with
  | O => (s, k)
  | S fuel' =>
      if PrimFloat.Leibniz.eqb (dec2float false s (n - k)) x then (s, k)
      else shortest x num den n (k + 1) fuel'
  end.

Definition zeros (n : Z) : string := String.concat ""%string (repeat "0"%string (Z.to_nat n)).

Definition format_digits (ds : string) (n : Z) : string :=
  let k := Z.of_nat (String.length ds) in
  if (k <=? n) && (n <=? 21) then (ds ++ zeros (n - k))%string
  else if (0 <? n) && (n <=? 21) then
    (substring 0 (Z.to_nat n) ds ++ "." ++ substring (Z.to_nat n) (Z.to_nat (k - n)) ds)%string
  else if (-6 <? n) && (n <=? 0) then ("0." ++ zeros (- n) ++ ds)%string
  else
    let e := n - 1 in
    let sign := if e <? 0 then "-"%string else "+"%string in
    let es := (sign ++ decimal_digits (Z.abs e))%string in
    if k =? 1 then (ds ++ "e" ++ es)%string
    else (substring 0 1 ds ++ "." ++ substring 1 (Z.to_nat (k - 1)) ds ++ "e" ++ es)%string.

Fixpoint strip_zeros (l : list ascii) : list ascii :=
  match l with
  | c :: l' => if Ascii.eqb c "0" then strip_zeros l' else l
  | [] => []
  end.

Definition NumberToString_pos (x : float) : string :=
  let (num, den) := exact_fraction x in
  let n := decimal_exponent num den in
  let (s, k) := shortest x num den n 1 20 in
  (* rounding up may have produced 10^k: one digit more, and trailing zeros *)
  let ds := decimal_digits s in
  let n' := n - k + Z.of_nat (String.length ds) in
  let ds' := string_of_list_ascii (rev (strip_zeros (rev (list_ascii_of_string ds)))) in
  format_digits ds' n'.

(** [String(x)] for a number. *)
Definition NumberToString (x : float) : string :=
  (if PrimFloat.is_nan x then "NaN"
   else if PrimFloat.is_zero x then "0"
   else if PrimFloat.is_infinity x then (if PrimFloat.get_sign x then "-Infinity" else "Infinity")
   else if PrimFloat.get_sign x then "-" ++ NumberToString_pos (PrimFloat.abs x)
   else NumberToString_pos x)%string.

(** The integer part of a finite [x], towards zero. *)
Definition truncate (x : float) : Z :=
  match Prim2SF x with
  | S754_finite s m e =>
      let a := if 0 <=? e then Zpos m * 2 ^ e else Z.shiftr (Zpos m) (- e) in
      if s then - a else a
  | _ => 0
  end.

Local Open Scope float_scope.

(** [Math.exp(x)]: [x = k ln 2 + r], a Taylor polynomial in [r], and a scaling
    by [2^k]. *)
Definition Math_exp (x : float) : float :=
  if PrimFloat.is_nan x then NaN
  else if 709.782712893384 <? x then PrimFloat.infinity
  else if x <? -745.1332191019412 then 0
  else
    let k := truncate (x * 1.4426950408889634 + (if x <? 0 then -0.5 else 0.5)) in
    let r := (x - Z2F k * 0.6931471803691238) - Z2F k * 1.9082149292705877e-10 in
    let taylor :=
      fold_right (fun i acc => 1 + r / Z2F i * acc) 1
                 [1; 2; 3; 4; 5; 6; 7; 8; 9; 10; 11; 12; 13; 14; 15; 16; 17]%Z in
    Z.ldexp taylor k.

#[export] Instance reference_runtime : Runtime := {
  Math_exp := Math_exp;
  StringToNumber := StringToNumber;
  parseFloat := parseFloat;
  NumberToString := NumberToString
}.

End Reference.

(** * The properties under study *)

Import JS.

(** The notions the specification uses and the code does not define. *)
Section Notions.
Context {RT : Runtime}.

(** The number of groups that hold at least one observation. *)
Definition non_empty_groups (groups : list (string * list float)) : Z :=
  Statistics.len (filter (fun g => negb (Statistics.len (snd g) =? 0)%Z) groups).

(** The number of observations of all groups together. *)
Definition total_observations (groups : list (string * list float)) : Z :=
  Statistics.len (List.concat (map snd groups)).

(** A Number of the unit interval (false for NaN). *)
Definition in_unit_interval (q : float) : bool :=
  ((0 <=? q)%float && (q <=? 1)%float)%bool.

(** Every numeric field of a report is a finite Number. *)
Definition finite_report (rep : Statistics.GroupReport) : bool :=
  (PrimFloat.is_finite (Statistics.f rep) && PrimFloat.is_finite (Statistics.gr_p rep)
   && PrimFloat.is_finite (Statistics.etaSq rep)
   && forallb (fun g => PrimFloat.is_finite (Statistics.g_mean g)
                        && PrimFloat.is_finite (Statistics.g_ssq g)
                        && PrimFloat.is_finite (Statistics.g_variance g))
              (Statistics.groups rep)
   && forallb (fun c => PrimFloat.is_finite (Statistics.pw_p c)) (Statistics.pairwise rep))%bool.

(** Missing as the specification words it: the absence marker, or text that
    is empty once trimmed. *)
Definition missing_by_trimmed_text (v : value) : bool :=
  (is_nullish v || text_is_blank v)%bool.

(** Numeric-like as the specification words it: the text form converts to a
    finite number, and the value is not a boolean. *)
Definition finite_numeric_like (v : value) : bool :=
  (PrimFloat.is_finite (ToNumber_text v) && negb (is_boolean v))%bool.

(** The classifier as the specification words it: numerical when the
    numeric-like share of the non-missing values exceeds one half,
    categorical otherwise and when no value is present. *)
Definition classify_by_majority (values : list value) : VariableType :=
  let present := filter (fun v => negb (missing_by_trimmed_text v)) values in
  let numeric := filter finite_numeric_like present in
  if (Statistics.len present =? 0)%Z then categorical
  else if (Statistics.len present <? 2 * Statistics.len numeric)%Z then numerical
  else categorical.

(** A value that is not the Number -0. *)
Definition not_negative_zero (val : value) : Prop :=
  match val with
  | VNum x => is_neg_zero x = false
  | _ => True
  end.

(** No value of a numerical variable of the dataset is -0. *)
Definition free_of_negative_zero (d : Dataset) : Prop :=
  Forall (fun v => type v = numerical -> Forall not_negative_zero (values v)) (variables d).

End Notions.

(** A mapping with an empty group, and one whose observations are all equal. *)
Definition groups_with_empty : list (string * list float) :=
  [("A"%string, []); ("B"%string, [1; 2; 3]%float)].

Definition groups_all_equal : list (string * list float) :=
  [("A"%string, [5; 5]%float); ("B"%string, [5; 5]%float)].

(** A column of measurements typed with their unit: text, hence categorical
    after upload, which [forceNumericalAll] turns into numbers. *)
Definition measurements (cells : list value) : Dataset :=
  {| filename := "lab.csv";
     data := map (fun c => [("dose"%string, c)]) cells;
     variables :=
       [{| name := "dose"; type := categorical; values := cells;
           stats := Statistics.calculateSummaryStats (RT := Reference.reference_runtime)
                      cells categorical |}];
     numericalVariables := [];
     categoricalVariables := ["dose"%string] |}.

(** Three rows of one column whose values are distinct and close to 10^9. *)
Definition rows_near_1e9 : list row :=
  [[("t"%string, VNum 1000000001)];
   [("t"%string, VNum 1000000002)];
   [("t"%string, VNum 1000000003)]].

(** The integers [lo, lo + 1, ..., lo + n - 1]. *)
Definition Z_range (lo : Z) (n : nat) : list Z := map (fun i => (lo + Z.of_nat i)%Z) (seq 0 n).

(** The test [(c / L) > 0.5] of the majority classifier agrees with the exact
    comparison [L < 2 c]. *)
Definition majority_test_exact (L c : Z) : bool :=
  Bool.eqb (0.5 <? Z2F c / Z2F L)%float (L <? 2 * c)%Z.

(** ** Notions for the further properties *)

Section FurtherNotions.
Context {RT : Runtime}.

(** A Number that is not NaN, placed on a line: the infinities at the two
    ends, the zeros in the middle, and between them the finite Numbers by
    exponent and mantissa. *)
Definition order_key (a : spec_float) : Z * Z * Z :=
  match a with
  | S754_nan => (0, 0, 0)%Z
  | S754_zero _ => (0, 0, 0)%Z
  | S754_infinity s => ((if s then -2 else 2)%Z, 0%Z, 0%Z)
  | S754_finite s m e => if s then (-1, - e, Zneg m)%Z else (1%Z, e, Zpos m)
  end.

Definition lex3 (a b : Z * Z * Z) : comparison :=
  let '(a1, a2, a3) := a in
  let '(b1, b2, b3) := b in
  match (a1 ?= b1)%Z with
  | Eq => match (a2 ?= b2)%Z with
          | Eq => (a3 ?= b3)%Z
          | c => c
          end
  | c => c
  end.

(** A value that is present and converts to the number [m], not NaN. *)
Definition pool_value (values : list value) (m : float) : Prop :=
  exists v, In v values /\ Statistics.not_missing v = true /\ ToNumber v = m
            /\ isNaN m = false.

(** [freqs[key] || 0]. *)
Fixpoint freq_of (key : string) (freqs : list (string * Z)) : Z :=
  match freqs with
  | [] => 0%Z
  | (k, c) :: freqs' => if String.eqb k key then c else freq_of key freqs'
  end.

Definition freq_total (freqs : list (string * Z)) : Z :=
  fold_right Z.add 0%Z (map snd freqs).

(** [null] or a Number that is not NaN. *)
Definition null_or_number (v : value) : Prop :=
  match v with
  | VNull => True
  | VNum x => isNaN x = false
  | _ => False
  end.

(** What forcing does to one variable. *)
Definition forced_from (v v1 : DataVariable) : Prop :=
  name v1 = name v
  /\ List.length (values v1) = List.length (values v)
  /\ (type v = numerical -> type v1 = numerical)
  /\ (type v1 = numerical ->
      Forall null_or_number (values v1)
      /\ stats v1 = Statistics.calculateSummaryStats (values v1) numerical)
  /\ (type v1 <> numerical -> v1 = v).

(** Some numerical variable of the list is named [k]. *)
Definition is_forced_name (updatedVariables : list DataVariable) (k : string) : bool :=
  existsb (fun v => (VariableType_eqb (type v) numerical && String.eqb (name v) k)%bool)
          updatedVariables.

(** The cell that forcing writes for the cell [val]. *)
Definition forced_cell (val : value) : value :=
  if is_nullish val then val
  else if isNaN (parseFloat_text val) then VNull else VNum (parseFloat_text val).

(** What a cell read from a CSV text can be. *)
Definition csv_cell (v : value) : Prop :=
  match v with
  | VNull => True
  | VNum x => isNaN x = false
  | VStr s => s <> ""%string
  | _ => False
  end.

(** The keys after [o[k] = ...], from the keys before. *)
Definition keys_after (keys : list string) (k : string) : list string :=
  Object_keys (Objects.set (map (fun k' => (k', tt)) keys) k tt).

(** The lines of a text that are not blank. *)
Definition non_blank_lines (text : string) : list string :=
  filter (fun l => negb (String.eqb (trim l) "")) (CSV.split_lines text).


(** A field between double quotes, as a spreadsheet writes it. *)
Definition quoted (field : string) : string :=
  String CSV.quote (field ++ String CSV.quote "")%string.

(** The rows kept by the loop of [groupStats]: the label and the outcome of
    a row whose label is present and whose outcome is a number. *)
Definition observation (xVar yVar : string) (r : row) : option (string * float) :=
  let xVal := if is_nullish (row_get r xVar) then "Missing"%string
              else ToString (row_get r xVar) in
  let yVal := ToNumber (row_get r yVar) in
  if (negb (String.eqb xVal "Missing") && negb (isNaN yVal))%bool
  then Some (xVal, yVal) else None.

Definition observations (xVar yVar : string) (rows : list row) : list (string * float) :=
  flat_map (fun r => match observation xVar yVar r with Some o => [o] | None => [] end) rows.

(** The outcomes observed under one label, in the order of the rows. *)
Definition outcomes_of (k : string) (obs : list (string * float)) : list float :=
  map snd (filter (fun o => String.eqb (fst o) k) obs).

Definition some_nonempty (vals : list float) : option (list float) :=
  match vals with [] => None | _ => Some vals end.

(** The labels observed, each one once. *)
Definition labels_of (obs : list (string * float)) : list string :=
  nodup string_dec (map fst obs).

(** The loop of [groupStats] over the observations. *)
Definition push_all (obs : list (string * float))
           (acc : Objects.outcome (list (string * list float)))
  : Objects.outcome (list (string * list float)) :=
  fold_left (fun acc o =>
               match acc with
               | Objects.Thrown => Objects.Thrown
               | Objects.Returned groups => App.group_push groups (fst o) (snd o)
               end) obs acc.

(** What the loop has built after the observations [obs]. *)
Definition groups_of (obs : list (string * float)) (g : list (string * list float)) : Prop :=
  NoDup (Object_keys g)
  /\ (forall k, Objects.get_own g k = some_nonempty (outcomes_of k obs))
  /\ total_observations g = Statistics.len obs.

(** Two keys that are array indices, in ascending order. *)
Definition index_le (k k' : string) : Prop :=
  match Objects.array_index k, Objects.array_index k' with
  | Some i, Some i' => (i <= i')%Z
  | _, _ => False
  end.

(** The entry a bar was drawn from. *)
Definition bar_entry (b : DistributionPlot.Bar) : string * Z :=
  (DistributionPlot.bar_name b, DistributionPlot.bar_count b).

End FurtherNotions.

(** Three groups of different sizes. *)
Definition three_groups : list (string * list float) :=
  [("A"%string, [1; 2; 3]%float); ("B"%string, [10; 11]%float);
   ("C"%string, [4; 6; 5; 7]%float)].

(** A sheet of three rows: an identifier, a dose typed with stray text, a
    site. *)
Definition sheet : list row :=
  [[("id"%string, VNum 1); ("dose"%string, VStr "12.5"); ("site"%string, VStr "north")];
   [("id"%string, VNum 2); ("dose"%string, VStr "n/a"); ("site"%string, VStr "south")];
   [("id"%string, VNum 3); ("dose"%string, VNum 7); ("site"%string, VStr " ")]].

(** A survey of five rows: a site and a score. *)
Definition survey : list row :=
  [[("site"%string, VStr "north"); ("score"%string, VNum 1)];
   [("site"%string, VStr "south"); ("score"%string, VStr "2")];
   [("site"%string, VStr "north"); ("score"%string, VNum 3)];
   [("site"%string, VNull); ("score"%string, VNum 4)];
   [("site"%string, VStr "south"); ("score"%string, VStr "n/a")]].

(** Doses 10, 2 and 10 again, with a response each. *)
Definition doses : list row :=
  [[("dose"%string, VNum 10); ("response"%string, VNum 0.5)];
   [("dose"%string, VNum 2); ("response"%string, VNum 0.25)];
   [("dose"%string, VNum 10); ("response"%string, VNum 0.75)]].

(** The dataset of [sheet], as the majority uploader builds its variables. *)
Definition trial : Dataset :=
  {| filename := "trial.csv";
     data := sheet;
     variables := map (FileUploadMajority.column (RT := Reference.reference_runtime) sheet)
                      ["id"; "dose"; "site"]%string;
     numericalVariables := ["id"; "dose"]%string;
     categoricalVariables := ["site"]%string |}.

(** * Verification *)

(** ** Facts about binary64 arithmetic *)

Section FloatFacts.

Local Open Scope float_scope.

Lemma Prim2SF_NaN : Prim2SF NaN = S754_nan.
Proof. reflexivity. Qed.

Lemma SFmul_comm (a b : spec_float) : SF64mul a b = SF64mul b a.
Proof.
  unfold SF64mul.
  destruct a as [sa|sa| |sa ma ea], b as [sb|sb| |sb mb eb]; simpl;
    rewrite ?(xorb_comm sa sb); try reflexivity.
  now rewrite (Pos.mul_comm ma mb), (Z.add_comm ea eb).
Qed.

(** Multiplication of Numbers is commutative, bit for bit. *)
Lemma mul_comm (a b : float) : a * b = b * a.
Proof.
  apply Prim2SF_inj. rewrite !mul_spec. apply SFmul_comm.
Qed.

Lemma mul_NaN_r (a : float) : a * NaN = NaN.
Proof.
  apply Prim2SF_inj. rewrite mul_spec, Prim2SF_NaN.
  unfold SF64mul. now destruct (Prim2SF a).
Qed.

Lemma mul_NaN_l (a : float) : NaN * a = NaN.
Proof. rewrite mul_comm. apply mul_NaN_r. Qed.


(** The order of Numbers: comparing the other way round flips the answer. *)
Lemma SFcompare_antisym (a b : spec_float) :
  SFcompare b a = option_map CompOpp (SFcompare a b).
Proof.
  destruct a as [sa|sa| |sa ma ea], b as [sb|sb| |sb mb eb]; simpl;
    try (destruct sa; reflexivity); try (destruct sb; reflexivity);
    try (destruct sa, sb; reflexivity); try reflexivity.
  pose proof (Pos.compare_cont_antisym ma mb Eq) as HP. simpl in HP.
  destruct sa, sb; simpl; try reflexivity;
    rewrite (Z.compare_antisym ea eb), <- HP;
    destruct (ea ?= eb)%Z; simpl; try reflexivity;
    destruct (Pos.compare_cont Eq ma mb); reflexivity.
Qed.

Lemma SFcompare_refl (a : spec_float) : a <> S754_nan -> SFcompare a a = Some Eq.
Proof.
  destruct a as [s|s| |s m e]; simpl; intros H; try congruence.
  - now destruct s.
  - rewrite Z.compare_refl, Pos.compare_cont_refl. now destruct s.
Qed.

Lemma isNaN_spec (a : float) : isNaN a = true <-> Prim2SF a = S754_nan.
Proof.
  unfold isNaN, PrimFloat.is_nan. rewrite eqb_spec. unfold SFeqb.
  destruct (Prim2SF a) as [s|s| |s m e] eqn:E.
  - split; [destruct s; discriminate | discriminate].
  - split; [destruct s; discriminate | discriminate].
  - split; reflexivity.
  - rewrite SFcompare_refl by discriminate. split; discriminate.
Qed.

Lemma compare_not_NaN (a b : float) :
  isNaN a = false -> isNaN b = false -> SFcompare (Prim2SF a) (Prim2SF b) <> None.
Proof.
  intros Ha Hb.
  assert (Ha' : Prim2SF a <> S754_nan) by (intros E; apply isNaN_spec in E; congruence).
  assert (Hb' : Prim2SF b <> S754_nan) by (intros E; apply isNaN_spec in E; congruence).
  destruct (Prim2SF a) as [sa|sa| |sa ma ea], (Prim2SF b) as [sb|sb| |sb mb eb];
    simpl; congruence.
Qed.

(** Unfold a comparison of Numbers to the cases of [SFcompare]. *)
Ltac by_SFcompare a b :=
  rewrite ?ltb_spec, ?leb_spec; unfold SFltb, SFleb;
  rewrite ?(SFcompare_antisym (Prim2SF a) (Prim2SF b));
  destruct (SFcompare (Prim2SF a) (Prim2SF b)) as [[]|]; simpl; congruence.

Lemma ltb_leb (a b : float) : (a <? b) = true -> (a <=? b) = true.
Proof. by_SFcompare a b. Qed.

Lemma not_ltb_leb (a b : float) :
  isNaN a = false -> isNaN b = false -> (b <? a) = false -> (a <=? b) = true.
Proof.
  intros Ha Hb. pose proof (compare_not_NaN a b Ha Hb) as Hc. by_SFcompare a b.
Qed.

Lemma leb_not_NaN (a b : float) : (a <=? b) = true -> isNaN a = false /\ isNaN b = false.
Proof.
  rewrite leb_spec. unfold SFleb. intros H.
  split; apply not_true_is_false; intros E; apply isNaN_spec in E; rewrite E in H.
  - discriminate.
  - destruct (Prim2SF a); discriminate.
Qed.

(** [Math.min(Math.max(q, 0), 1)] is NaN when [q] is, and in [0, 1] otherwise. *)
Lemma clamp_unit (q : float) :
  (isNaN q = true /\ Math_min (Math_max q 0) 1 = NaN)
  \/ (isNaN q = false /\ in_unit_interval (Math_min (Math_max q 0) 1) = true).
Proof.
  unfold in_unit_interval.
  destruct (isNaN q) eqn:Hq.
  - left. split; [reflexivity |]. unfold Math_max. rewrite Hq. reflexivity.
  - right. split; [reflexivity |]. apply andb_true_intro.
    assert (Hm : isNaN (Math_max q 0) = false /\ (0 <=? Math_max q 0) = true).
    { unfold Math_max. rewrite Hq. change (isNaN 0) with false. simpl orb. cbv iota.
      destruct (q <? 0) eqn:Hlt; [split; reflexivity |].
      destruct (0 <? q) eqn:Hgt; [split; [assumption | now apply ltb_leb] |].
      destruct (PrimFloat.get_sign q); [split; reflexivity |].
      split; [assumption | now apply not_ltb_leb]. }
    destruct Hm as [Hm0 Hm1]. revert Hm0 Hm1.
    generalize (Math_max q 0). intros m Hm0 Hm1.
    unfold Math_min. rewrite Hm0. change (isNaN 1) with false. simpl orb. cbv iota.
    destruct (m <? 1) eqn:Hlt; [split; [assumption | now apply ltb_leb] |].
    destruct (1 <? m) eqn:Hgt; [split; reflexivity |].
    destruct (PrimFloat.get_sign m); [| split; reflexivity].
    split; [assumption | now apply not_ltb_leb].
Qed.

End FloatFacts.

(** ** p-values *)

Section PValues.
Context {RT : Runtime}.
Import Statistics.

Local Open Scope float_scope.

(** Without degrees of freedom the p-value is 1.0, whatever the statistic. *)
Lemma getPFromT_no_df (t : float) (df : Z) : (df <= 0)%Z -> getPFromT t df = 1.
Proof.
  intros H. unfold getPFromT.
  destruct (df <=? 0)%Z eqn:E; [reflexivity | apply Z.leb_gt in E; lia].
Qed.

(** A NaN statistic passes through the clamp of [getPFromT]. *)
Lemma getPFromT_NaN (df : Z) : (0 < df)%Z -> getPFromT NaN df = NaN.
Proof.
  intros Hdf. unfold getPFromT.
  destruct (df <=? 0)%Z eqn:H0; [apply Z.leb_le in H0; lia |].
  change (Math_abs NaN) with NaN.
  change (((((1.330274429 * (1 / (1 + 0.2316419 * NaN)) + -1.821255978)
              * (1 / (1 + 0.2316419 * NaN)) + 1.781477937)
             * (1 / (1 + 0.2316419 * NaN)) + -0.356563782)
            * (1 / (1 + 0.2316419 * NaN)) + 0.319381530)
           * (1 / (1 + 0.2316419 * NaN))) with NaN.
  cbv zeta. rewrite mul_NaN_r.
  change (2 * (1 - (1 - NaN))) with NaN.
  rewrite mul_NaN_l.
  destruct (df <? 30)%Z; reflexivity.
Qed.

(** What the clamp does give: a p-value of [getPFromT] is NaN or lies in
    [0, 1], for any [Math.exp]. *)
Lemma getPFromT_range (t : float) (df : Z) :
  getPFromT t df = NaN \/ in_unit_interval (getPFromT t df) = true.
Proof.
  unfold getPFromT.
  destruct (df <=? 0)%Z; [right; reflexivity |].
  cbv zeta.
  match goal with
  | |- Math_min (Math_max ?q 0) 1 = NaN \/ _ => destruct (clamp_unit q) as [[_ H] | [_ H]]
  end; [now left | now right].
Qed.

Lemma calculatePValue_range (r : float) (n : Z) :
  calculatePValue r n = NaN \/ in_unit_interval (calculatePValue r n) = true.
Proof.
  unfold calculatePValue.
  destruct (n <=? 2)%Z; [right; reflexivity | apply getPFromT_range].
Qed.

End PValues.

(** ** The group statistics engine *)

Section GroupStats.
Context {RT : Runtime}.
Import Statistics.

Local Open Scope float_scope.

Lemma len_Object_keys {A} (o : list (string * A)) : len (Object_keys o) = len o.
Proof. unfold len, Object_keys. now rewrite length_map. Qed.

(** C1, as the code has it: [calculateGroupStats] returns no report exactly
    when the mapping has fewer than two group labels (an empty group counts
    as a group) or the within-groups degrees of freedom [N - k] are not
    positive; in every other case it returns a report. *)
Theorem calculateGroupStats_none_iff (groups : list (string * list float)) :
  calculateGroupStats groups = None
  <-> (len groups < 2 \/ total_observations groups - len groups <= 0)%Z.
Proof.
  unfold calculateGroupStats, total_observations.
  rewrite len_Object_keys.
  destruct (len groups <? 2)%Z eqn:Hk.
  - apply Z.ltb_lt in Hk. split; [intros _; now left | reflexivity].
  - apply Z.ltb_ge in Hk.
    destruct (len (List.concat (map snd groups)) - len groups <=? 0)%Z eqn:Hdf.
    + apply Z.leb_le in Hdf. split; [intros _; now right | reflexivity].
    + apply Z.leb_gt in Hdf. split; [discriminate | intros [H | H]; lia].
Qed.

(** The fields of a report, read off the code. *)
Lemma calculateGroupStats_fields (groups : list (string * list float)) (rep : GroupReport) :
  calculateGroupStats groups = Some rep ->
  (2 <= len groups)%Z
  /\ dfW rep = (total_observations groups - len groups)%Z
  /\ (0 < dfW rep)%Z
  /\ gr_p rep = getPFromT (Math_sqrt (f rep)) (dfW rep)
  /\ pairwise rep = all_pairs compare_groups (map summarize_group groups).
Proof.
  unfold calculateGroupStats, total_observations. rewrite len_Object_keys.
  destruct (len groups <? 2)%Z eqn:Hk; [discriminate |].
  destruct (_ <=? 0)%Z eqn:Hdf; [discriminate |].
  intros [= <-]. simpl.
  apply Z.ltb_ge in Hk. apply Z.leb_gt in Hdf.
  repeat split; try assumption.
  apply Z.leb_le in Hk. now rewrite Hk.
Qed.

Lemma all_pairs_Forall {A B} (P : B -> Prop) (mk : A -> A -> B) :
  (forall a b, P (mk a b)) -> forall l, Forall P (all_pairs mk l).
Proof.
  intros H l. induction l as [|a l IH]; simpl; [constructor |].
  apply Forall_app. split; [| assumption].
  apply Forall_forall. intros c Hc. apply in_map_iff in Hc.
  destruct Hc as (b & <- & _). apply H.
Qed.

(** Every p-value of a report is NaN or lies in [0, 1]. *)
Lemma report_p_values_range (groups : list (string * list float)) (rep : GroupReport) :
  calculateGroupStats groups = Some rep ->
  (gr_p rep = NaN \/ in_unit_interval (gr_p rep) = true)
  /\ Forall (fun c => pw_p c = NaN \/ in_unit_interval (pw_p c) = true) (pairwise rep).
Proof.
  intros Hrep. destruct (calculateGroupStats_fields _ _ Hrep) as (_ & _ & _ & Hp & Hpw).
  split.
  - rewrite Hp. apply getPFromT_range.
  - rewrite Hpw. apply all_pairs_Forall. intros a b. apply getPFromT_range.
Qed.

(** C2, at a failing input: when all observations are equal, the global
    p-value and the pairwise p-value of the report are NaN, not a number of
    [0, 1] (whatever [Math.exp] does). *)
Theorem p_values_NaN_when_all_equal :
  option_map (fun rep => (gr_p rep, map pw_p (pairwise rep), map sig (pairwise rep)))
             (calculateGroupStats groups_all_equal)
  = Some (NaN, [NaN], [""%string])
  /\ in_unit_interval NaN = false.
Proof.
  split; [| reflexivity].
  unfold calculateGroupStats, groups_all_equal.
  lazy -[getPFromT getSignificanceStars].
  assert (H : getPFromT NaN 2 = NaN) by (apply getPFromT_NaN; lia).
  lazy -[getPFromT] in H. rewrite !H. reflexivity.
Qed.

(** C3, at a failing input: when all observations are equal both sums of
    squares are 0 and the effect size is [0 / 0], NaN, outside [0, 1]. *)
Theorem etaSq_NaN_when_all_equal :
  option_map (fun rep => (etaSq rep, in_unit_interval (etaSq rep)))
             (calculateGroupStats groups_all_equal)
  = Some (NaN, false).
Proof.
  unfold calculateGroupStats, groups_all_equal.
  lazy -[getPFromT getSignificanceStars]. reflexivity.
Qed.

(** The record of the pair [(i, j)], [i < j], is among those of [all_pairs]. *)
Lemma all_pairs_In {A B} (mk : A -> A -> B) (l : list A) :
  forall i j a b,
    (i < j)%nat -> nth_error l i = Some a -> nth_error l j = Some b ->
    In (mk a b) (all_pairs mk l).
Proof.
  induction l as [|c l IH]; intros i j a b Hij Hi Hj.
  - destruct i; discriminate.
  - simpl. apply in_or_app.
    destruct j as [|j]; [lia |]. simpl in Hj.
    destruct i as [|i]; simpl in Hi.
    + injection Hi as ->. left. apply in_map. eapply nth_error_In; eauto.
    + right. apply (IH i j); auto. lia.
Qed.

(** C9: in any report, the comparison of two groups that hold one
    observation each (pooled degrees of freedom 1 + 1 - 2 = 0) is the neutral
    record: p = 1.0 and no significance star. *)
Theorem pairwise_singletons_neutral
    (groups : list (string * list float)) (rep : GroupReport)
    (i j : nat) (name1 name2 : string) (a b : float) :
  calculateGroupStats groups = Some rep ->
  (i < j)%nat ->
  nth_error groups i = Some (name1, [a]) ->
  nth_error groups j = Some (name2, [b]) ->
  In {| group1 := name1; group2 := name2; pw_p := 1; sig := ""%string |} (pairwise rep).
Proof.
  intros Hrep Hij Hi Hj.
  destruct (calculateGroupStats_fields _ _ Hrep) as (_ & _ & _ & _ & ->).
  replace {| group1 := name1; group2 := name2; pw_p := 1; sig := ""%string |}
    with (compare_groups (summarize_group (name1, [a])) (summarize_group (name2, [b]))).
  - apply (all_pairs_In compare_groups _ i j); auto;
      rewrite nth_error_map; [rewrite Hi | rewrite Hj]; reflexivity.
  - unfold compare_groups. simpl g_n. simpl g_name.
    rewrite getPFromT_no_df by (vm_compute; discriminate).
    reflexivity.
Qed.

End GroupStats.

(** C1 as stated fails twice: a mapping with one empty and one non-empty
    group has fewer than two non-empty groups and still gets a report, and
    two groups of equal observations get a report whose fields are NaN. *)
Lemma calculateGroupStats_claim_fails :
  ((non_empty_groups groups_with_empty < 2)%Z
   /\ Statistics.calculateGroupStats (RT := Reference.reference_runtime) groups_with_empty
      <> None)
  /\ (non_empty_groups groups_all_equal = 2%Z
      /\ (0 < total_observations groups_all_equal - Statistics.len groups_all_equal)%Z
      /\ exists rep,
           Statistics.calculateGroupStats (RT := Reference.reference_runtime) groups_all_equal
           = Some rep
           /\ finite_report rep = false).
Proof.
  split; [split | split; [| split]].
  - reflexivity.
  - vm_compute. discriminate.
  - reflexivity.
  - reflexivity.
  - eexists. split; [vm_compute; reflexivity | vm_compute; reflexivity].
Qed.

(** C9 at work: groups A and B hold one observation each. *)
Lemma pairwise_singletons_neutral_witness :
  exists rep,
    Statistics.calculateGroupStats (RT := Reference.reference_runtime)
      [("A"%string, [1]%float); ("B"%string, [2]%float); ("C"%string, [3; 4; 5]%float)]
    = Some rep
    /\ In {| Statistics.group1 := "A"; Statistics.group2 := "B";
             Statistics.pw_p := 1%float; Statistics.sig := "" |}
          (Statistics.pairwise rep).
Proof.
  eexists. split.
  - vm_compute. reflexivity.
  - apply (pairwise_singletons_neutral (RT := Reference.reference_runtime)
             [("A"%string, [1]%float); ("B"%string, [2]%float); ("C"%string, [3; 4; 5]%float)]
             _ 0 1 "A" "B" 1%float 2%float).
    + vm_compute. reflexivity.
    + lia.
    + reflexivity.
    + reflexivity.
Defined.

(** ** Summary statistics *)

Section SummaryStats.
Context {RT : Runtime}.
Import Statistics.

(** C6: whatever the values and the declared kind, the counts of present and
    of missing values add up to the number of values, in the categorical
    branch, in the empty-numeric-pool branch and in the numeric branch. *)
Theorem count_plus_missing (values : list value) (type : VariableType) :
  (count (calculateSummaryStats values type) + missing (calculateSummaryStats values type)
   = len values)%Z.
Proof.
  unfold calculateSummaryStats.
  destruct (VariableType_eqb type categorical || VariableType_eqb type unknown)%bool.
  - simpl. lia.
  - destruct (len _ =? 0)%Z; simpl; lia.
Qed.

(** What the code counts as present: a value other than [null], [undefined]
    and the empty string, spaces included. *)
Lemma count_is_not_missing (values : list value) :
  count (calculateSummaryStats values categorical) = len (filter not_missing values).
Proof. reflexivity. Qed.

End SummaryStats.

(** C4, at a failing input: a string of two spaces is missing by the trimmed
    text rule, yet [calculateSummaryStats] counts it as present, under its
    own key in the frequency table of a categorical column and as the number
    0 in the pool of a numerical one; [missing] stays 0. *)
Theorem whitespace_string_counted_as_present :
  missing_by_trimmed_text (VStr "  ") = true
  /\ (let s := Statistics.calculateSummaryStats (RT := Reference.reference_runtime)
                 [VStr "  "] categorical in
      (count s, missing s, frequencies s) = (1%Z, 0%Z, Some [("  "%string, 1%Z)]))
  /\ (let s := Statistics.calculateSummaryStats (RT := Reference.reference_runtime)
                 [VStr "  "] numerical in
      (count s, missing s, mean s, min s, max s)
      = (1%Z, 0%Z, Some 0%float, Some 0%float, Some 0%float)).
Proof.
  split; [reflexivity | split; vm_compute; reflexivity].
Qed.
(** ** The correlation engine *)

Section Correlation.
Context {RT : Runtime}.
Import Statistics.

Local Open Scope float_scope.

(** Reading [y[i]] while reducing over [x] pairs the two arrays up. *)
Lemma reduce_i_combine (x : list float) :
  forall (y pre : list float) (acc : float),
    List.length x = List.length y ->
    reduce_i (fun sum xi i => sum + xi * at_index (pre ++ y) i) x (List.length pre) acc
    = fold_left (fun sum p => sum + fst p * snd p) (combine x y) acc.
Proof.
  induction x as [|xi x IH]; intros y pre acc Hlen; [reflexivity |].
  destruct y as [|yi y]; [discriminate |].
  simpl.
  replace (at_index (pre ++ yi :: y) (List.length pre)) with yi
    by (unfold at_index; now rewrite nth_middle).
  replace (pre ++ yi :: y) with ((pre ++ [yi]) ++ y) by (now rewrite <- app_assoc).
  replace (S (List.length pre)) with (List.length (pre ++ [yi]))
    by (rewrite length_app; simpl; lia).
  apply IH. now injection Hlen.
Qed.

Lemma fold_products_swap (x : list float) :
  forall (y : list float) (acc : float),
    fold_left (fun sum p => sum + fst p * snd p) (combine x y) acc
    = fold_left (fun sum p => sum + fst p * snd p) (combine y x) acc.
Proof.
  induction x as [|xi x IH]; intros [|yi y] acc; try reflexivity.
  simpl. rewrite (mul_comm xi yi). apply IH.
Qed.

(** Pearson's r does not depend on the order of its two arguments: the two
    results are the same Number, bit for bit. *)
Lemma calculatePearson_sym (x y : list float) : calculatePearson x y = calculatePearson y x.
Proof.
  unfold calculatePearson.
  destruct (len x =? len y)%Z eqn:Hxy.
  - apply Z.eqb_eq in Hxy. rewrite <- Hxy, Z.eqb_refl.
    assert (Hlen : List.length x = List.length y) by (unfold len in Hxy; lia).
    destruct (len x =? 0)%Z; [reflexivity |]. simpl orb. cbv iota zeta.
    pose proof (reduce_i_combine x y [] 0 Hlen) as Hxy'.
    pose proof (reduce_i_combine y x [] 0 (eq_sym Hlen)) as Hyx'.
    simpl app in Hxy', Hyx'. simpl List.length in Hxy', Hyx'.
    rewrite Hxy', Hyx'.
    rewrite (fold_products_swap y x).
    rewrite (mul_comm (sum_all y) (sum_all x)).
    rewrite (mul_comm (Z2F (len x) * fold_left (fun sum yi => sum + yi * yi) y 0
                       - sum_all y * sum_all y)).
    reflexivity.
  - rewrite Z.eqb_sym in Hxy. rewrite Hxy. rewrite Z.eqb_sym in Hxy. reflexivity.
Qed.

(** The complete pairs of [(yVar, xVar)] are those of [(xVar, yVar)], swapped. *)
Lemma complete_pairs_swap (data : list row) (xVar yVar : string) :
  filter (fun p => (negb (isNaN (fst p)) && negb (isNaN (snd p)))%bool)
         (map (fun row => (ToNumber (row_get row yVar), ToNumber (row_get row xVar))) data)
  = map (fun p => (snd p, fst p))
      (filter (fun p => (negb (isNaN (fst p)) && negb (isNaN (snd p)))%bool)
              (map (fun row => (ToNumber (row_get row xVar), ToNumber (row_get row yVar))) data)).
Proof.
  induction data as [|row data IH]; [reflexivity |].
  simpl. rewrite IH, andb_comm.
  destruct (negb (isNaN (ToNumber (row_get row xVar)))
            && negb (isNaN (ToNumber (row_get row yVar))))%bool; reflexivity.
Qed.

Lemma correlate_sym (data : list row) (xVar yVar : string) :
  r (correlate data yVar xVar) = r (correlate data xVar yVar)
  /\ n (correlate data yVar xVar) = n (correlate data xVar yVar)
  /\ p (correlate data yVar xVar) = p (correlate data xVar yVar).
Proof.
  unfold correlate. cbv zeta. simpl r. simpl n. simpl p.
  rewrite complete_pairs_swap.
  set (pairs := filter _ _).
  assert (Hr : calculatePearson (map fst (map (fun p => (snd p, fst p)) pairs))
                                (map snd (map (fun p => (snd p, fst p)) pairs))
               = calculatePearson (map fst pairs) (map snd pairs)).
  { rewrite !map_map. simpl. apply calculatePearson_sym. }
  assert (Hn : len (map (fun p : float * float => (snd p, fst p)) pairs) = len pairs).
  { unfold len. now rewrite length_map. }
  rewrite Hr, Hn. auto.
Qed.

(** The record pushed at step [(i, j)] of the two loops sits at index
    [i * vars.length + j]. *)
Lemma matrix_cell {A B} (cell : A -> A -> B) (vars : list A) :
  forall (rows : list A) (i j : nat) (a b : A),
    nth_error rows i = Some a -> nth_error vars j = Some b ->
    nth_error (flat_map (fun xVar => map (fun yVar => cell xVar yVar) vars) rows)
              (i * List.length vars + j)
    = Some (cell a b).
Proof.
  induction rows as [|c rows IH]; intros i j a b Hi Hj.
  - destruct i; discriminate.
  - assert (Hjlt : (j < List.length vars)%nat) by (apply nth_error_Some; congruence).
    simpl. destruct i as [|i]; simpl in Hi.
    + injection Hi as ->. simpl.
      rewrite nth_error_app1 by (now rewrite length_map).
      rewrite nth_error_map, Hj. reflexivity.
    + rewrite nth_error_app2 by (rewrite length_map; simpl; lia).
      rewrite length_map.
      replace (S i * List.length vars + j - List.length vars)%nat
        with (i * List.length vars + j)%nat by (simpl; lia).
      now apply IH.
Qed.


(** Every p-value of the matrix is NaN or lies in [0, 1]. *)
Lemma matrix_p_values_range (data : list row) (vars : list string) :
  Forall (fun c => p c = NaN \/ in_unit_interval (p c) = true)
         (getCorrelationMatrix data vars).
Proof.
  unfold getCorrelationMatrix. apply Forall_flat_map.
  apply Forall_forall. intros xVar _. apply Forall_map.
  apply Forall_forall. intros yVar _. apply calculatePValue_range.
Qed.

End Correlation.



(** C10, at a failing input: three distinct finite values near 10^9.  The
    sums of squares exceed 2^53, the one-pass formula
    [n * sumX2 - sumX * sumX] cancels to 0, and the self-pair gets r = 0
    instead of 1.0. *)
Theorem self_correlation_lost_to_cancellation {RT : Runtime} :
  map (fun c => (x c, y c, r c, n c)) (Statistics.getCorrelationMatrix rows_near_1e9 ["t"%string])
  = [("t"%string, "t"%string, 0%float, 3%Z)]
  /\ (1000000001 <? 1000000002)%float = true
  /\ (1000000002 <? 1000000003)%float = true
  /\ PrimFloat.is_finite 1000000003 = true.
Proof.
  repeat split; vm_compute; reflexivity.
Qed.

(** ** The type classifier *)

Section Classifier.
Context {RT : Runtime}.

Lemma len_pos_iff {A} (l : list A) : (0 < Statistics.len l)%Z <-> l <> [].
Proof.
  unfold Statistics.len. destruct l; simpl; split; try lia; try congruence.
Qed.

(** C7, as the code has it.  The majority classifier (part_002) marks a
    column numerical exactly when it has a non-missing value and the share,
    computed in double precision, of its non-missing values whose [Number]
    conversion is not NaN (infinities included) and which are not booleans
    exceeds 0.5; every other column, the column without values included, is
    categorical.  The classifier of components/FileUpload.tsx marks a column
    numerical exactly when it has a non-missing value and all of them are
    numbers or convert to a non-NaN number without being booleans, and gives
    the kind unknown to a column without non-missing values. *)
Theorem column_type_characterised (values : list value) :
  (let present := filter FileUploadMajority.nonNull values in
   let numeric := filter FileUploadMajority.numeric_like present in
   (FileUploadMajority.column_type values = numerical
    <-> (0 < Statistics.len present)%Z
        /\ (0.5 <? Z2F (Statistics.len numeric) / Z2F (Statistics.len present))%float = true)
   /\ (FileUploadMajority.column_type values = numerical
       \/ FileUploadMajority.column_type values = categorical)
   /\ (present = [] -> FileUploadMajority.column_type values = categorical))
  /\ (let present := filter FileUpload.nonNull values in
      (FileUpload.column_type values = numerical
       <-> present <> [] /\ Forall (fun v => FileUpload.numeric_like v = true) present)
      /\ (FileUpload.column_type values = unknown <-> present = [])).
Proof.
  split; cbv zeta.
  - unfold FileUploadMajority.column_type, FileUploadMajority.isNumericMajority.
    generalize (filter FileUploadMajority.nonNull values). intros present.
    destruct (0 <? Statistics.len present)%Z eqn:Hpos.
    + apply Z.ltb_lt in Hpos.
      assert (Hne : present <> []) by now apply len_pos_iff.
      destruct (0.5 <? _)%float eqn:Hmaj.
      * split; [tauto | split; [now left | congruence]].
      * split; [| split; [now right | congruence]].
        split; [discriminate | intros [_ H]; discriminate].
    + apply Z.ltb_ge in Hpos.
      split; [| split; [now right | reflexivity]].
      split; [discriminate | intros [H _]; lia].
  - unfold FileUpload.column_type.
    generalize (filter FileUpload.nonNull values). intros present.
    destruct (0 <? Statistics.len present)%Z eqn:Hpos.
    + apply Z.ltb_lt in Hpos.
      assert (Hne : present <> []) by now apply len_pos_iff.
      destruct (forallb FileUpload.numeric_like present) eqn:Hall.
      * split; [| split; [discriminate | congruence]].
        split; [intros _ | reflexivity].
        split; [assumption |]. apply Forall_forall. now apply forallb_forall.
      * split; [| split; [discriminate | congruence]].
        split; [discriminate |]. intros [_ H].
        rewrite (proj2 (forallb_forall _ _) (proj1 (Forall_forall _ _) H)) in Hall.
        discriminate.
    + apply Z.ltb_ge in Hpos.
      assert (Hnil : present = []).
      { destruct present; [reflexivity | unfold Statistics.len in Hpos; simpl in Hpos; lia]. }
      split; [| split; [intros _; assumption | reflexivity]].
      split; [discriminate | intros [H _]; congruence].
Qed.

(** On columns of up to 200 non-missing values the double-precision test of
    the majority classifier is the exact one: the share exceeds one half
    exactly when twice the numeric count exceeds the length. *)
Lemma majority_test_exact_200 :
  forallb (fun L => forallb (majority_test_exact L) (Z_range 0 (S (Z.to_nat L))))
          (Z_range 1 200) = true.
Proof. vm_compute. reflexivity. Qed.

Lemma majority_test_small (L c : Z) :
  (0 < L <= 200)%Z -> (0 <= c <= L)%Z ->
  (0.5 <? Z2F c / Z2F L)%float = (L <? 2 * c)%Z.
Proof.
  intros HL Hc.
  assert (HinL : In L (Z_range 1 200)).
  { unfold Z_range. apply in_map_iff. exists (Z.to_nat (L - 1)).
    split; [lia | apply in_seq; lia]. }
  assert (Hinc : In c (Z_range 0 (S (Z.to_nat L)))).
  { unfold Z_range. apply in_map_iff. exists (Z.to_nat c).
    split; [lia | apply in_seq; lia]. }
  pose proof (proj1 (forallb_forall _ _) majority_test_exact_200 L HinL) as H.
  pose proof (proj1 (forallb_forall _ _) H c Hinc) as H'.
  unfold majority_test_exact in H'. now apply eqb_prop in H'.
Qed.

End Classifier.

(** C7 as stated fails on both classifiers.  Of [1, 2, "abc"] two thirds are
    numeric-like, yet FileUpload.tsx calls the column categorical; it calls a
    column without values unknown; and the majority classifier calls the
    column [Infinity] numerical although none of its values is finite. *)
Lemma classifier_claim_fails :
  (FileUpload.column_type (RT := Reference.reference_runtime)
     [VNum 1; VNum 2; VStr "abc"] = categorical
   /\ classify_by_majority (RT := Reference.reference_runtime)
        [VNum 1; VNum 2; VStr "abc"] = numerical)
  /\ (FileUpload.column_type (RT := Reference.reference_runtime) [VNull] = unknown
      /\ classify_by_majority (RT := Reference.reference_runtime) [VNull] = categorical)
  /\ (FileUploadMajority.column_type (RT := Reference.reference_runtime)
        [VNum PrimFloat.infinity] = numerical
      /\ classify_by_majority (RT := Reference.reference_runtime)
           [VNum PrimFloat.infinity] = categorical).
Proof.
  repeat split; vm_compute; reflexivity.
Qed.

(** ** Forced re-classification *)

Section ForceNumeric.
Context {RT : Runtime}.
Import App.

(** A coerced value is [null] or a Number that is not NaN. *)
Lemma coerce_cases (val : value) :
  coerce val = VNull \/ exists x, coerce val = VNum x /\ isNaN x = false.
Proof.
  unfold coerce.
  destruct (is_nullish val || text_is_blank val)%bool; [now left |].
  destruct (isNaN (parseFloat_text val)) eqn:Hnan; [now left |].
  right. eauto.
Qed.

(** Coercing a coerced value changes nothing, unless it is -0. *)
Lemma coerce_coerce (val : value) :
  not_negative_zero (coerce val) -> coerce (coerce val) = coerce val.
Proof.
  destruct (coerce_cases val) as [-> | (x & -> & Hnan)]; [reflexivity |].
  simpl. intros Hz. unfold coerce. simpl. now rewrite Hz, Hnan.
Qed.

Lemma map_coerce_coerce (vals : list value) :
  Forall not_negative_zero (map coerce vals) ->
  map coerce (map coerce vals) = map coerce vals.
Proof.
  induction vals as [|val vals IH]; [reflexivity |].
  simpl. intros H. inversion H as [|? ? Hval Hvals]; subst.
  now rewrite coerce_coerce, IH.
Qed.

Lemma forceVariable_forceVariable (v : DataVariable) :
  (type (forceVariable v) = numerical -> Forall not_negative_zero (values (forceVariable v))) ->
  forceVariable (forceVariable v) = forceVariable v.
Proof.
  unfold forceVariable at 1 2 4.
  destruct (shouldBeNumeric (values v) || VariableType_eqb (type v) numerical)%bool eqn:Hforce.
  - simpl. intros H. specialize (H eq_refl).
    unfold forceVariable. simpl. rewrite orb_true_r, Hforce.
    now rewrite (map_coerce_coerce _ H).
  - intros _. unfold forceVariable. now rewrite Hforce.
Qed.

(** C8, as the code has it: forcing a dataset that is already the output
    of [forceNumericalAll] gives back the same variables (the same names, the
    same kinds, the same value sequences and the same statistics) and the same
    lists of numerical and categorical names, provided the forced values
    hold no -0; the second pass would turn a -0 into +0. *)
Theorem forceNumericalAll_idempotent (d d1 : Dataset) :
  forceNumericalAll (Some d) = Some d1 ->
  free_of_negative_zero d1 ->
  exists d2,
    forceNumericalAll (Some d1) = Some d2
    /\ variables d2 = variables d1
    /\ numericalVariables d2 = numericalVariables d1
    /\ categoricalVariables d2 = categoricalVariables d1.
Proof.
  intros Hd1 Hfree. simpl in Hd1. injection Hd1 as <-.
  unfold free_of_negative_zero in Hfree. simpl in Hfree.
  eexists. split; [reflexivity |]. simpl.
  assert (Hvars : map forceVariable (map forceVariable (variables d))
                  = map forceVariable (variables d)).
  { induction (variables d) as [|v vs IH]; [reflexivity |].
    simpl in *. inversion Hfree as [|? ? Hv Hvs]; subst.
    now rewrite forceVariable_forceVariable, IH. }
  now rewrite Hvars.
Qed.

End ForceNumeric.

(** C8 at work on the column ["12kg", "n/a", null, 3]. *)
Lemma forceNumericalAll_idempotent_witness :
  exists d1,
    App.forceNumericalAll (RT := Reference.reference_runtime)
      (Some (measurements [VStr "12kg"; VStr "n/a"; VNull; VNum 3])) = Some d1
    /\ map values (variables d1) = [[VNum 12; VNull; VNull; VNum 3]]
    /\ free_of_negative_zero d1
    /\ exists d2,
         App.forceNumericalAll (RT := Reference.reference_runtime) (Some d1) = Some d2
         /\ variables d2 = variables d1
         /\ numericalVariables d2 = numericalVariables d1
         /\ categoricalVariables d2 = categoricalVariables d1.
Proof.
  eexists. split; [reflexivity |].
  split; [vm_compute; reflexivity |].
  match goal with
  | |- free_of_negative_zero ?d /\ _ => assert (Hfree : free_of_negative_zero d)
  end.
  { constructor; [| constructor]. intros _. vm_compute.
    repeat constructor. }
  split; [exact Hfree |].
  exact (forceNumericalAll_idempotent (RT := Reference.reference_runtime)
           (measurements [VStr "12kg"; VStr "n/a"; VNull; VNum 3]) _ eq_refl Hfree).
Defined.

(** C8 as stated fails on a -0: the text "-0.0 mg" is forced to the Number
    -0, which the second pass prints as "0" and parses back as +0, so that the
    values and the statistics [median], [min] and [max] change sign. *)
Lemma forceNumericalAll_not_idempotent :
  let d1 := App.forceNumericalAll (RT := Reference.reference_runtime)
              (Some (measurements [VStr "-0.0 mg"])) in
  let d2 := App.forceNumericalAll (RT := Reference.reference_runtime) d1 in
  option_map (fun d => map values (variables d)) d1 = Some [[VNum (-0)]]
  /\ option_map (fun d => map values (variables d)) d2 = Some [[VNum 0]]
  /\ option_map (fun d => map (fun v => min (stats v)) (variables d)) d1 = Some [Some (-0)%float]
  /\ option_map (fun d => map (fun v => min (stats v)) (variables d)) d2 = Some [Some 0%float]
  /\ (1 / (-0) <? 1 / 0)%float = true
  /\ d2 <> d1.
Proof.
  cbv zeta.
  split; [vm_compute; reflexivity |].
  split; [vm_compute; reflexivity |].
  split; [vm_compute; reflexivity |].
  split; [vm_compute; reflexivity |].
  split; [vm_compute; reflexivity |].
  intros H.
  apply (f_equal (option_map (fun d =>
           map (fun v => map (fun val => match val with
                                         | VNum x => PrimFloat.get_sign x
                                         | _ => false
                                         end) (values v)) (variables d)))) in H.
  vm_compute in H. discriminate.
Qed.

(** ** The scenarios of the specification, run on the reference run time *)

Section Scenarios.
Import Statistics.
#[local] Existing Instance Reference.reference_runtime.

Local Open Scope float_scope.

(** Rows [{a:1,b:2}, {a:2,b:4}, {a:3,b:6}]: r(a,b) = 1 and n = 3. *)
Example scenario_perfect_correlation :
  map (fun c => (x c, y c, r c, n c))
      (getCorrelationMatrix
         [[("a"%string, VNum 1); ("b"%string, VNum 2)];
          [("a"%string, VNum 2); ("b"%string, VNum 4)];
          [("a"%string, VNum 3); ("b"%string, VNum 6)]]
         ["a"%string; "b"%string])
  = [("a"%string, "a"%string, 1, 3%Z); ("a"%string, "b"%string, 1, 3%Z);
     ("b"%string, "a"%string, 1, 3%Z); ("b"%string, "b"%string, 1, 3%Z)].
Proof. vm_compute. reflexivity. Qed.

(** Groups [{A:[1,2,3], B:[10,11,12]}]: a t-test, F = 121.5, p below 0.05 and
    an effect size close to 1. *)
Example scenario_separated_groups :
  option_map (fun rep => (test rep, f rep, gr_p rep <? 0.05, 0.95 <? etaSq rep,
                          in_unit_interval (etaSq rep), dfB rep, dfW rep))
             (calculateGroupStats
                [("A"%string, [1; 2; 3]); ("B"%string, [10; 11; 12])])
  = Some ("Independent T-test"%string, 121.5, true, true, true, 1%Z, 4%Z).
Proof. vm_compute. reflexivity. Qed.

(** The categorical column ["x","x","y",null,"y","y"]. *)
Example scenario_categorical_column :
  calculateSummaryStats
    [VStr "x"; VStr "x"; VStr "y"; VNull; VStr "y"; VStr "y"] categorical
  = {| count := 5; missing := 1; unique := 2;
       mean := None; median := None; std := None; min := None; max := None;
       frequencies := Some [("x"%string, 2%Z); ("y"%string, 3%Z)] |}.
Proof. vm_compute. reflexivity. Qed.

(** The numeric column [1,2,3,4,5]: the population standard deviation. *)
Example scenario_numeric_column :
  calculateSummaryStats [VNum 1; VNum 2; VNum 3; VNum 4; VNum 5] numerical
  = {| count := 5; missing := 0; unique := 5;
       mean := Some 3; median := Some 3; std := Some 1.4142135623730951;
       min := Some 1; max := Some 5; frequencies := None |}.
Proof. vm_compute. reflexivity. Qed.

(** The stars of the significance annotator. *)
Example scenario_stars :
  map getSignificanceStars [0.0005; 0.001; 0.005; 0.01; 0.03; 0.05; 1; NaN]
  = ["***"; "**"; "**"; "*"; "*"; ""; ""; ""]%string.
Proof. vm_compute. reflexivity. Qed.

(** Text the reference run time converts as an engine does. *)
Example scenario_conversions :
  map StringToNumber ["12"; " 3.5e2 "; "-0"; "  "; "abc"; "0x1F"; "Infinity"; "12px"]%string
  = [12; 350; -0; 0; NaN; 31; PrimFloat.infinity; NaN]
  /\ map parseFloat ["12px"; "-0.0 mg"; " 7e1kg"; "n/a"; "  "; ".5"]%string
     = [12; -0; 70; NaN; NaN; 0.5]
  /\ map NumberToString [1; 0.1; 1e21; 123.456; -2.5; 5e-324]
     = ["1"; "0.1"; "1e+21"; "123.456"; "-2.5"; "5e-324"]%string.
Proof. repeat split; vm_compute; reflexivity. Qed.

End Scenarios.

(** * Further properties of the code *)

(** ** The order of Numbers *)

Section FloatOrder.

Local Open Scope Z_scope.

Lemma SFcompare_order_key (a b : spec_float) :
  a <> S754_nan -> b <> S754_nan ->
  SFcompare a b = Some (lex3 (order_key a) (order_key b)).
Proof.
  intros Ha Hb.
  destruct a as [sa|sa| |sa ma ea], b as [sb|sb| |sb mb eb]; try congruence;
    try (destruct sa; reflexivity); try (destruct sb; reflexivity);
    try (destruct sa, sb; reflexivity).
  unfold SFcompare, order_key, lex3.
  destruct sa, sb; try reflexivity.
  change (-1 ?= -1) with Eq. cbv iota.
  rewrite Z.compare_opp, (Z.compare_antisym ea eb).
  destruct (ea ?= eb); reflexivity.
Qed.

Lemma lex3_trans_lt (a b c : Z * Z * Z) :
  lex3 a b <> Gt -> lex3 b c = Lt -> lex3 a c = Lt.
Proof.
  destruct a as [[a1 a2] a3], b as [[b1 b2] b3], c as [[c1 c2] c3]. unfold lex3.
  destruct (Z.compare_spec a1 b1), (Z.compare_spec b1 c1), (Z.compare_spec a1 c1);
    try lia; try congruence;
    destruct (Z.compare_spec a2 b2), (Z.compare_spec b2 c2), (Z.compare_spec a2 c2);
    try lia; try congruence;
    destruct (Z.compare_spec a3 b3), (Z.compare_spec b3 c3), (Z.compare_spec a3 c3);
    try lia; congruence.
Qed.

(** [a <= b] and [b < c] give [a < c]. *)
Lemma leb_ltb_trans (a b c : float) :
  (a <=? b)%float = true -> (b <? c)%float = true -> (a <? c)%float = true.
Proof.
  rewrite leb_spec, !ltb_spec. unfold SFleb, SFltb. intros Hab Hbc.
  assert (Ha : Prim2SF a <> S754_nan) by (intros E; rewrite E in Hab; discriminate).
  assert (Hb : Prim2SF b <> S754_nan)
    by (intros E; rewrite E in Hbc; discriminate).
  assert (Hc : Prim2SF c <> S754_nan)
    by (intros E; rewrite E in Hbc; destruct (Prim2SF b); discriminate).
  rewrite SFcompare_order_key in * by assumption.
  rewrite (lex3_trans_lt (order_key (Prim2SF a)) (order_key (Prim2SF b)) (order_key (Prim2SF c))).
  - reflexivity.
  - destruct (lex3 (order_key (Prim2SF a)) (order_key (Prim2SF b))); congruence.
  - destruct (lex3 (order_key (Prim2SF b)) (order_key (Prim2SF c))); congruence.
Qed.

End FloatOrder.

Section Stars.
Import Statistics.

Local Open Scope float_scope.

(** X1: the significance annotator is monotone: a p-value that is not larger
    never gets fewer stars. *)
Theorem getSignificanceStars_monotone (p q : float) :
  (p <=? q) = true ->
  (String.length (getSignificanceStars q) <= String.length (getSignificanceStars p))%nat.
Proof.
  intros Hpq. unfold getSignificanceStars.
  destruct (q <? 0.001) eqn:H1.
  - rewrite (leb_ltb_trans p q _ Hpq H1). simpl. lia.
  - destruct (q <? 0.01) eqn:H2.
    + rewrite (leb_ltb_trans p q _ Hpq H2).
      destruct (p <? 0.001); simpl; lia.
    + destruct (q <? 0.05) eqn:H3.
      * rewrite (leb_ltb_trans p q _ Hpq H3).
        destruct (p <? 0.001); [simpl; lia |].
        destruct (p <? 0.01); simpl; lia.
      * simpl. lia.
Qed.

End Stars.

(** X1 at work: 0.004 and 0.03. *)
Lemma getSignificanceStars_monotone_witness :
  (String.length (Statistics.getSignificanceStars 0.03)
   <= String.length (Statistics.getSignificanceStars 0.004))%nat.
Proof.
  apply (getSignificanceStars_monotone 0.004 0.03). reflexivity.
Defined.

(** ** More on the correlation matrix *)

Section MatrixShape.
Context {RT : Runtime}.
Import Statistics.

Local Open Scope float_scope.

(** X2: the matrix holds one record per ordered pair of the variable list,
    self-pairs included, row by row: its labels are the pairs of
    [vars x vars] in order, so it has [vars.length ^ 2] records. *)
Theorem correlation_matrix_labels (data : list row) (vars : list string) :
  map (fun c => (x c, y c)) (getCorrelationMatrix data vars) = list_prod vars vars
  /\ List.length (getCorrelationMatrix data vars) = (List.length vars * List.length vars)%nat.
Proof.
  assert (H : forall rows cols,
             map (fun c => (x c, y c))
                 (flat_map (fun xVar => map (fun yVar => correlate data xVar yVar) cols) rows)
             = list_prod rows cols).
  { intros rows cols. induction rows as [|a rows IH]; [reflexivity |].
    simpl. rewrite map_app, IH, map_map. reflexivity. }
  split; [apply H |].
  rewrite <- (length_map (fun c => (x c, y c))).
  unfold getCorrelationMatrix. rewrite H. apply length_prod.
Qed.

Lemma len_filter_le {A} (keep : A -> bool) (l : list A) : (len (filter keep l) <= len l)%Z.
Proof.
  unfold len. pose proof (filter_length_le keep l). lia.
Qed.

Lemma len_nonneg {A} (l : list A) : (0 <= len l)%Z.
Proof. unfold len. lia. Qed.

(** X3: every record of the matrix counts at most the rows of the data, its
    star label is the one of its p-value, its p-value is NaN or lies in
    [0, 1], and a pair with at most two complete rows gets p = 1.0 and no
    star. *)
Theorem correlation_matrix_records (data : list row) (vars : list string) :
  Forall (fun c =>
            (0 <= n c <= len data)%Z
            /\ significance c = getSignificanceStars (p c)
            /\ (p c = NaN \/ in_unit_interval (p c) = true)
            /\ ((n c <=? 2)%Z = true -> p c = 1 /\ significance c = ""%string))
         (getCorrelationMatrix data vars).
Proof.
  unfold getCorrelationMatrix. apply Forall_flat_map.
  apply Forall_forall. intros xVar _. apply Forall_map.
  apply Forall_forall. intros yVar _.
  unfold correlate. cbv zeta. simpl n. simpl p. simpl significance.
  set (pairs := filter _ _).
  split; [| split; [reflexivity | split; [apply calculatePValue_range |]]].
  - split; [apply len_nonneg |].
    unfold pairs. etransitivity; [apply len_filter_le |].
    unfold len. rewrite length_map. lia.
  - intros Hn. unfold calculatePValue. rewrite Hn. split; reflexivity.
Qed.

(** The rows that are complete for [(xVar, yVar)] are complete for [xVar]. *)
Lemma complete_pairs_le (data : list row) (xVar yVar : string) :
  (n (correlate data xVar yVar) <= n (correlate data xVar xVar))%Z.
Proof.
  unfold correlate. cbv zeta. simpl n. unfold len.
  apply inj_le.
  induction data as [|row data IH]; [simpl; lia |].
  simpl.
  destruct (isNaN (ToNumber (row_get row xVar))); simpl.
  - exact IH.
  - destruct (isNaN (ToNumber (row_get row yVar))); simpl; lia.
Qed.

(** X4: pairwise-complete filtering only removes rows: at every position of
    the matrix, the pair [(x, y)] counts no more rows than the self-pairs
    [(x, x)] and [(y, y)]. *)
Theorem pair_count_at_most_self_count
    (data : list row) (vars : list string) (i j : nat) (xVar yVar : string) :
  nth_error vars i = Some xVar ->
  nth_error vars j = Some yVar ->
  exists cxy cxx cyy,
    nth_error (getCorrelationMatrix data vars) (i * List.length vars + j) = Some cxy
    /\ nth_error (getCorrelationMatrix data vars) (i * List.length vars + i) = Some cxx
    /\ nth_error (getCorrelationMatrix data vars) (j * List.length vars + j) = Some cyy
    /\ (n cxy <= n cxx)%Z /\ (n cxy <= n cyy)%Z.
Proof.
  intros Hi Hj.
  exists (correlate data xVar yVar), (correlate data xVar xVar), (correlate data yVar yVar).
  unfold getCorrelationMatrix.
  rewrite (matrix_cell (correlate data) vars vars i j xVar yVar Hi Hj).
  rewrite (matrix_cell (correlate data) vars vars i i xVar xVar Hi Hi).
  rewrite (matrix_cell (correlate data) vars vars j j yVar yVar Hj Hj).
  split; [reflexivity |]. split; [reflexivity |]. split; [reflexivity |].
  split; [apply complete_pairs_le |].
  destruct (correlate_sym data xVar yVar) as (_ & Hn & _).
  rewrite <- Hn. apply complete_pairs_le.
Qed.

End MatrixShape.

(** X4 at work: the second row has no value for b. *)
Lemma pair_count_at_most_self_count_witness :
  exists cxy cxx cyy,
    nth_error (Statistics.getCorrelationMatrix (RT := Reference.reference_runtime)
                 [[("a"%string, VNum 1); ("b"%string, VNum 2)];
                  [("a"%string, VNum 2); ("b"%string, VStr "n/a")];
                  [("a"%string, VNum 3); ("b"%string, VNum 7)]]
                 ["a"%string; "b"%string]) (0 * 2 + 1) = Some cxy
    /\ nth_error (Statistics.getCorrelationMatrix (RT := Reference.reference_runtime)
                 [[("a"%string, VNum 1); ("b"%string, VNum 2)];
                  [("a"%string, VNum 2); ("b"%string, VStr "n/a")];
                  [("a"%string, VNum 3); ("b"%string, VNum 7)]]
                 ["a"%string; "b"%string]) (0 * 2 + 0) = Some cxx
    /\ nth_error (Statistics.getCorrelationMatrix (RT := Reference.reference_runtime)
                 [[("a"%string, VNum 1); ("b"%string, VNum 2)];
                  [("a"%string, VNum 2); ("b"%string, VStr "n/a")];
                  [("a"%string, VNum 3); ("b"%string, VNum 7)]]
                 ["a"%string; "b"%string]) (1 * 2 + 1) = Some cyy
    /\ (n cxy <= n cxx)%Z /\ (n cxy <= n cyy)%Z.
Proof.
  apply (pair_count_at_most_self_count (RT := Reference.reference_runtime)
           [[("a"%string, VNum 1); ("b"%string, VNum 2)];
            [("a"%string, VNum 2); ("b"%string, VStr "n/a")];
            [("a"%string, VNum 3); ("b"%string, VNum 7)]]
           ["a"%string; "b"%string] 0 1 "a" "b"); reflexivity.
Defined.

(** ** More on group reports *)

Section ReportShape.
Context {RT : Runtime}.
Import Statistics.

Local Open Scope Z_scope.

Lemma all_pairs_map {A B C} (g : A -> B) (mk : B -> B -> C) (l : list A) :
  all_pairs mk (map g l) = all_pairs (fun a b => mk (g a) (g b)) l.
Proof.
  induction l as [|a l IH]; [reflexivity |].
  simpl. now rewrite map_map, IH.
Qed.

Lemma all_pairs_labels {A B C} (lab : B -> C) (mk : A -> A -> B) (l : list A) :
  map lab (all_pairs mk l) = all_pairs (fun a b => lab (mk a b)) l.
Proof.
  induction l as [|a l IH]; [reflexivity |].
  simpl. now rewrite map_app, map_map, IH.
Qed.

Lemma all_pairs_length {A B} (mk : A -> A -> B) (l : list A) :
  2 * len (all_pairs mk l) = len l * (len l - 1).
Proof.
  unfold len. induction l as [|a l IH]; [reflexivity |].
  simpl all_pairs. rewrite length_app, length_map. simpl List.length. lia.
Qed.

(** X5: a report lists one summary per group, in the order of the labels,
    with the label and the size of the group; its degrees of freedom are
    [k - 1] and [N - k > 0]; it is called a t-test exactly when there are two
    groups; and each of its p-values is NaN or lies in [0, 1]. *)
Theorem report_shape (groups : list (string * list float)) (rep : GroupReport) :
  calculateGroupStats groups = Some rep ->
  map (fun g => (g_name g, g_n g)) (Statistics.groups rep)
  = map (fun g => (fst g, len (snd g))) groups
  /\ dfB rep = len groups - 1
  /\ dfW rep = total_observations groups - len groups
  /\ 0 < dfB rep /\ 0 < dfW rep
  /\ (test rep = "Independent T-test"%string <-> len groups = 2)
  /\ (test rep = "One-way ANOVA"%string <-> 2 < len groups)
  /\ (gr_p rep = NaN \/ in_unit_interval (gr_p rep) = true)
  /\ Forall (fun c => pw_p c = NaN \/ in_unit_interval (pw_p c) = true) (pairwise rep).
Proof.
  intros Hrep.
  destruct (report_p_values_range _ _ Hrep) as [Hp Hpw].
  revert Hrep. unfold calculateGroupStats, total_observations. rewrite len_Object_keys.
  destruct (len groups <? 2) eqn:Hk; [discriminate |].
  destruct (_ <=? 0) eqn:Hdf; [discriminate |].
  apply Z.ltb_ge in Hk. apply Z.leb_gt in Hdf.
  intros [= <-]. simpl in *.
  split; [now rewrite map_map |].
  split; [reflexivity |]. split; [reflexivity |].
  split; [lia |]. split; [lia |].
  destruct (len groups =? 2) eqn:H2.
  - apply Z.eqb_eq in H2. repeat split; auto; try discriminate; lia.
  - apply Z.eqb_neq in H2. repeat split; auto; try discriminate; lia.
Qed.

(** X6: the post-hoc list compares every group with every later group, once:
    its pairs of labels are those of the double loop over the labels, in
    order, so a report of [k] groups holds [k (k - 1) / 2] comparisons, each
    carrying the star label of its own p-value. *)
Theorem report_pairwise_shape (groups : list (string * list float)) (rep : GroupReport) :
  calculateGroupStats groups = Some rep ->
  map (fun c => (group1 c, group2 c)) (pairwise rep) = all_pairs pair (map fst groups)
  /\ 2 * len (pairwise rep) = len groups * (len groups - 1)
  /\ Forall (fun c => sig c = getSignificanceStars (pw_p c)) (pairwise rep).
Proof.
  intros Hrep.
  destruct (calculateGroupStats_fields _ _ Hrep) as (_ & _ & _ & _ & ->).
  split; [| split].
  - rewrite all_pairs_labels, !all_pairs_map. reflexivity.
  - rewrite all_pairs_length. unfold len. now rewrite length_map.
  - apply all_pairs_Forall. reflexivity.
Qed.

End ReportShape.

(** X5 at work on three groups of 3, 2 and 4 observations. *)
Lemma report_shape_witness :
  exists rep,
    Statistics.calculateGroupStats (RT := Reference.reference_runtime) three_groups = Some rep
    /\ map (fun g => (Statistics.g_name g, Statistics.g_n g)) (Statistics.groups rep)
       = [("A"%string, 3%Z); ("B"%string, 2%Z); ("C"%string, 4%Z)]
    /\ Statistics.dfB rep = 2%Z
    /\ Statistics.dfW rep = 6%Z
    /\ Statistics.test rep = "One-way ANOVA"%string.
Proof.
  eexists. split; [vm_compute; reflexivity |].
  match goal with
  | |- context [Statistics.groups ?r] =>
      pose proof (report_shape (RT := Reference.reference_runtime) three_groups r eq_refl)
        as (Hg & Hb & Hw & _ & _ & _ & Ht & _)
  end.
  split; [exact Hg |]. split; [exact Hb |]. split; [exact Hw |].
  apply Ht. reflexivity.
Defined.

(** X6 at work on the same groups: A-B, A-C, B-C. *)
Lemma report_pairwise_shape_witness :
  exists rep,
    Statistics.calculateGroupStats (RT := Reference.reference_runtime) three_groups = Some rep
    /\ map (fun c => (Statistics.group1 c, Statistics.group2 c)) (Statistics.pairwise rep)
       = [("A", "B"); ("A", "C"); ("B", "C")]%string
    /\ Statistics.len (Statistics.pairwise rep) = 3%Z.
Proof.
  eexists. split; [vm_compute; reflexivity |].
  match goal with
  | |- context [Statistics.pairwise ?r] =>
      pose proof (report_pairwise_shape (RT := Reference.reference_runtime)
                    three_groups r eq_refl) as (Hl & Hn & _)
  end.
  split; [exact Hl |].
  change (Statistics.len three_groups) with 3%Z in Hn. lia.
Defined.

(** ** More on summary statistics *)

Section SummaryShape.
Context {RT : Runtime}.
Import Statistics.

Local Open Scope Z_scope.

Lemma set_size_bounds (l : list value) : 0 <= set_size l <= len l.
Proof.
  unfold len. induction l as [|v l IH]; [simpl; lia |].
  cbn [set_size List.length]. rewrite Nat2Z.inj_succ.
  destruct (existsb _ _); lia.
Qed.

Lemma set_size_pos (l : list value) : l <> [] -> 0 < set_size l.
Proof.
  induction l as [|v l IH]; [congruence |]. intros _. cbn [set_size].
  destruct (existsb (same_value_zero v) l) eqn:E.
  - apply IH. intros ->. discriminate.
  - pose proof (set_size_bounds l). lia.
Qed.

(** X7: the three counters of any summary are consistent: none is negative,
    [unique] never exceeds [count], [count] and [missing] never exceed the
    number of values, and a column with a counted value has a distinct one. *)
Theorem summary_counters (values : list value) (type : VariableType) :
  let s := calculateSummaryStats values type in
  0 <= unique s <= count s
  /\ 0 <= count s <= len values
  /\ 0 <= missing s <= len values
  /\ (0 < count s -> 0 < unique s).
Proof.
  cbv zeta. unfold calculateSummaryStats.
  pose proof (set_size_bounds (filter not_missing values)) as Hu.
  pose proof (len_filter_le not_missing values) as Hf.
  pose proof (len_nonneg (filter not_missing values)) as H0.
  assert (Hpos : 0 < len (filter not_missing values) -> 0 < set_size (filter not_missing values)).
  { intros H. apply set_size_pos. intros E. rewrite E in H. unfold len in H. simpl in H. lia. }
  destruct (VariableType_eqb type categorical || VariableType_eqb type unknown)%bool.
  - simpl. repeat split; lia.
  - destruct (len _ =? 0); simpl; repeat split; lia.
Qed.

(** The sort keeps the values it is given, each as often as it occurs. *)
Lemma sort_insert_In (a b : float) (l : list float) :
  In b (sort_insert a l) <-> b = a \/ In b l.
Proof.
  induction l as [|c l IH]; simpl; [intuition congruence |].
  destruct (c - a <? 0)%float; simpl; [rewrite IH |]; intuition congruence.
Qed.

Lemma sort_ascending_In (b : float) (l : list float) : In b (sort_ascending l) <-> In b l.
Proof.
  unfold sort_ascending. induction l as [|a l IH]; simpl; [tauto |].
  rewrite sort_insert_In, IH. intuition congruence.
Qed.

Lemma sort_insert_length (a : float) (l : list float) :
  List.length (sort_insert a l) = S (List.length l).
Proof.
  induction l as [|c l IH]; simpl; [reflexivity |].
  destruct (c - a <? 0)%float; simpl; [now rewrite IH | reflexivity].
Qed.

Lemma sort_ascending_length (l : list float) :
  List.length (sort_ascending l) = List.length l.
Proof.
  unfold sort_ascending. induction l as [|a l IH]; simpl; [reflexivity |].
  now rewrite sort_insert_length, IH.
Qed.

Lemma at_index_In (l : list float) (i : nat) : (i < List.length l)%nat -> In (at_index l i) l.
Proof. intros H. unfold at_index. now apply nth_In. Qed.

Lemma pool_value_In (values : list value) (m : float) :
  In m (filter (fun v => negb (isNaN v)) (map ToNumber (filter not_missing values))) ->
  pool_value values m.
Proof.
  intros H. apply filter_In in H. destruct H as [H Hnan].
  apply in_map_iff in H. destruct H as (v & Hv & Hin).
  apply filter_In in Hin. destruct Hin as [Hin Hnm].
  exists v. repeat split; auto. now apply negb_true_iff in Hnan.
Qed.

(** X8: the [min] and the [max] of a numerical summary are numbers of the
    column: each is the conversion, not NaN, of a present value; so is the
    [median] when it is reported for an odd number of them.  A summary has
    them exactly when some present value converts to a number. *)
Theorem summary_extremes_are_values (values : list value) :
  let s := calculateSummaryStats values numerical in
  let nums := filter (fun v => negb (isNaN v)) (map ToNumber (filter not_missing values)) in
  match min s, max s, median s with
  | Some lo, Some hi, Some mid =>
      nums <> [] /\ pool_value values lo /\ pool_value values hi
      /\ (Nat.odd (List.length nums) = true -> pool_value values mid)
  | None, None, None => nums = [] /\ mean s = None /\ std s = None /\ count s = 0
  | _, _, _ => False
  end.
Proof.
  cbv zeta. unfold calculateSummaryStats. simpl orb. cbv iota.
  set (nums := filter (fun v => negb (isNaN v)) (map ToNumber (filter not_missing values))).
  destruct (len nums =? 0) eqn:Hlen.
  - simpl. apply Z.eqb_eq in Hlen. repeat split; auto.
    destruct nums; [reflexivity | unfold len in Hlen; simpl in Hlen; lia].
  - cbn [min max median]. apply Z.eqb_neq in Hlen.
    assert (Hpos : (0 < List.length nums)%nat).
    { destruct nums; [unfold len in Hlen; simpl in Hlen; lia | simpl; lia]. }
    assert (Hsorted : forall i, (i < List.length nums)%nat ->
                                pool_value values (at_index (sort_ascending nums) i)).
    { intros i Hi. apply pool_value_In. apply sort_ascending_In.
      apply at_index_In. now rewrite sort_ascending_length. }
    rewrite sort_ascending_length.
    split; [intros E; rewrite E in Hpos; simpl in Hpos; lia |].
    split; [apply Hsorted; lia |].
    split; [apply Hsorted; lia |].
    intros Hodd.
    assert (Hmod : (len (sort_ascending nums) mod 2 =? 0) = false).
    { unfold len. rewrite sort_ascending_length. apply Z.eqb_neq.
      rewrite <- Nat.negb_even in Hodd. apply negb_true_iff in Hodd.
      intros E. assert (Nat.even (List.length nums) = true); [| congruence].
      apply Nat.even_spec. exists (Z.to_nat (Z.of_nat (List.length nums) / 2)).
      apply Nat2Z.inj. rewrite Nat2Z.inj_mul, Z2Nat.id by (apply Z.div_pos; lia).
      pose proof (Z.div_mod (Z.of_nat (List.length nums)) 2). lia. }
    rewrite Hmod. apply Hsorted. apply Nat.div_lt; lia.
Qed.

End SummaryShape.

(** ** The frequency table *)

Section Frequencies.
Context {RT : Runtime}.
Import Statistics.

Local Open Scope Z_scope.

Lemma freq_incr_keys (key : string) (freqs : list (string * Z)) :
  map fst (freq_incr key freqs)
  = if existsb (String.eqb key) (map fst freqs) then map fst freqs else map fst freqs ++ [key].
Proof.
  induction freqs as [|[k c] freqs IH]; [reflexivity |].
  simpl. rewrite (String.eqb_sym key k).
  destruct (String.eqb k key) eqn:E; simpl; [reflexivity |].
  rewrite IH. destruct (existsb _ _); reflexivity.
Qed.

Lemma freq_incr_NoDup (key : string) (freqs : list (string * Z)) :
  NoDup (map fst freqs) -> NoDup (map fst (freq_incr key freqs)).
Proof.
  intros H. rewrite freq_incr_keys.
  destruct (existsb (String.eqb key) (map fst freqs)) eqn:E; [assumption |].
  apply NoDup_app; [assumption | repeat constructor; intros [] | ].
  intros k Hk [Ek | []]. subst k.
  assert (existsb (String.eqb key) (map fst freqs) = true); [| congruence].
  apply existsb_exists. exists key. split; [assumption | apply String.eqb_refl].
Qed.

Lemma freq_incr_total (key : string) (freqs : list (string * Z)) :
  freq_total (freq_incr key freqs) = freq_total freqs + 1.
Proof.
  unfold freq_total. induction freqs as [|[k c] freqs IH]; [reflexivity |].
  cbn [freq_incr]. destruct (String.eqb k key); cbn [map snd fold_right]; [lia |].
  rewrite IH. lia.
Qed.

Lemma freq_incr_freq_of (key k : string) (freqs : list (string * Z)) :
  freq_of k (freq_incr key freqs)
  = freq_of k freqs + (if String.eqb key k then 1 else 0).
Proof.
  induction freqs as [|[k' c] freqs IH].
  - simpl. destruct (String.eqb key k); reflexivity.
  - cbn [freq_incr]. destruct (String.eqb k' key) eqn:E.
    + apply String.eqb_eq in E. subst k'. cbn [freq_of].
      destruct (String.eqb key k); lia.
    + cbn [freq_of]. destruct (String.eqb k' k) eqn:E'; [| exact IH].
      apply String.eqb_eq in E'. subst k'. rewrite String.eqb_sym in E. rewrite E. lia.
Qed.

Lemma frequencies_fold (l : list value) :
  forall freqs,
    NoDup (map fst freqs) ->
    let out := fold_left (fun freqs v => freq_incr (ToString v) freqs) l freqs in
    NoDup (map fst out)
    /\ freq_total out = freq_total freqs + len l
    /\ forall k, freq_of k out
                 = freq_of k freqs + len (filter (fun v => String.eqb (ToString v) k) l).
Proof.
  unfold len. induction l as [|v l IH]; intros freqs Hnd; cbv zeta.
  - simpl. repeat split; [assumption | lia | intros; lia].
  - cbn [fold_left].
    destruct (IH (freq_incr (ToString v) freqs) (freq_incr_NoDup _ _ Hnd)) as (H1 & H2 & H3).
    split; [exact H1 |]. split.
    + rewrite H2, freq_incr_total. cbn [List.length]. lia.
    + intros k. rewrite H3, freq_incr_freq_of. cbn [filter].
      destruct (String.eqb (ToString v) k); cbn [List.length]; lia.
Qed.

(** X9: the frequency table of a categorical (or unknown) column, none of
    whose texts is a name inherited from [Object.prototype], has one key per
    distinct text; the count under a key is the number of present values
    with that text (0 for a text that is no key), and the counts add up to
    [count]. *)
Theorem frequencies_count_texts (values : list value) (type : VariableType) :
  type <> numerical ->
  Forall (fun v => ~ In (ToString v) Objects.Object_prototype_names) values ->
  exists freqs,
    frequencies (calculateSummaryStats values type) = Some freqs
    /\ NoDup (map fst freqs)
    /\ freq_total freqs = count (calculateSummaryStats values type)
    /\ forall k, freq_of k freqs
                 = len (filter (fun v => String.eqb (ToString v) k) (filter not_missing values)).
Proof.
  intros Htype _.
  unfold calculateSummaryStats.
  assert (Hcat : (VariableType_eqb type categorical || VariableType_eqb type unknown)%bool = true)
    by (destruct type; [congruence | reflexivity | reflexivity]).
  rewrite Hcat. cbn [frequencies count].
  destruct (frequencies_fold (filter not_missing values) [] (NoDup_nil _)) as (H1 & H2 & H3).
  eexists. split; [reflexivity |]. split; [exact H1 |]. split; [exact H2 |].
  intros k. rewrite H3. reflexivity.
Qed.

End Frequencies.

(** X9 at work on the column ["x", "x", "y", null, "y", "y"]. *)
Lemma frequencies_count_texts_witness :
  exists freqs,
    frequencies (Statistics.calculateSummaryStats (RT := Reference.reference_runtime)
                   [VStr "x"; VStr "x"; VStr "y"; VNull; VStr "y"; VStr "y"] categorical)
    = Some freqs
    /\ NoDup (map fst freqs)
    /\ freq_total freqs
       = count (Statistics.calculateSummaryStats (RT := Reference.reference_runtime)
                  [VStr "x"; VStr "x"; VStr "y"; VNull; VStr "y"; VStr "y"] categorical)
    /\ forall k, freq_of k freqs
                 = Statistics.len
                     (filter (fun v => String.eqb (ToString (RT := Reference.reference_runtime) v) k)
                             (filter Statistics.not_missing
                                [VStr "x"; VStr "x"; VStr "y"; VNull; VStr "y"; VStr "y"])).
Proof.
  apply (frequencies_count_texts (RT := Reference.reference_runtime)).
  - discriminate.
  - repeat constructor; vm_compute; intuition discriminate.
Defined.

(** ** Loading a dataset *)

Section Loading.
Context {RT : Runtime}.

Local Open Scope Z_scope.

Lemma count_missing_total (values : list value) (type : VariableType) :
  count (Statistics.calculateSummaryStats values type)
  + missing (Statistics.calculateSummaryStats values type) = Statistics.len values.
Proof.
  unfold Statistics.calculateSummaryStats.
  destruct (VariableType_eqb type categorical || VariableType_eqb type unknown)%bool;
    [simpl; lia |].
  destruct (Statistics.len _ =? 0); simpl; lia.
Qed.

(** X10: [processRawData] of FileUpload.tsx loads nothing from an empty list of
    rows; otherwise it keeps the rows and makes one variable per key of the
    first row, in order, whose values are the cells [row[h]] of all rows
    ([undefined] where a row lacks the key, the keys being no names
    inherited from [Object.prototype]), whose kind is the classifier's and
    whose [count] and [missing] add up to the number of rows; the numerical
    and categorical name lists name variables of those kinds. *)
Theorem processRawData_columns (rows : list row) (filename : string) :
  Forall (fun h => Objects.inherited h = false) (Object_keys (hd [] rows)) ->
  match FileUpload.processRawData rows filename with
  | None => rows = []
  | Some d =>
      rows <> []
      /\ data d = rows
      /\ map name (variables d) = Object_keys (hd [] rows)
      /\ Forall (fun v =>
                   values v = map (fun r => row_get r (name v)) rows
                   /\ type v = FileUpload.column_type (values v)
                   /\ count (stats v) + missing (stats v) = Statistics.len rows)
                (variables d)
      /\ (forall h, In h (numericalVariables d)
                    <-> exists v, In v (variables d) /\ name v = h /\ type v = numerical)
      /\ (forall h, In h (categoricalVariables d)
                    <-> exists v, In v (variables d) /\ name v = h /\ type v = categorical)
  end.
Proof.
  intros _. destruct rows as [|row0 rows]; [reflexivity |].
  cbn [FileUpload.processRawData data variables numericalVariables categoricalVariables hd].
  split; [discriminate |]. split; [reflexivity |].
  split; [rewrite map_map; apply map_id |].
  split.
  - apply Forall_map, Forall_forall. intros h _. unfold FileUpload.column. cbn [values type name stats].
    split; [reflexivity |]. split; [reflexivity |].
    rewrite count_missing_total. unfold Statistics.len. now rewrite length_map.
  - assert (Hnames : forall t vs h,
               In h (FileUpload.names_of t vs)
               <-> exists v, In v vs /\ name v = h /\ type v = t).
    { intros t vs h. unfold FileUpload.names_of. rewrite in_map_iff. split.
      - intros (v & Hn & Hv). apply filter_In in Hv. destruct Hv as [Hv Ht].
        exists v. repeat split; auto. destruct (type v), t; simpl in Ht; congruence.
      - intros (v & Hv & Hn & Ht). exists v. split; [assumption |].
        apply filter_In. split; [assumption |]. rewrite Ht. now destruct t. }
    split; intros h; apply Hnames.
Qed.

Lemma cast_null_or_number (v : value) : null_or_number (FileUploadMajority.cast v).
Proof.
  unfold FileUploadMajority.cast.
  destruct (is_nullish v || text_is_blank v)%bool; [exact I |].
  destruct (isNaN (ToNumber v)) eqn:E; [exact I | exact E].
Qed.

Lemma not_missing_null_or_number (v : value) :
  null_or_number v -> Statistics.not_missing v = is_number v.
Proof. destruct v; simpl; intros H; try reflexivity; contradiction. Qed.

Lemma filter_ext_Forall {A} (f g : A -> bool) (l : list A) :
  Forall (fun a => f a = g a) l -> filter f l = filter g l.
Proof.
  induction 1 as [|a l Ha Hl IH]; [reflexivity |]. simpl. now rewrite Ha, IH.
Qed.

(** The numeric pool of a column of nulls and numbers is the numbers. *)
Lemma pool_of_numbers (vals : list value) :
  Forall null_or_number vals ->
  Statistics.len (filter (fun x => negb (isNaN x))
                         (map ToNumber (filter Statistics.not_missing vals)))
  = Statistics.len (filter Statistics.not_missing vals).
Proof.
  unfold Statistics.len. intros H. f_equal.
  induction H as [|v vals Hv Hvals IH]; [reflexivity |].
  destruct v; simpl in *; try contradiction; [assumption |].
  rewrite Hv. simpl. now rewrite IH.
Qed.

(** X11: in a dataset of the majority uploader (part_002) a numerical
    variable holds nothing but [null] and Numbers that are not NaN, one per
    row, and its [count] is the number of its Numbers: the statistics are
    taken over all counted values. *)
Theorem majority_numerical_columns (rows : list row) (filename : string) (d : Dataset) :
  FileUploadMajority.processRawData rows filename = Some d ->
  Forall (fun v =>
            type v = numerical ->
            Forall null_or_number (values v)
            /\ Statistics.len (values v) = Statistics.len rows
            /\ count (stats v) = Statistics.len (filter is_number (values v))
            /\ 0 < count (stats v))
         (variables d).
Proof.
  destruct rows as [|row0 rows]; [discriminate |].
  intros [= <-]. cbn [variables].
  apply Forall_map, Forall_forall. intros h _.
  unfold FileUploadMajority.column. cbn [values type stats].
  set (raw := map (fun r => row_get r h) (row0 :: rows)).
  unfold FileUploadMajority.processedValues.
  destruct (FileUploadMajority.column_type raw) eqn:Htype; try discriminate.
  intros _.
  assert (Hall : Forall null_or_number (map FileUploadMajority.cast raw)).
  { apply Forall_map, Forall_forall. intros v _. apply cast_null_or_number. }
  split; [exact Hall |].
  split; [unfold Statistics.len, raw; now rewrite !length_map |].
  (* the majority test found a value that converts: the pool is not empty *)
  assert (Hpool : 0 < Statistics.len (filter Statistics.not_missing
                                        (map FileUploadMajority.cast raw))).
  { revert Htype. unfold FileUploadMajority.column_type.
    destruct (0 <? Statistics.len (filter FileUploadMajority.nonNull raw)) eqn:Hpos;
      [| discriminate].
    unfold FileUploadMajority.isNumericMajority.
    destruct (filter FileUploadMajority.numeric_like (filter FileUploadMajority.nonNull raw))
      as [|v vs] eqn:Hnum.
    - change (Z2F (Statistics.len [])) with 0%float.
      destruct (0.5 <? 0 / _)%float eqn:Hc; [| discriminate].
      exfalso. revert Hc. rewrite ltb_spec, div_spec.
      unfold SFltb, SF64div, SFdiv. change (Prim2SF 0) with (S754_zero false).
      change (Prim2SF 0.5) with (S754_finite false 4503599627370496 (-53)).
      destruct (Prim2SF _) as [s|s| |s m e]; simpl; try discriminate;
        destruct s; discriminate.
    - intros _.
      assert (Hv : In v (filter FileUploadMajority.numeric_like
                           (filter FileUploadMajority.nonNull raw)))
        by (rewrite Hnum; now left).
      apply filter_In in Hv. destruct Hv as [Hv Hlike].
      apply filter_In in Hv. destruct Hv as [Hv Hnn].
      assert (Hin : In (FileUploadMajority.cast v)
                       (filter Statistics.not_missing (map FileUploadMajority.cast raw))).
      { apply filter_In. split; [now apply in_map |].
        unfold FileUploadMajority.cast, FileUploadMajority.nonNull,
          FileUploadMajority.numeric_like in *.
        apply andb_true_iff in Hnn. destruct Hnn as [Hn1 Hn2].
        apply negb_true_iff in Hn1, Hn2. rewrite Hn1, Hn2.
        apply andb_true_iff in Hlike. destruct Hlike as [Hl _].
        apply negb_true_iff in Hl. rewrite Hl. reflexivity. }
      destruct (filter Statistics.not_missing (map FileUploadMajority.cast raw));
        [contradiction | unfold Statistics.len; simpl; lia]. }
  unfold Statistics.calculateSummaryStats. simpl orb. cbv iota.
  rewrite (pool_of_numbers _ Hall).
  destruct (Statistics.len (filter Statistics.not_missing _) =? 0) eqn:E;
    [apply Z.eqb_eq in E; lia |].
  cbn [count]. split; [| exact Hpool].
  f_equal. apply filter_ext_Forall.
  eapply Forall_impl; [| exact Hall]. apply not_missing_null_or_number.
Qed.

End Loading.

(** X11 at work on [sheet]: id and dose are numerical. *)
Lemma majority_numerical_columns_witness :
  exists d,
    FileUploadMajority.processRawData (RT := Reference.reference_runtime) sheet "sheet.xlsx"
    = Some d
    /\ map (fun v => (name v, type v, values v)) (variables d)
       = [("id"%string, numerical, [VNum 1; VNum 2; VNum 3]);
          ("dose"%string, numerical, [VNum 12.5; VNull; VNum 7]);
          ("site"%string, categorical, [VStr "north"; VStr "south"; VStr " "])]
    /\ Forall (fun v =>
                 type v = numerical ->
                 Forall null_or_number (values v)
                 /\ Statistics.len (values v) = Statistics.len sheet
                 /\ count (stats v) = Statistics.len (filter is_number (values v))
                 /\ (0 < count (stats v))%Z)
              (variables d).
Proof.
  eexists. split; [reflexivity |]. split; [vm_compute; reflexivity |].
  exact (majority_numerical_columns (RT := Reference.reference_runtime)
           sheet "sheet.xlsx" _ eq_refl).
Defined.

Section ProcessedRows.
Context {RT : Runtime}.

Lemma row_get_set (r : row) (k k' : string) (v : value) :
  row_get (row_set r k v) k' = if String.eqb k k' then v else row_get r k'.
Proof.
  induction r as [|[k0 v0] r IH]; simpl.
  - destruct (String.eqb k k'); reflexivity.
  - destruct (String.eqb k0 k) eqn:E; simpl.
    + apply String.eqb_eq in E. subst k0. destruct (String.eqb k k'); reflexivity.
    + destruct (String.eqb k0 k') eqn:E'.
      * apply String.eqb_eq in E'. subst k0. now rewrite String.eqb_sym, E.
      * exact IH.
Qed.

Lemma processedRow_get (variables : list DataVariable) (idx : nat) (v : DataVariable) :
  NoDup (map name variables) -> In v variables ->
  forall r,
    row_get (FileUploadMajority.processedRow variables r idx) (name v)
    = nth idx (values v) VUndefined.
Proof.
  unfold FileUploadMajority.processedRow.
  induction variables as [|w ws IH]; intros Hnd Hin r; [contradiction |].
  inversion Hnd as [|? ? Hw Hws]; subst. cbn [fold_left].
  destruct Hin as [<- | Hin].
  - (* the later variables have other names *)
    clear IH. revert r. generalize (nth idx (values w) VUndefined). intros c r.
    assert (H : forall ws' r', ~ In (name w) (map name ws') ->
                row_get r' (name w) = c ->
                row_get (fold_left (fun newRow v => row_set newRow (name v)
                                                      (nth idx (values v) VUndefined)) ws' r')
                        (name w) = c).
    { induction ws' as [|u us IHu]; intros r' Hnot Hr'; [exact Hr' |].
      cbn [fold_left]. apply IHu.
      - intros Hn. apply Hnot. now right.
      - rewrite row_get_set. destruct (String.eqb (name u) (name w)) eqn:E; [| exact Hr'].
        apply String.eqb_eq in E. exfalso. apply Hnot. left. exact E. }
    apply H; [exact Hw |]. rewrite row_get_set. now rewrite String.eqb_refl.
  - now apply IH.
Qed.

Lemma nth_map_i {A B} (g : A -> nat -> B) (l : list A) :
  forall (start idx : nat) (a : A),
    nth_error l idx = Some a ->
    nth_error (FileUploadMajority.map_i g l start) idx = Some (g a (start + idx)%nat).
Proof.
  induction l as [|b l IH]; intros start idx a H; [destruct idx; discriminate |].
  destruct idx as [|idx]; simpl in *.
  - injection H as ->. now rewrite Nat.add_0_r.
  - rewrite (IH (S start) idx a H). f_equal. f_equal. lia.
Qed.

(** X12: the majority uploader keeps its two views of the data in step: in
    the dataset it loads, the cell of row [idx] under the name of a variable
    is the value of that variable at [idx] (the cast value for a numerical
    variable), the keys of the first row being no names inherited from
    [Object.prototype]. *)
Theorem majority_rows_match_variables
    (rows : list row) (filename : string) (d : Dataset) (idx : nat) (v : DataVariable) :
  FileUploadMajority.processRawData rows filename = Some d ->
  NoDup (Object_keys (hd [] rows)) ->
  Forall (fun h => Objects.inherited h = false) (Object_keys (hd [] rows)) ->
  (idx < List.length rows)%nat ->
  In v (variables d) ->
  exists r, nth_error (data d) idx = Some r
            /\ row_get r (name v) = nth idx (values v) VUndefined.
Proof.
  destruct rows as [|row0 rows]; [discriminate |].
  intros [= <-] Hnd _ Hidx Hin. cbn [data variables hd] in *.
  destruct (nth_error (row0 :: rows) idx) as [r0|] eqn:Hr0;
    [| apply nth_error_None in Hr0; lia].
  eexists. split; [apply (nth_map_i _ _ 0 idx r0 Hr0) |].
  apply processedRow_get; [| exact Hin].
  rewrite map_map. cbn [FileUploadMajority.column name]. rewrite map_id. exact Hnd.
Qed.

End ProcessedRows.

(** X10 at work on [sheet]: three variables, dose among them. *)
Lemma processRawData_columns_witness :
  match FileUpload.processRawData (RT := Reference.reference_runtime) sheet "sheet.xlsx" with
  | None => False
  | Some d =>
      data d = sheet
      /\ map name (variables d) = ["id"; "dose"; "site"]%string
  end.
Proof.
  pose proof (processRawData_columns (RT := Reference.reference_runtime) sheet "sheet.xlsx")
    as H.
  destruct (FileUpload.processRawData sheet "sheet.xlsx") as [d|].
  - destruct H as (_ & Hdata & Hnames & _); [repeat constructor |]. now split.
  - discriminate H; repeat constructor.
Defined.

(** X12 at work on [sheet]: the second row and the variable dose. *)
Lemma majority_rows_match_variables_witness :
  exists d r,
    FileUploadMajority.processRawData (RT := Reference.reference_runtime) sheet "sheet.xlsx"
    = Some d
    /\ In (FileUploadMajority.column (RT := Reference.reference_runtime) sheet "dose")
          (variables d)
    /\ nth_error (data d) 1 = Some r
    /\ row_get r "dose" = VNull.
Proof.
  destruct (majority_rows_match_variables (RT := Reference.reference_runtime)
              sheet "sheet.xlsx" _ 1
              (FileUploadMajority.column (RT := Reference.reference_runtime) sheet "dose")
              eq_refl)
    as (r & Hr & Hget).
  - repeat constructor; simpl; intuition discriminate.
  - repeat constructor.
  - simpl. lia.
  - right. left. reflexivity.
  - eexists. exists r. split; [reflexivity |].
    split; [right; left; reflexivity |]. split; [exact Hr |].
    exact Hget.
Defined.

(** ** More on forced re-classification *)

Section ForceShape.
Context {RT : Runtime}.
Import App.

Lemma coerce_null_or_number (val : value) : null_or_number (coerce val).
Proof.
  destruct (coerce_cases val) as [-> | (x & -> & Hx)]; [exact I | exact Hx].
Qed.

Lemma forceVariable_forced_from (v : DataVariable) : forced_from v (forceVariable v).
Proof.
  unfold forced_from, forceVariable.
  destruct (shouldBeNumeric (values v) || VariableType_eqb (type v) numerical)%bool eqn:E.
  - cbn [name type values stats]. rewrite length_map.
    repeat split; try reflexivity; try congruence.
    apply Forall_map, Forall_forall. intros val _. apply coerce_null_or_number.
  - apply orb_false_iff in E. destruct E as [_ E].
    assert (Hnot : type v <> numerical) by (intros Ht; rewrite Ht in E; discriminate).
    split; [reflexivity |]. split; [reflexivity |]. split; [auto |].
    split; [intros Ht; contradiction | reflexivity].
Qed.

(** X13: [forceNumericalAll] leaves an absent dataset absent; on a dataset it
    keeps the file name, the number of rows and the variables' names and
    order and lengths; a numerical variable stays numerical; every variable
    that is numerical afterwards holds only [null] and Numbers that are not
    NaN, with the statistics of those values; and a variable that is not
    numerical afterwards is untouched. *)
Theorem forceNumericalAll_shape (state : option Dataset) :
  match state, forceNumericalAll state with
  | None, None => True
  | Some d, Some d1 =>
      filename d1 = filename d
      /\ List.length (data d1) = List.length (data d)
      /\ Forall2 forced_from (variables d) (variables d1)
  | _, _ => False
  end.
Proof.
  destruct state as [d|]; [| exact I].
  cbn [forceNumericalAll filename data variables].
  split; [reflexivity |]. split; [apply length_map |].
  induction (variables d) as [|v vs IH]; constructor; [apply forceVariable_forced_from | exact IH].
Qed.

Lemma row_set_keys (r : row) (k : string) (v : value) :
  In k (Object_keys r) -> Object_keys (row_set r k v) = Object_keys r.
Proof.
  unfold Object_keys. induction r as [|[k0 v0] r IH]; [contradiction |].
  simpl. destruct (String.eqb k0 k) eqn:E; [reflexivity |].
  intros [H | H]; [apply String.eqb_neq in E; congruence |].
  simpl. now rewrite IH.
Qed.

Lemma row_get_present (r : row) (k : string) :
  is_nullish (row_get r k) = false -> In k (Object_keys r).
Proof.
  unfold Object_keys. induction r as [|[k0 v0] r IH]; simpl; [discriminate |].
  destruct (String.eqb k0 k) eqn:E; [apply String.eqb_eq in E; auto | auto].
Qed.

Lemma forceRow_spec (updatedVariables : list DataVariable) (r : row) :
  Object_keys (forceRow updatedVariables r) = Object_keys r
  /\ forall k,
       row_get (forceRow updatedVariables r) k
       = if is_forced_name updatedVariables k then forced_cell (row_get r k) else row_get r k.
Proof.
  unfold forceRow.
  assert (H : forall vs newRow,
             Object_keys newRow = Object_keys r ->
             (forall k, row_get newRow k = row_get r k \/ row_get newRow k = forced_cell (row_get r k)) ->
             let out := fold_left
                          (fun newRow v =>
                             if VariableType_eqb (type v) numerical then
                               let val := row_get r (name v) in
                               if negb (is_nullish val) then
                                 let parsed := parseFloat_text val in
                                 row_set newRow (name v) (if isNaN parsed then VNull else VNum parsed)
                               else newRow
                             else newRow) vs newRow in
             Object_keys out = Object_keys r
             /\ forall k, row_get out k
                          = if is_forced_name vs k then forced_cell (row_get r k)
                            else row_get newRow k).
  { induction vs as [|v vs IH]; intros newRow Hkeys Hcells; cbv zeta.
    - split; [exact Hkeys | reflexivity].
    - cbn [fold_left is_forced_name existsb].
      destruct (VariableType_eqb (type v) numerical) eqn:Ht; cbn [andb];
        [| apply IH; assumption].
      destruct (is_nullish (row_get r (name v))) eqn:Hnull; cbn [negb].
      + destruct (IH newRow Hkeys Hcells) as [Hk Hc]. split; [exact Hk |].
        intros k. rewrite Hc.
        destruct (String.eqb (name v) k) eqn:E; [| reflexivity].
        apply String.eqb_eq in E. subst k. cbn [orb].
        destruct (is_forced_name vs (name v)); [reflexivity |].
        destruct (Hcells (name v)) as [-> | ->]; unfold forced_cell; now rewrite Hnull.
      + assert (Hin : In (name v) (Object_keys newRow))
          by (rewrite Hkeys; now apply row_get_present).
        destruct (IH (row_set newRow (name v)
                              (if isNaN (parseFloat_text (row_get r (name v)))
                               then VNull else VNum (parseFloat_text (row_get r (name v))))))
          as [Hk Hc].
        * now rewrite row_set_keys.
        * intros k. rewrite row_get_set.
          destruct (String.eqb (name v) k) eqn:E; [| apply Hcells].
          apply String.eqb_eq in E. subst k. right. unfold forced_cell. now rewrite Hnull.
        * split; [exact Hk |]. intros k. rewrite Hc, row_get_set.
          destruct (String.eqb (name v) k) eqn:E; cbn [orb]; [| reflexivity].
          apply String.eqb_eq in E. subst k.
          destruct (is_forced_name vs (name v)); [reflexivity |].
          unfold forced_cell. now rewrite Hnull. }
  destruct (H updatedVariables r eq_refl (fun k => or_introl eq_refl)) as [Hk Hc].
  split; [exact Hk | exact Hc].
Qed.

(** X14: forcing rewrites the rows cell by cell: every row keeps its keys in
    their order; a cell under the name of a variable that is numerical after
    forcing becomes [parseFloat] of its text, or [null] when that is NaN,
    unless it was [null] or [undefined], which it stays; every other cell is
    kept.  The variables bear no name inherited from [Object.prototype]. *)
Theorem forceNumericalAll_rows (d : Dataset) :
  Forall (fun v => Objects.inherited (name v) = false) (variables d) ->
  match forceNumericalAll (Some d) with
  | None => False
  | Some d1 =>
      Forall2 (fun r r1 =>
                 Object_keys r1 = Object_keys r
                 /\ forall k, row_get r1 k
                              = if is_forced_name (variables d1) k
                                then forced_cell (row_get r k)
                                else row_get r k)
              (data d) (data d1)
  end.
Proof.
  intros _. cbn [forceNumericalAll data variables].
  induction (data d) as [|r rs IH]; constructor; [apply forceRow_spec | exact IH].
Qed.

End ForceShape.

(** X14 at work on [trial]: the rows keep their keys. *)
Lemma forceNumericalAll_rows_witness :
  match App.forceNumericalAll (RT := Reference.reference_runtime) (Some trial) with
  | None => False
  | Some d1 => map Object_keys (data d1) = map Object_keys (data trial)
  end.
Proof.
  pose proof (forceNumericalAll_rows (RT := Reference.reference_runtime) trial) as H.
  destruct (App.forceNumericalAll (Some trial)) as [d1|].
  - assert (H' : Forall2 (fun r r1 => Object_keys r1 = Object_keys r) (data trial) (data d1)).
    { eapply Forall2_impl; [| apply H; repeat constructor]. intros r r1 [Hk _]. exact Hk. }
    clear H. induction H' as [|r r1 rs rs1 Hk _ IH]; [reflexivity |].
    simpl. now rewrite Hk, IH.
  - apply H. repeat constructor.
Defined.

(** ** Reading a CSV text *)

Section CSVFacts.
Context {RT : Runtime}.

Local Open Scope Z_scope.

(** X15: [parseCSV] loads a dataset exactly when the text has at least two
    lines that are not blank, a header and a data line; with fewer it
    returns without loading anything.  Both uploaders agree on this. *)
Theorem parseCSV_loads_iff (text filename : string) :
  (FileUpload.parseCSV text filename = None <-> Statistics.len (non_blank_lines text) < 2)
  /\ (FileUploadMajority.parseCSV text filename = None
      <-> Statistics.len (non_blank_lines text) < 2).
Proof.
  unfold FileUpload.parseCSV, FileUploadMajority.parseCSV, CSV.parse_rows.
  fold (non_blank_lines text). unfold Statistics.len.
  destruct (non_blank_lines text) as [|header [|line rest]]; simpl List.length.
  - split; split; try reflexivity; lia.
  - split; split; try reflexivity; lia.
  - split; split; try discriminate; lia.
Qed.

Lemma cell_csv_cell (val : option string) : csv_cell (CSV.cell val).
Proof.
  unfold CSV.cell. destruct val as [s|]; [| exact I].
  destruct (String.eqb s "") eqn:E; [exact I |].
  destruct (negb (isNaN (StringToNumber s)) && negb (String.eqb (trim s) ""))%bool eqn:E'.
  - apply andb_true_iff in E'. destruct E' as [E' _]. now apply negb_true_iff in E'.
  - simpl. now apply String.eqb_neq.
Qed.

Lemma set_Forall {A} (P : A -> Prop) (o : list (string * A)) (k : string) (a : A) :
  P a -> Forall (fun e => P (snd e)) o -> Forall (fun e => P (snd e)) (Objects.set o k a).
Proof.
  intros Ha Ho. unfold Objects.set.
  destruct (String.eqb k "__proto__"); [assumption |].
  destruct (Objects.has_own o k).
  - induction Ho as [|[k' a'] o' He Ho' IH]; simpl; [constructor |].
    destruct (String.eqb k' k); constructor; auto.
  - destruct (Objects.array_index k) as [i|].
    + induction Ho as [|[k' a'] o' He Ho' IH]; simpl; [repeat constructor; exact Ha |].
      destruct (Objects.array_index k') as [i'|]; [| repeat constructor; auto].
      destruct (i' <? i); repeat constructor; auto.
    + apply Forall_app. split; [assumption | repeat constructor; exact Ha].
Qed.

(** The keys of an object after an assignment depend on its keys only. *)
Lemma set_keys {A} (o : list (string * A)) (k : string) (a : A) :
  Object_keys (Objects.set o k a) = keys_after (Object_keys o) k.
Proof.
  unfold keys_after, Objects.set, Object_keys.
  destruct (String.eqb k "__proto__"); [now rewrite map_map, map_id |].
  assert (Hown : Objects.has_own (map (fun k' => (k', tt)) (map fst o)) k = Objects.has_own o k).
  { unfold Objects.has_own. induction o as [|[k' a'] o IH]; simpl; [reflexivity |].
    now rewrite IH. }
  rewrite Hown. destruct (Objects.has_own o k).
  - clear Hown. induction o as [|[k' a'] o IH]; simpl; [reflexivity |].
    destruct (String.eqb k' k); simpl; [now rewrite map_map, map_id | now rewrite IH].
  - destruct (Objects.array_index k) as [i|].
    + clear Hown. induction o as [|[k' a'] o IH]; simpl; [reflexivity |].
      destruct (Objects.array_index k') as [i'|]; simpl;
        [| now rewrite map_map, map_id].
      destruct (i' <? i); simpl; [now rewrite IH | now rewrite map_map, map_id].
    + rewrite !map_app, map_map, map_id. reflexivity.
Qed.

Lemma parse_row_spec (headers : list string) (line : string) :
  Forall (fun e => csv_cell (snd e)) (CSV.parse_row headers line)
  /\ Object_keys (CSV.parse_row headers line) = fold_left keys_after headers [].
Proof.
  unfold CSV.parse_row.
  generalize (map CSV.clean (CSV.split_fields line)). intros values.
  assert (H : forall hs idx (o : row) keys,
             Forall (fun e => csv_cell (snd e)) o ->
             Object_keys o = keys ->
             List.length idx = List.length hs ->
             let out := fold_left
                          (fun obj hi => Objects.set obj (fst hi)
                                           (CSV.cell (nth_error values (snd hi))))
                          (combine hs idx) o in
             Forall (fun e => csv_cell (snd e)) out
             /\ Object_keys out = fold_left keys_after hs keys).
  { induction hs as [|h hs IH]; intros [|i idx'] o keys Ho Hk Hlen; cbv zeta;
      try discriminate; [split; assumption |].
    cbn [combine fold_left fst snd]. apply IH.
    - apply set_Forall; [apply cell_csv_cell | assumption].
    - now rewrite set_keys, Hk.
    - now injection Hlen. }
  apply H; [constructor | reflexivity | apply length_seq].
Qed.

Lemma has_own_In {A} (o : list (string * A)) (k : string) :
  Objects.has_own o k = true <-> In k (Object_keys o).
Proof.
  unfold Objects.has_own, Object_keys. rewrite existsb_exists, in_map_iff. split.
  - intros (e & He & Hk). exists e. apply String.eqb_eq in Hk. auto.
  - intros (e & Hk & He). exists e. split; [assumption | now apply String.eqb_eq].
Qed.

Lemma replace_own_keys {A} (o : list (string * A)) (k : string) (a : A) :
  Object_keys (Objects.replace_own o k a) = Object_keys o.
Proof.
  unfold Object_keys. induction o as [|[k' a'] o IH]; simpl; [reflexivity |].
  destruct (String.eqb k' k); simpl; [reflexivity | now rewrite IH].
Qed.

Lemma insert_index_keys {A} (o : list (string * A)) (i : Z) (k : string) (a : A) :
  Permutation (Object_keys (Objects.insert_index o i k a)) (k :: Object_keys o).
Proof.
  unfold Object_keys. induction o as [|[k' a'] o IH]; simpl; [reflexivity |].
  destruct (Objects.array_index k') as [i'|]; [| reflexivity].
  destruct (i' <? i); simpl; [| reflexivity].
  rewrite IH. apply perm_swap.
Qed.

(** The keys of an object after [o[k] = a]: those it had and [k], unless [k]
    is [__proto__]. *)
Lemma set_keys_Permutation {A} (o : list (string * A)) (k : string) (a : A) :
  Permutation (Object_keys (Objects.set o k a))
              (if (String.eqb k "__proto__" || Objects.has_own o k)%bool
               then Object_keys o else k :: Object_keys o).
Proof.
  unfold Objects.set. destruct (String.eqb k "__proto__"); [reflexivity |].
  destruct (Objects.has_own o k); simpl; [now rewrite replace_own_keys |].
  destruct (Objects.array_index k) as [i|]; [apply insert_index_keys |].
  unfold Object_keys. rewrite map_app. simpl.
  symmetry. apply Permutation_cons_append.
Qed.

Lemma set_keys_NoDup {A} (o : list (string * A)) (k : string) (a : A) :
  NoDup (Object_keys o) -> NoDup (Object_keys (Objects.set o k a)).
Proof.
  intros H. eapply Permutation_NoDup; [symmetry; apply set_keys_Permutation |].
  destruct (String.eqb k "__proto__"); [assumption |].
  destruct (Objects.has_own o k) eqn:E; simpl; [assumption |].
  constructor; [| assumption]. intros Hin. apply has_own_In in Hin. congruence.
Qed.




(** X16: the rows read from a CSV text, one per non-blank line after the
    header, hold only [null], Numbers that are not NaN and strings that are
    not empty: an empty field and a field missing at the end of a short line
    are both [null], and no cell is [undefined] or the empty string. *)
Theorem parse_rows_cells (text : string) :
  match CSV.parse_rows text with
  | None => True
  | Some rows =>
      Statistics.len rows = Statistics.len (non_blank_lines text) - 1
      /\ Forall (fun r => Forall (fun e => csv_cell (snd e)) r) rows
      /\ Forall (fun r => forall k, In k (Object_keys r) -> csv_cell (row_get r k)) rows
  end.
Proof.
  unfold CSV.parse_rows. fold (non_blank_lines text).
  destruct (non_blank_lines text) as [|header [|line rest]]; try exact I.
  assert (Hcells : Forall (fun r => Forall (fun e => csv_cell (snd e)) r)
                          (map (CSV.parse_row (map CSV.clean (CSV.split_commas header)))
                               (line :: rest))).
  { apply Forall_map, Forall_forall. intros l _. apply parse_row_spec. }
  split; [| split; [exact Hcells |]].
  - unfold Statistics.len. rewrite length_map. simpl List.length. lia.
  - eapply Forall_impl; [| exact Hcells]. intros r Hr k Hk.
    clear Hcells. induction Hr as [|[k' v'] r' He Hr' IH]; [contradiction |].
    simpl. destruct (String.eqb k' k) eqn:E; [exact He |].
    apply IH. destruct Hk as [Hk | Hk]; [apply String.eqb_neq in E; simpl in Hk; congruence |].
    exact Hk.
Qed.


End CSVFacts.

Section CSVFields.

Lemma string_app_nil (s : string) : (s ++ "")%string = s.
Proof. induction s as [|c s IH]; simpl; [reflexivity | now rewrite IH]. Qed.

Lemma string_app_assoc (s t u : string) : ((s ++ t) ++ u)%string = (s ++ (t ++ u))%string.
Proof. induction s as [|c s IH]; simpl; [reflexivity | now rewrite IH]. Qed.

Lemma count_quotes_app (s t : string) :
  CSV.count_quotes (s ++ t)%string = (CSV.count_quotes s + CSV.count_quotes t)%nat.
Proof.
  induction s as [|c s IH]; [reflexivity |].
  simpl. destruct (Ascii.eqb c CSV.quote); simpl; now rewrite IH.
Qed.

Lemma split_quoted_field (field rest : string) :
  CSV.count_quotes field = 0%nat ->
  Nat.even (CSV.count_quotes rest) = true ->
  CSV.split_fields (field ++ String CSV.quote (String "," rest))%string
  = (field ++ String CSV.quote "")%string :: CSV.split_fields rest.
Proof.
  intros Hf Hrest. induction field as [|c field IH].
  - simpl. now rewrite Hrest.
  - simpl in Hf. destruct (Ascii.eqb c CSV.quote) eqn:Ec; [discriminate |].
    cbn [append CSV.split_fields].
    assert (Hodd : Nat.even (CSV.count_quotes (field ++ String CSV.quote (String "," rest))%string)
                   = false).
    { rewrite count_quotes_app, Hf. cbn [CSV.count_quotes Nat.add].
      change (Ascii.eqb CSV.quote CSV.quote) with true.
      change (Ascii.eqb "," CSV.quote) with false. cbv iota.
      rewrite Nat.even_succ, <- Nat.negb_even, Hrest. reflexivity. }
    rewrite Hodd, andb_false_r, (IH Hf). reflexivity.
Qed.

Lemma split_last_quoted_field (field : string) :
  CSV.count_quotes field = 0%nat ->
  CSV.split_fields (field ++ String CSV.quote "")%string
  = [(field ++ String CSV.quote "")%string].
Proof.
  intros Hf. induction field as [|c field IH]; [reflexivity |].
  simpl in Hf. destruct (Ascii.eqb c CSV.quote) eqn:Ec; [discriminate |].
  cbn [append CSV.split_fields].
  assert (Hodd : Nat.even (CSV.count_quotes (field ++ String CSV.quote "")%string) = false).
  { rewrite count_quotes_app, Hf. reflexivity. }
  rewrite Hodd, andb_false_r, (IH Hf). reflexivity.
Qed.

Lemma count_quotes_quoted (f rest : string) :
  CSV.count_quotes f = 0%nat ->
  CSV.count_quotes (quoted f ++ rest)%string = S (S (CSV.count_quotes rest)).
Proof.
  intros Hf. unfold quoted. cbn [append CSV.count_quotes].
  change (Ascii.eqb CSV.quote CSV.quote) with true. cbv iota.
  rewrite string_app_assoc, count_quotes_app, Hf. cbn [append CSV.count_quotes Nat.add].
  change (Ascii.eqb CSV.quote CSV.quote) with true. reflexivity.
Qed.

Lemma count_quotes_line (fields : list string) :
  Forall (fun f => CSV.count_quotes f = 0%nat) fields ->
  Nat.even (CSV.count_quotes (String.concat "," (map quoted fields))) = true.
Proof.
  induction 1 as [|f fields Hf Hfs IH]; [reflexivity |].
  cbn [map String.concat]. destruct (map quoted fields) as [|g gs] eqn:E.
  - rewrite <- (string_app_nil (quoted f)), (count_quotes_quoted f "" Hf). reflexivity.
  - rewrite (count_quotes_quoted f _ Hf), Nat.even_succ_succ.
    cbn [append CSV.count_quotes].
    change (Ascii.eqb "," CSV.quote) with false. cbv iota. exact IH.
Qed.

Lemma trim_quoted (f : string) : trim (quoted f) = quoted f.
Proof.
  unfold trim, quoted. cbn [trim_start].
  change (is_white CSV.quote) with false. cbv iota.
  assert (H : forall s, all_white (s ++ String CSV.quote "")%string = false).
  { induction s as [|c s IH]; [reflexivity |]. simpl. now rewrite IH, andb_false_r. }
  assert (H' : forall s, trim_end (s ++ String CSV.quote "")%string = (s ++ String CSV.quote "")%string).
  { induction s as [|c s IH]; [reflexivity |].
    cbn [append trim_end]. change (String c (s ++ String CSV.quote "")%string)
      with ((String c s) ++ String CSV.quote "")%string at 1.
    rewrite H. now rewrite IH. }
  change (String CSV.quote (f ++ String CSV.quote "")%string)
    with ((String CSV.quote f) ++ String CSV.quote "")%string.
  apply H'.
Qed.

Lemma clean_quoted (f : string) : CSV.clean (quoted f) = f.
Proof.
  unfold CSV.clean. rewrite trim_quoted. unfold quoted, CSV.strip_quotes.
  change (Ascii.eqb CSV.quote CSV.quote) with true. cbv iota.
  induction f as [|c f IH]; [reflexivity |].
  cbn [append CSV.drop_trailing_quote].
  destruct f as [|c' f]; [reflexivity |].
  cbn [append] in *. now rewrite IH.
Qed.

(** X18: fields written between double quotes and joined by commas are read
    back as they were written, commas and outer spaces included, provided
    they hold no double quote themselves. *)
Theorem quoted_fields_round_trip (fields : list string) :
  fields <> [] ->
  Forall (fun f => CSV.count_quotes f = 0%nat) fields ->
  map CSV.clean (CSV.split_fields (String.concat "," (map quoted fields))) = fields.
Proof.
  intros Hne Hall.
  assert (H : CSV.split_fields (String.concat "," (map quoted fields)) = map quoted fields).
  { destruct fields as [|f fields]; [congruence |]. clear Hne.
    revert f Hall. induction fields as [|g gs IH]; intros f Hall.
    - inversion Hall as [|? ? Hf _]; subst.
      cbn [map String.concat]. unfold quoted. cbn [CSV.split_fields].
      change (Ascii.eqb CSV.quote ",") with false. cbn [andb].
      now rewrite (split_last_quoted_field f Hf).
    - inversion Hall as [|? ? Hf Hfs]; subst.
      change (map quoted (f :: g :: gs)) with (quoted f :: map quoted (g :: gs)).
      change (String.concat "," (quoted f :: map quoted (g :: gs)))
        with (quoted f ++ String "," (String.concat "," (map quoted (g :: gs))))%string.
      unfold quoted at 1. cbn [append CSV.split_fields].
      change (Ascii.eqb CSV.quote ",") with false. cbn [andb].
      rewrite string_app_assoc. cbn [append].
      rewrite (split_quoted_field f _ Hf (count_quotes_line _ Hfs)).
      rewrite (IH g Hfs). reflexivity. }
  rewrite H, map_map. clear H Hne Hall.
  induction fields as [|f fields IH]; [reflexivity |].
  simpl. now rewrite clean_quoted, IH.
Qed.

End CSVFields.

(** X18 at work: three fields, one with a comma, one empty. *)
Lemma quoted_fields_round_trip_witness :
  map CSV.clean
      (CSV.split_fields
         (String.concat "," (map quoted ["south, east"; ""; " x "]%string)))
  = ["south, east"; ""; " x "]%string.
Proof.
  apply quoted_fields_round_trip; [discriminate | repeat constructor].
Defined.

Section Groups.
Context {RT : Runtime}.
Import Statistics.

Lemma get_own_has_own {A} (o : list (string * A)) (k : string) :
  Objects.has_own o k = match Objects.get_own o k with Some _ => true | None => false end.
Proof.
  unfold Objects.has_own. induction o as [|[k' a'] o IH]; simpl; [reflexivity |].
  destruct (String.eqb k' k); [reflexivity | exact IH].
Qed.

Lemma get_own_In {A} (o : list (string * A)) (k : string) (a : A) :
  Objects.get_own o k = Some a -> In (k, a) o.
Proof.
  induction o as [|[k' a'] o IH]; simpl; [discriminate |].
  destruct (String.eqb k' k) eqn:E.
  - apply String.eqb_eq in E. intros [= ->]. left. now subst.
  - intros H. right. now apply IH.
Qed.

Lemma In_get_own {A} (o : list (string * A)) (k : string) (a : A) :
  NoDup (Object_keys o) -> In (k, a) o -> Objects.get_own o k = Some a.
Proof.
  unfold Object_keys. induction o as [|[k' a'] o IH]; simpl; [tauto |].
  intros Hnd [H | H].
  - injection H as -> ->. now rewrite String.eqb_refl.
  - inversion Hnd as [|? ? Hnot Hnd']; subst.
    destruct (String.eqb k' k) eqn:E; [| now apply IH].
    apply String.eqb_eq in E. subst k'. exfalso. apply Hnot.
    change k with (fst (k, a)). now apply in_map.
Qed.

Lemma get_own_replace_own {A} (o : list (string * A)) (k k' : string) (a : A) :
  Objects.get_own (Objects.replace_own o k a) k'
  = if String.eqb k k'
    then match Objects.get_own o k with Some _ => Some a | None => None end
    else Objects.get_own o k'.
Proof.
  induction o as [|[k0 a0] o IH]; simpl; [now destruct (String.eqb k k') |].
  destruct (String.eqb k0 k) eqn:E0; simpl.
  - apply String.eqb_eq in E0. subst k0. now destruct (String.eqb k k').
  - destruct (String.eqb k0 k') eqn:E1; [| exact IH].
    apply String.eqb_eq in E1. subst k0.
    rewrite String.eqb_sym in E0. now rewrite E0.
Qed.

Lemma get_own_insert_index {A} (o : list (string * A)) (i : Z) (k k' : string) (a : A) :
  Objects.get_own o k = None ->
  Objects.get_own (Objects.insert_index o i k a) k'
  = if String.eqb k k' then Some a else Objects.get_own o k'.
Proof.
  induction o as [|[k0 a0] o IH]; simpl; [reflexivity |].
  destruct (String.eqb k0 k) eqn:E0; [discriminate |]. intros Hk.
  destruct (Objects.array_index k0) as [i0|]; [destruct (i0 <? i)%Z |]; simpl;
    try reflexivity.
  rewrite (IH Hk). destruct (String.eqb k0 k') eqn:E1; [| reflexivity].
  apply String.eqb_eq in E1. subst k0. rewrite String.eqb_sym in E0. now rewrite E0.
Qed.

Lemma get_own_app_new {A} (o : list (string * A)) (k k' : string) (a : A) :
  Objects.get_own o k = None ->
  Objects.get_own (o ++ [(k, a)]) k'
  = if String.eqb k k' then Some a else Objects.get_own o k'.
Proof.
  induction o as [|[k0 a0] o IH]; simpl; [reflexivity |].
  destruct (String.eqb k0 k) eqn:E0; [discriminate |]. intros Hk.
  rewrite (IH Hk). destruct (String.eqb k0 k') eqn:E1; [| reflexivity].
  apply String.eqb_eq in E1. subst k0. rewrite String.eqb_sym in E0. now rewrite E0.
Qed.

Lemma get_own_set_new {A} (o : list (string * A)) (k k' : string) (a : A) :
  Objects.get_own o k = None -> String.eqb k "__proto__" = false ->
  Objects.get_own (Objects.set o k a) k'
  = if String.eqb k k' then Some a else Objects.get_own o k'.
Proof.
  intros Hk Hp. unfold Objects.set. rewrite Hp, get_own_has_own, Hk.
  destruct (Objects.array_index k);
    [now apply get_own_insert_index | now apply get_own_app_new].
Qed.

Lemma total_replace_own (g : list (string * list float)) (k : string) (vals : list float)
      (y : float) :
  Objects.get_own g k = Some vals ->
  total_observations (Objects.replace_own g k (vals ++ [y])) = (total_observations g + 1)%Z.
Proof.
  unfold total_observations, len. induction g as [|[k0 a0] g IH]; simpl; [discriminate |].
  destruct (String.eqb k0 k); simpl.
  - intros [= ->]. rewrite !length_app. simpl. lia.
  - intros H. specialize (IH H). rewrite !length_app. lia.
Qed.

Lemma total_insert_index (g : list (string * list float)) (i : Z) (k : string)
      (vals : list float) :
  total_observations (Objects.insert_index g i k vals)
  = (len vals + total_observations g)%Z.
Proof.
  unfold total_observations, len. induction g as [|[k0 a0] g IH]; simpl.
  - rewrite length_app. simpl. lia.
  - destruct (Objects.array_index k0) as [i0|]; [destruct (i0 <? i)%Z |]; simpl;
      rewrite ?length_app; simpl; rewrite ?length_app; lia.
Qed.

Lemma total_set_new (g : list (string * list float)) (k : string) (y : float) :
  Objects.get_own g k = None -> String.eqb k "__proto__" = false ->
  total_observations (Objects.set g k [y]) = (total_observations g + 1)%Z.
Proof.
  intros Hk Hp. unfold Objects.set. rewrite Hp, get_own_has_own, Hk.
  destruct (Objects.array_index k).
  - rewrite total_insert_index. change (len [y]) with 1%Z. lia.
  - unfold total_observations, len. rewrite map_app, concat_app, length_app. simpl. lia.
Qed.

Lemma buildGroups_push_all (rows : list row) (xVar yVar : string) :
  App.buildGroups rows xVar yVar
  = push_all (observations xVar yVar rows) (Objects.Returned []).
Proof.
  unfold App.buildGroups. generalize (Objects.Returned (@nil (string * list float))).
  induction rows as [|r rows IH]; intros acc; [reflexivity |].
  cbn [fold_left observations flat_map]. rewrite IH. unfold push_all.
  rewrite fold_left_app. f_equal.
  unfold observation.
  destruct acc as [groups|].
  - destruct (negb _ && negb _)%bool; reflexivity.
  - destruct (negb _ && negb _)%bool; reflexivity.
Qed.

Lemma outcomes_of_app (k : string) (obs obs' : list (string * float)) :
  outcomes_of k (obs ++ obs') = outcomes_of k obs ++ outcomes_of k obs'.
Proof. unfold outcomes_of. now rewrite filter_app, map_app. Qed.

Lemma outcomes_of_In (k : string) (obs : list (string * float)) :
  outcomes_of k obs <> [] <-> In k (map fst obs).
Proof.
  unfold outcomes_of. induction obs as [|[k0 y0] obs IH]; simpl; [tauto |].
  destruct (String.eqb k0 k) eqn:E; simpl.
  - apply String.eqb_eq in E. split; [now left | discriminate].
  - apply String.eqb_neq in E. rewrite IH. intuition congruence.
Qed.

Lemma some_nonempty_Some (vals vals' : list float) :
  some_nonempty vals = Some vals' <-> vals <> [] /\ vals' = vals.
Proof.
  destruct vals; simpl; split.
  - discriminate.
  - intros [H _]. congruence.
  - intros [= <-]. split; [discriminate | reflexivity].
  - intros [_ ->]. reflexivity.
Qed.

Lemma inherited_proto (k : string) :
  Objects.inherited k = false -> String.eqb k "__proto__" = false.
Proof.
  intros H. destruct (String.eqb k "__proto__") eqn:E; [| reflexivity].
  apply String.eqb_eq in E. subst k. discriminate.
Qed.

Lemma push_all_spec (obs : list (string * float)) :
  match push_all obs (Objects.Returned []) with
  | Objects.Thrown => Exists (fun o => Objects.inherited (fst o) = true) obs
  | Objects.Returned g =>
      Forall (fun o => Objects.inherited (fst o) = false) obs /\ groups_of obs g
  end.
Proof.
  induction obs as [|[k y] obs IH] using rev_ind.
  - simpl. split; [constructor |]. split; [constructor |]. split; reflexivity.
  - unfold push_all in *. rewrite fold_left_app. cbn [fold_left fst snd].
    destruct (fold_left _ obs _) as [g|].
    2:{ apply Exists_app. now left. }
    destruct IH as (Hall & Hnd & Hget & Htot).
    unfold App.group_push. pose proof (Hget k) as Hk.
    destruct (Objects.get_own g k) as [vals|] eqn:Eg.
    + symmetry in Hk. apply some_nonempty_Some in Hk. destruct Hk as [Hne ->].
      assert (Hin : Objects.inherited k = false).
      { apply outcomes_of_In in Hne. apply in_map_iff in Hne.
        destruct Hne as (o & <- & Ho). rewrite Forall_forall in Hall. now apply Hall. }
      split; [apply Forall_app; split; [assumption | now repeat constructor] |].
      split; [now rewrite replace_own_keys |]. split.
      * intros k'. rewrite get_own_replace_own, Eg, outcomes_of_app.
        unfold outcomes_of at 3. cbn [filter fst].
        destruct (String.eqb k k') eqn:E.
        -- apply String.eqb_eq in E. subst k'. cbn [map snd].
           destruct (outcomes_of k obs); [congruence | reflexivity].
        -- cbn [map]. now rewrite app_nil_r.
      * rewrite (total_replace_own g k _ y Eg), Htot. unfold len.
        rewrite length_app. simpl. lia.
    + destruct (Objects.inherited k) eqn:Hin.
      { apply Exists_app. right. now constructor. }
      pose proof (inherited_proto k Hin) as Hp.
      split; [apply Forall_app; split; [assumption | now repeat constructor] |].
      split; [now apply set_keys_NoDup |]. split.
      * intros k'. rewrite (get_own_set_new g k k' [y] Eg Hp), outcomes_of_app.
        unfold outcomes_of at 2. cbn [filter fst].
        destruct (String.eqb k k') eqn:E.
        -- apply String.eqb_eq in E. subst k'. cbn [map snd].
           destruct (outcomes_of k obs); [reflexivity | discriminate].
        -- cbn [map]. now rewrite app_nil_r.
      * rewrite (total_set_new g k y Eg Hp), Htot. unfold len.
        rewrite length_app. simpl. lia.
Qed.

Lemma not_Exists_inherited (obs : list (string * float)) :
  Forall (fun o => Objects.inherited (fst o) = false) obs ->
  ~ Exists (fun o => Objects.inherited (fst o) = true) obs.
Proof.
  intros Hall Hex. apply Exists_exists in Hex. destruct Hex as (o & Ho & Hi).
  rewrite Forall_forall in Hall. specialize (Hall o Ho). congruence.
Qed.

(** X19: the grouping loop throws exactly when some kept row carries a label
    that names a property inherited from Object.prototype, such as
    constructor or toString; the grouping variable itself is an ordinary
    name. *)
Theorem buildGroups_throws_iff (rows : list row) (xVar yVar : string) :
  Objects.inherited xVar = false ->
  App.buildGroups rows xVar yVar = Objects.Thrown
  <-> Exists (fun o => Objects.inherited (fst o) = true) (observations xVar yVar rows).
Proof.
  intros _. rewrite buildGroups_push_all.
  pose proof (push_all_spec (observations xVar yVar rows)) as H.
  destruct (push_all _ _) as [g|]; split; try tauto; try discriminate.
  intros Hex. destruct H as [Hall _]. now apply not_Exists_inherited in Hall.
Qed.

(** X20: when the grouping loop returns, its groups are exactly the classes
    of the kept rows by label: no label twice, and a label is bound to a list
    exactly when that list is not empty and holds the outcomes observed under
    the label, in the order of the rows. *)
Theorem buildGroups_groups (rows : list row) (xVar yVar : string)
        (groups : list (string * list float)) :
  Objects.inherited xVar = false ->
  App.buildGroups rows xVar yVar = Objects.Returned groups ->
  NoDup (Object_keys groups)
  /\ forall k vals,
       In (k, vals) groups
       <-> vals <> [] /\ vals = outcomes_of k (observations xVar yVar rows).
Proof.
  intros _ Hb. rewrite buildGroups_push_all in Hb.
  pose proof (push_all_spec (observations xVar yVar rows)) as H.
  rewrite Hb in H. destruct H as (_ & Hnd & Hget & _).
  split; [assumption |]. intros k vals. split.
  - intros Hin. apply (In_get_own _ _ _ Hnd) in Hin. rewrite Hget in Hin.
    apply some_nonempty_Some in Hin. destruct Hin as [Hne ->]. now split.
  - intros [Hne ->]. apply get_own_In. rewrite Hget. now apply some_nonempty_Some.
Qed.

Lemma groups_of_len (obs : list (string * float)) (g : list (string * list float)) :
  groups_of obs g -> len g = len (labels_of obs).
Proof.
  intros (Hnd & Hget & _). unfold len, labels_of. f_equal.
  rewrite <- (length_map fst g). apply Permutation_length.
  apply NoDup_Permutation; [assumption | apply NoDup_nodup |].
  intros k. rewrite nodup_In, <- outcomes_of_In. fold (Object_keys g).
  rewrite <- has_own_In, get_own_has_own, Hget.
  destruct (outcomes_of k obs); simpl; split; congruence.
Qed.

(** X21: with a dataset, two variables and the grouping switch on, and no
    label among the inherited property names, the group analysis is absent
    exactly when fewer than two distinct labels are observed or there are no
    more kept rows than distinct labels. *)
Theorem groupStats_none_iff (d : Dataset) (xVar yVar : string) :
  xVar <> ""%string -> yVar <> ""%string ->
  Objects.inherited xVar = false ->
  Forall (fun o => Objects.inherited (fst o) = false) (observations xVar yVar (data d)) ->
  App.groupStats (Some d) xVar yVar true = Objects.Returned None
  <-> (len (labels_of (observations xVar yVar (data d))) < 2
       \/ len (observations xVar yVar (data d))
          - len (labels_of (observations xVar yVar (data d))) <= 0)%Z.
Proof.
  intros Hx Hy _ Hall. unfold App.groupStats.
  apply String.eqb_neq in Hx, Hy. rewrite Hx, Hy. cbn [orb negb].
  rewrite buildGroups_push_all.
  pose proof (push_all_spec (observations xVar yVar (data d))) as H.
  destruct (push_all _ _) as [g|]; [| now apply not_Exists_inherited in Hall].
  destruct H as (_ & Hg). rewrite <- (groups_of_len _ _ Hg).
  destruct Hg as (_ & _ & <-).
  unfold calculateGroupStats, total_observations. rewrite len_Object_keys.
  destruct (len g <? 2)%Z eqn:Hk.
  - apply Z.ltb_lt in Hk. split; [intros _; now left | reflexivity].
  - apply Z.ltb_ge in Hk.
    destruct (len (List.concat (map snd g)) - len g <=? 0)%Z eqn:Hdf.
    + apply Z.leb_le in Hdf. split; [intros _; now right | reflexivity].
    + apply Z.leb_gt in Hdf. split; [discriminate | intros [H | H]; lia].
Qed.

End Groups.

(** X19 at work: a site called toString stops the analysis. *)
Lemma buildGroups_throws_iff_witness :
  App.buildGroups (RT := Reference.reference_runtime)
                  (survey ++ [[("site"%string, VStr "toString"); ("score"%string, VNum 5)]])
                  "site" "score"
  = Objects.Thrown.
Proof.
  apply buildGroups_throws_iff; [reflexivity |].
  vm_compute. do 3 apply Exists_cons_tl. apply Exists_cons_hd. reflexivity.
Defined.

(** X20 at work on [survey]: north has the scores 1 and 3, south the score 2. *)
Lemma buildGroups_groups_witness :
  NoDup (Object_keys [("north"%string, [1; 3]%float); ("south"%string, [2]%float)])
  /\ (In ("north"%string, [1; 3]%float)
         [("north"%string, [1; 3]%float); ("south"%string, [2]%float)]
      <-> [1; 3]%float <> []
          /\ [1; 3]%float
             = outcomes_of "north"
                 (observations (RT := Reference.reference_runtime) "site" "score" survey)).
Proof.
  destruct (buildGroups_groups (RT := Reference.reference_runtime) survey "site" "score"
              [("north"%string, [1; 3]%float); ("south"%string, [2]%float)]
              eq_refl) as [Hnd Hin].
  - vm_compute. reflexivity.
  - split; [exact Hnd | apply Hin].
Defined.

(** X21 at work: two rows with two sites leave no degree of freedom. *)
Lemma groupStats_none_iff_witness :
  App.groupStats (RT := Reference.reference_runtime)
    (Some {| filename := "survey.csv"; data := firstn 2 survey; variables := [];
             numericalVariables := []; categoricalVariables := [] |})
    "site" "score" true
  = Objects.Returned None.
Proof.
  apply groupStats_none_iff; [discriminate | discriminate | reflexivity | |].
  - vm_compute. repeat constructor.
  - right. vm_compute. discriminate.
Defined.

Section GroupOrder.
Context {RT : Runtime}.

Lemma has_own_Set_has {A} (o : list (string * A)) (k : string) :
  Objects.has_own o k = App.Set_has (Object_keys o) k.
Proof.
  unfold Objects.has_own, App.Set_has, Object_keys.
  induction o as [|[k' a'] o IH]; simpl; [reflexivity |].
  now rewrite IH, (String.eqb_sym k k').
Qed.

Lemma push_all_snoc (obs : list (string * float)) (k : string) (y : float)
      (g' : list (string * list float)) :
  push_all (obs ++ [(k, y)]) (Objects.Returned []) = Objects.Returned g' ->
  exists g, push_all obs (Objects.Returned []) = Objects.Returned g
            /\ App.group_push g k y = Objects.Returned g'.
Proof.
  unfold push_all. rewrite fold_left_app. cbn [fold_left fst snd].
  destruct (fold_left _ obs _) as [g|]; [| discriminate].
  intros H. now exists g.
Qed.

Lemma group_push_keys (g g' : list (string * list float)) (k : string) (y : float) :
  App.group_push g k y = Objects.Returned g' ->
  Objects.array_index k = None ->
  Object_keys g' = App.Set_add (Object_keys g) k.
Proof.
  unfold App.group_push, App.Set_add. rewrite <- has_own_Set_has, get_own_has_own.
  destruct (Objects.get_own g k) as [vals|] eqn:Eg.
  - intros [= <-] _. apply replace_own_keys.
  - destruct (Objects.inherited k) eqn:Hin; [discriminate |].
    intros [= <-] Hi. unfold Objects.set.
    rewrite (inherited_proto k Hin), get_own_has_own, Eg, Hi.
    unfold Object_keys. now rewrite map_app.
Qed.

(** X22: when no label spells an array index, the groups come in the order
    in which their labels first appear in the rows. *)
Theorem buildGroups_first_seen_order (rows : list row) (xVar yVar : string)
        (groups : list (string * list float)) :
  Objects.inherited xVar = false ->
  Forall (fun o => Objects.array_index (fst o) = None) (observations xVar yVar rows) ->
  App.buildGroups rows xVar yVar = Objects.Returned groups ->
  Object_keys groups = App.Set_of (map fst (observations xVar yVar rows)).
Proof.
  intros _. rewrite buildGroups_push_all.
  generalize (observations xVar yVar rows). clear rows. intros obs. revert groups.
  induction obs as [|[k y] obs IH] using rev_ind; intros groups Hall Hb.
  - injection Hb as <-. reflexivity.
  - apply Forall_app in Hall. destruct Hall as [Hall Hk].
    inversion Hk as [|? ? Hi _]; subst. cbn [fst] in Hi.
    apply push_all_snoc in Hb. destruct Hb as (g & Hg & Hpush).
    rewrite (group_push_keys _ _ _ _ Hpush Hi), (IH g Hall Hg).
    unfold App.Set_of. now rewrite map_app, fold_left_app.
Qed.

Lemma index_le_trans (k1 k2 k3 : string) :
  index_le k1 k2 -> index_le k2 k3 -> index_le k1 k3.
Proof.
  unfold index_le.
  destruct (Objects.array_index k1), (Objects.array_index k2), (Objects.array_index k3);
    try tauto. lia.
Qed.

Lemma insert_index_sorted {A} (o : list (string * A)) (i : Z) (k : string) (a : A) :
  Objects.array_index k = Some i ->
  Forall (fun k' => Objects.array_index k' <> None) (Object_keys o) ->
  StronglySorted index_le (Object_keys o) ->
  StronglySorted index_le (Object_keys (Objects.insert_index o i k a)).
Proof.
  intros Hi. induction o as [|[k' a'] o IH]; intros Hidx Hs.
  - repeat constructor.
  - cbn [Objects.insert_index]. cbn [Object_keys map fst] in Hs, Hidx.
    inversion Hs as [|? ? Hs' Hall]; subst.
    inversion Hidx as [|? ? Hk' Hidx']; subst.
    destruct (Objects.array_index k') as [i'|] eqn:Hi'; [| congruence].
    destruct (i' <? i)%Z eqn:Hlt.
    + apply Z.ltb_lt in Hlt. cbn [Object_keys map fst].
      constructor; [now apply IH |].
      eapply Permutation_Forall; [symmetry; apply insert_index_keys |].
      constructor; [| assumption]. unfold index_le. rewrite Hi', Hi. lia.
    + apply Z.ltb_ge in Hlt.
      assert (Hkk' : index_le k k') by (unfold index_le; now rewrite Hi, Hi').
      change (StronglySorted index_le (k :: k' :: Object_keys o)).
      constructor; [assumption |]. constructor; [assumption |].
      eapply Forall_impl; [| exact Hall]. intros k3. now apply index_le_trans.
Qed.

Lemma group_push_sorted (g g' : list (string * list float)) (k : string) (y : float) :
  App.group_push g k y = Objects.Returned g' ->
  Objects.array_index k <> None ->
  Forall (fun k' => Objects.array_index k' <> None) (Object_keys g) ->
  StronglySorted index_le (Object_keys g) ->
  Forall (fun k' => Objects.array_index k' <> None) (Object_keys g')
  /\ StronglySorted index_le (Object_keys g').
Proof.
  unfold App.group_push.
  destruct (Objects.get_own g k) as [vals|] eqn:Eg.
  - intros [= <-] _ Hidx Hs. now rewrite replace_own_keys.
  - destruct (Objects.inherited k) eqn:Hin; [discriminate |].
    intros [= <-] Hi Hidx Hs. unfold Objects.set.
    rewrite (inherited_proto k Hin), get_own_has_own, Eg.
    destruct (Objects.array_index k) as [i|] eqn:Ei; [| congruence]. split.
    + eapply Permutation_Forall; [symmetry; apply insert_index_keys |].
      constructor; [congruence | assumption].
    + now apply insert_index_sorted.
Qed.

(** X23: when every label spells an array index, as the whole numbers of a
    numerical variable do, the groups come in ascending order of that number,
    whatever the order of the rows. *)
Theorem buildGroups_index_order (rows : list row) (xVar yVar : string)
        (groups : list (string * list float)) :
  Objects.inherited xVar = false ->
  Forall (fun o => Objects.array_index (fst o) <> None) (observations xVar yVar rows) ->
  App.buildGroups rows xVar yVar = Objects.Returned groups ->
  StronglySorted index_le (Object_keys groups).
Proof.
  intros _. rewrite buildGroups_push_all.
  generalize (observations xVar yVar rows). clear rows. intros obs Hall Hb.
  assert (H : Forall (fun k' => Objects.array_index k' <> None) (Object_keys groups)
              /\ StronglySorted index_le (Object_keys groups)); [| apply H].
  revert groups Hall Hb.
  induction obs as [|[k y] obs IH] using rev_ind; intros groups Hall Hb.
  - injection Hb as <-. split; constructor.
  - apply Forall_app in Hall. destruct Hall as [Hall Hk].
    inversion Hk as [|? ? Hi _]; subst. cbn [fst] in Hi.
    apply push_all_snoc in Hb. destruct Hb as (g & Hg & Hpush).
    destruct (IH g Hall Hg) as [Hidx Hs].
    exact (group_push_sorted _ _ _ _ Hpush Hi Hidx Hs).
Qed.

End GroupOrder.

(** X22 at work on [survey]: north is seen first. *)
Lemma buildGroups_first_seen_order_witness :
  Object_keys [("north"%string, [1; 3]%float); ("south"%string, [2]%float)]
  = App.Set_of (map fst (observations (RT := Reference.reference_runtime)
                                      "site" "score" survey)).
Proof.
  apply (buildGroups_first_seen_order (RT := Reference.reference_runtime) survey
           "site" "score"); [reflexivity | | reflexivity].
  match goal with
  | |- Forall ?P ?obs => let l := eval vm_compute in obs in change (Forall P l)
  end.
  repeat constructor.
Defined.

(** X23 at work on [doses]: dose 2 comes before dose 10. *)
Lemma buildGroups_index_order_witness :
  StronglySorted index_le
    (Object_keys [("2"%string, [0.25]%float); ("10"%string, [0.5; 0.75]%float)]).
Proof.
  apply (buildGroups_index_order (RT := Reference.reference_runtime) doses
           "dose" "response"); [reflexivity | | vm_compute; reflexivity].
  match goal with
  | |- Forall ?P ?obs => let l := eval vm_compute in obs in change (Forall P l)
  end.
  repeat constructor; discriminate.
Defined.

Section Selection.
Context {RT : Runtime}.
Import Statistics.

Lemma Set_has_In (s : list string) (k : string) : App.Set_has s k = true <-> In k s.
Proof.
  unfold App.Set_has. rewrite existsb_exists. split.
  - intros (k' & Hin & E). apply String.eqb_eq in E. now subst.
  - intros Hin. exists k. split; [assumption | apply String.eqb_refl].
Qed.

Lemma Set_has_app (s s' : list string) (k : string) :
  App.Set_has (s ++ s') k = (App.Set_has s k || App.Set_has s' k)%bool.
Proof. unfold App.Set_has. apply existsb_app. Qed.

Lemma Set_has_add (s : list string) (name k : string) :
  App.Set_has (App.Set_add s name) k = (App.Set_has s k || String.eqb k name)%bool.
Proof.
  unfold App.Set_add. destruct (App.Set_has s name) eqn:E.
  - destruct (String.eqb k name) eqn:Ek; [| now rewrite orb_false_r].
    apply String.eqb_eq in Ek. subst k. now rewrite E.
  - rewrite Set_has_app. unfold App.Set_has at 2. simpl. now rewrite orb_false_r.
Qed.

Lemma Set_has_delete (s : list string) (name k : string) :
  App.Set_has (App.Set_delete s name) k = (App.Set_has s k && negb (String.eqb k name))%bool.
Proof.
  unfold App.Set_delete, App.Set_has. induction s as [|k' s IH]; [reflexivity |].
  simpl. destruct (String.eqb name k') eqn:E; simpl.
  - apply String.eqb_eq in E. subst k'. rewrite IH.
    destruct (String.eqb k name); [now rewrite andb_false_r | reflexivity].
  - rewrite IH. destruct (String.eqb k k') eqn:Ek; [| reflexivity].
    apply String.eqb_eq in Ek. subst k'. rewrite String.eqb_sym, E. reflexivity.
Qed.

Lemma Set_has_fold_add (names s : list string) (k : string) :
  App.Set_has (fold_left App.Set_add names s) k
  = (App.Set_has s k || App.Set_has names k)%bool.
Proof.
  revert s. induction names as [|name names IH]; intros s.
  - simpl. now rewrite orb_false_r.
  - cbn [fold_left]. rewrite IH, Set_has_add. unfold App.Set_has at 4. simpl.
    now rewrite orb_assoc.
Qed.

Lemma Set_add_NoDup (s : list string) (name : string) :
  NoDup s -> NoDup (App.Set_add s name).
Proof.
  intros H. unfold App.Set_add. destruct (App.Set_has s name) eqn:E; [assumption |].
  apply NoDup_app; [assumption | repeat constructor; tauto |].
  intros k Hk [<- | []]. apply Set_has_In in Hk. congruence.
Qed.

(** X24: toggling a name flips its membership in the selection and leaves
    every other name as it was; a selection without repeats stays so. *)
Theorem toggleVariable_membership (selectedVarNames : list string) (name k : string) :
  App.Set_has (App.toggleVariable selectedVarNames name) k
  = (if String.eqb k name then negb (App.Set_has selectedVarNames k)
     else App.Set_has selectedVarNames k)
  /\ (NoDup selectedVarNames -> NoDup (App.toggleVariable selectedVarNames name)).
Proof.
  unfold App.toggleVariable. split.
  - destruct (App.Set_has selectedVarNames name) eqn:E.
    + rewrite Set_has_delete. destruct (String.eqb k name) eqn:Ek.
      * apply String.eqb_eq in Ek. subst k. now rewrite E.
      * now rewrite andb_true_r.
    + rewrite Set_has_add. destruct (String.eqb k name) eqn:Ek.
      * apply String.eqb_eq in Ek. subst k. now rewrite E.
      * now rewrite orb_false_r.
  - intros Hnd. destruct (App.Set_has selectedVarNames name).
    + unfold App.Set_delete. now apply NoDup_filter.
    + now apply Set_add_NoDup.
Qed.

Lemma filter_all {A} (keep : A -> bool) (l : list A) :
  (forall a, In a l -> keep a = true) -> filter keep l = l.
Proof.
  induction l as [|a l IH]; intros H; [reflexivity |].
  simpl. rewrite (H a (or_introl eq_refl)). f_equal. apply IH. intros b Hb. apply H. now right.
Qed.

(** X25: after Select All every variable of the dataset is shown, and
    after Deselect All none is. *)
Theorem selectAll_shows_all (d : Dataset) (selectedVarNames : list string) :
  App.filteredVariables (Some d) (App.selectAll (Some d) selectedVarNames) = variables d
  /\ App.filteredVariables (Some d) App.deselectAll = [].
Proof.
  unfold App.filteredVariables, App.selectAll, App.deselectAll, App.Set_of. split.
  - apply filter_all. intros v Hv. rewrite Set_has_fold_add.
    replace (App.Set_has (map name (variables d)) (name v)) with true;
      [apply orb_true_r |].
    symmetry. apply Set_has_In. now apply in_map.
  - induction (variables d) as [|v vs IH]; [reflexivity | exact IH].
Qed.

(** X26: loading a dataset of at most 50 variables selects them all; of a
    larger one, it shows exactly the variables that bear the name of one of
    the first 20. *)
Theorem initialSelection_shows (d : Dataset) :
  App.filteredVariables (Some d) (App.initialSelection d)
  = if (50 <? List.length (variables d))%nat
    then filter (fun v => App.Set_has (map name (firstn 20 (variables d))) (name v))
                (variables d)
    else variables d.
Proof.
  unfold App.filteredVariables, App.initialSelection.
  assert (H : forall (vs : list DataVariable) k,
             App.Set_has (fold_left (fun s v => App.Set_add s (name v)) vs []) k
             = App.Set_has (map name vs) k).
  { intros vs k.
    replace (fold_left (fun s v => App.Set_add s (name v)) vs [])
      with (fold_left App.Set_add (map name vs) []).
    - apply Set_has_fold_add.
    - generalize (@nil string). induction vs as [|v vs IH]; intros s; [reflexivity |].
      simpl. apply IH. }
  destruct (50 <? List.length (variables d))%nat.
  - apply filter_ext. intros v. apply H.
  - rewrite firstn_all. apply filter_all. intros v Hv. rewrite H.
    apply Set_has_In. now apply in_map.
Qed.

(** X27: the records handed to the heatmap bear the names of selected
    numerical variables of the dataset only, and there are none when fewer
    than two such names are selected. *)
Theorem correlationResults_labels (d : Dataset) (selectedVarNames : list string) :
  let names := App.filteredNumericNames (Some d) selectedVarNames in
  Forall (fun k => exists v, In v (variables d) /\ name v = k /\ type v = numerical
                             /\ App.Set_has selectedVarNames k = true) names
  /\ map (fun c => (x c, y c)) (App.correlationResults (Some d) selectedVarNames)
     = (if (len names <? 2)%Z then [] else list_prod names names).
Proof.
  intros names. split.
  - subst names. unfold App.filteredNumericNames, App.filteredVariables.
    apply Forall_forall. intros k Hk. apply in_map_iff in Hk.
    destruct Hk as (v & <- & Hv). apply filter_In in Hv. destruct Hv as [Hv Ht].
    apply filter_In in Hv. destruct Hv as [Hv Hs].
    exists v. repeat split; try assumption. now destruct (type v).
  - unfold App.correlationResults. fold names.
    destruct (len names <? 2)%Z; [reflexivity |].
    unfold getCorrelationMatrix. generalize names at 2 3. intros rows.
    induction rows as [|a rows IH]; [reflexivity |].
    simpl. rewrite map_app, IH, !map_map. reflexivity.
Qed.

Lemma matrix_In (data : list row) (vars : list string) (c : CorrelationResult) :
  In c (getCorrelationMatrix data vars)
  <-> exists xVar yVar, In xVar vars /\ In yVar vars /\ c = correlate data xVar yVar.
Proof.
  unfold getCorrelationMatrix. rewrite in_flat_map. split.
  - intros (xVar & Hx & Hc). apply in_map_iff in Hc. destruct Hc as (yVar & <- & Hy).
    now exists xVar, yVar.
  - intros (xVar & yVar & Hx & Hy & ->). exists xVar. split; [assumption |].
    now apply in_map.
Qed.

Lemma lookup_matrix (data : list row) (vars : list string) (xVar yVar : string) :
  In xVar vars -> In yVar vars ->
  CorrelationHeatmap.lookup (getCorrelationMatrix data vars) xVar yVar
  = Some (correlate data xVar yVar).
Proof.
  intros Hx Hy. unfold CorrelationHeatmap.lookup.
  destruct (find _ _) as [c|] eqn:E.
  - apply find_some in E. destruct E as [Hin Hc].
    apply matrix_In in Hin. destruct Hin as (x' & y' & _ & _ & ->).
    apply andb_prop in Hc. destruct Hc as [Hcx Hcy].
    apply String.eqb_eq in Hcx, Hcy. cbn [x y correlate] in Hcx, Hcy. now subst.
  - exfalso.
    assert (Hin : In (correlate data xVar yVar) (getCorrelationMatrix data vars)).
    { apply matrix_In. now exists xVar, yVar. }
    apply (find_none _ _ E) in Hin. cbn [x y correlate] in Hin.
    now rewrite !String.eqb_refl in Hin.
Qed.

(** X28: every cell of the heatmap is filled: the cell in the line of yVar
    and the column of xVar shows the record computed for xVar against yVar. *)
Theorem heatmap_cells_filled (d : Dataset) (selectedVarNames : list string) :
  let names := App.filteredNumericNames (Some d) selectedVarNames in
  (2 <= len names)%Z ->
  CorrelationHeatmap.cells (App.correlationResults (Some d) selectedVarNames) names
  = map (fun yVar => map (fun xVar => Some (correlate (data d) xVar yVar)) names) names.
Proof.
  intros names Hlen. unfold App.correlationResults. fold names.
  apply Z.ltb_ge in Hlen. rewrite Hlen. unfold CorrelationHeatmap.cells.
  apply map_ext_in. intros yVar Hy. apply map_ext_in. intros xVar Hx.
  now apply lookup_matrix.
Qed.

End Selection.

(** X28 at work on [doses], loaded by the majority uploader with both
    variables selected: the four cells are filled. *)
Lemma heatmap_cells_filled_witness :
  exists d,
    FileUploadMajority.processRawData (RT := Reference.reference_runtime) doses "doses.xlsx"
    = Some d
    /\ CorrelationHeatmap.cells
         (App.correlationResults (RT := Reference.reference_runtime) (Some d)
                                 ["dose"; "response"]%string)
         (App.filteredNumericNames (Some d) ["dose"; "response"]%string)
       = map (fun yVar =>
                map (fun xVar =>
                       Some (Statistics.correlate (RT := Reference.reference_runtime)
                                                  (data d) xVar yVar))
                    (App.filteredNumericNames (Some d) ["dose"; "response"]%string))
             (App.filteredNumericNames (Some d) ["dose"; "response"]%string).
Proof.
  eexists. split; [vm_compute; reflexivity |].
  apply (heatmap_cells_filled (RT := Reference.reference_runtime)).
  vm_compute. discriminate.
Defined.

Section Bars.
Import DistributionPlot.

Lemma sort_insert_Permutation (a : string * Z) (l : list (string * Z)) :
  Permutation (sort_insert a l) (a :: l).
Proof.
  induction l as [|c l IH]; [reflexivity |].
  simpl. destruct (snd a - snd c <? 0)%Z; [| reflexivity].
  rewrite IH. apply perm_swap.
Qed.

Lemma sort_by_count_Permutation (entries : list (string * Z)) :
  Permutation (sort_by_count entries) entries.
Proof.
  induction entries as [|a l IH]; [reflexivity |].
  simpl. rewrite sort_insert_Permutation. now constructor.
Qed.

Lemma sort_insert_sorted (a : string * Z) (l : list (string * Z)) :
  StronglySorted (fun e e' => (snd e' <= snd e)%Z) l ->
  StronglySorted (fun e e' => (snd e' <= snd e)%Z) (sort_insert a l).
Proof.
  induction l as [|c l IH]; intros Hs; [repeat constructor |].
  inversion Hs as [|? ? Hs' Hall]; subst. simpl.
  destruct (snd a - snd c <? 0)%Z eqn:E.
  - apply Z.ltb_lt in E. constructor; [now apply IH |].
    eapply Permutation_Forall; [symmetry; apply sort_insert_Permutation |].
    constructor; [lia | assumption].
  - apply Z.ltb_ge in E. constructor; [assumption |].
    constructor; [lia |]. eapply Forall_impl; [| exact Hall]. intros e He. simpl in He. lia.
Qed.

Lemma sort_by_count_sorted (entries : list (string * Z)) :
  StronglySorted (fun e e' => (snd e' <= snd e)%Z) (sort_by_count entries).
Proof.
  induction entries as [|a l IH]; [constructor |]. simpl. now apply sort_insert_sorted.
Qed.

Lemma sorted_firstn_skipn {A} (R : A -> A -> Prop) (l : list A) (n : nat) :
  StronglySorted R l ->
  StronglySorted R (firstn n l)
  /\ Forall (fun e => Forall (fun e' => R e e') (skipn n l)) (firstn n l).
Proof.
  revert n. induction l as [|a l IH]; intros n Hs.
  - rewrite firstn_nil. split; constructor.
  - destruct n as [|n]; [split; constructor |].
    inversion Hs as [|? ? Hs' Hall]; subst. destruct (IH n Hs') as [H1 H2].
    cbn [firstn skipn]. split.
    + constructor; [assumption |].
      rewrite Forall_forall in *. intros e He. apply Hall.
      rewrite <- (firstn_skipn n l). apply in_or_app. now left.
    + constructor; [| assumption].
      rewrite Forall_forall in *. intros e He. apply Hall.
      rewrite <- (firstn_skipn n l). apply in_or_app. now right.
Qed.

(** X29: the bars of a categorical variable are its eight most frequent
    categories, most frequent first: at most eight bars, all of them when
    there are at most eight categories, with counts in descending order, and
    the categories left out are the rest of the table, none of them more
    frequent than a bar that is drawn. *)
Theorem bars_are_the_most_frequent (freqs : list (string * Z)) (totalCount : Z) :
  List.length (bars freqs totalCount) = Nat.min 8 (List.length freqs)
  /\ StronglySorted (fun b b' => (bar_count b' <= bar_count b)%Z) (bars freqs totalCount)
  /\ exists rest,
       Permutation freqs (map bar_entry (bars freqs totalCount) ++ rest)
       /\ Forall (fun b => Forall (fun e => (snd e <= bar_count b)%Z) rest)
                 (bars freqs totalCount).
Proof.
  unfold bars.
  pose proof (sort_by_count_Permutation freqs) as Hperm.
  pose proof (sorted_firstn_skipn _ _ 8 (sort_by_count_sorted freqs)) as [Hs Hrest].
  split; [| split].
  - rewrite length_map, length_firstn, (Permutation_length Hperm). reflexivity.
  - revert Hs. generalize (firstn 8 (sort_by_count freqs)). intros l Hs.
    induction Hs as [|a l Hs IH Hall]; [constructor |].
    cbn [map]. constructor; [assumption |].
    apply Forall_map. eapply Forall_impl; [| exact Hall]. intros e He. exact He.
  - exists (skipn 8 (sort_by_count freqs)). split.
    + rewrite map_map. unfold bar_entry. cbn [bar_name bar_count].
      rewrite (map_ext _ (fun e => e)) by (now intros [k c]).
      rewrite map_id, firstn_skipn. now symmetry.
    + apply Forall_map. eapply Forall_impl; [| exact Hrest].
      intros e He. exact He.
Qed.

End Bars.
